(** * Request lifecycle and progress bookkeeping

    A shallow embedding of [GenericLlmRequest] from
    [cpp/include/tensorrt_llm/batch_manager/llmRequest.h]: the per-request
    state machine of the batch manager, its per-beam token and log-prob
    stores, the chunked-context cursor and the pause/resume policy.

    The class is embedded as a record with one field per data member and one
    Rocq function per member function.  Member functions that mutate the
    object are computations in a state-and-exception monad: a call either
    returns, or throws and leaves the object in the state it had at the throw.
    [const] member functions are functions of the record. *)

From Stdlib Require Import ZArith Lia String.
From Stdlib Require Import Floats.PrimFloat.
From stdpp Require Import base option list.

#[local] Open Scope Z_scope.

(** ** Machine integers *)

(** Modelled from the spec: [runtime::SizeType] and [runtime::TokenIdType]
    are declared in [runtime/common.h], which is not among the sources at
    hand.  They are taken as the signed 32-bit integers the sources treat them
    as (printed with [%d], assigned [-1], mixed with [int32_t]).  Values are
    carried as [Z]; every arithmetic result is reduced to the 32-bit
    two's-complement range. *)
Module Int32.
Definition modulus : Z := 2 ^ 32.
Definition min_value : Z := - 2 ^ 31.
Definition max_value : Z := 2 ^ 31 - 1.

Definition in_range (x : Z) : Prop := min_value <= x <= max_value.

Definition wrap (x : Z) : Z := (x - min_value) mod modulus + min_value.

Definition add (a b : Z) : Z := wrap (a + b).
Definition sub (a b : Z) : Z := wrap (a - b).

(** [static_cast<SizeType>(v.size())], and the implicit narrowing of
    [inputTokens->size()] in the constructor's initialiser list. *)
Definition of_size (n : nat) : Z := wrap (Z.of_nat n).
End Int32.

Definition SizeType : Type := Z.
Definition TokenIdType : Type := Z.
Definition RequestIdType : Type := Z.
Definition VecTokens : Type := list TokenIdType.
Definition VecLogProbs : Type := list float.
Definition BeamTokens : Type := list VecTokens.

(** ** Exceptions and results *)

Inductive exception : Type :=
| runtime_error (what : string)   (* std::runtime_error *)
| TllmException (what : string)   (* thrown by TLLM_CHECK_WITH_INFO *)
| length_error                    (* std::length_error *)
| out_of_range                    (* std::out_of_range, from vector::at *)
| assertion_failure.              (* a failed assert() *)

Inductive result (A : Type) : Type :=
| Ok (a : A)
| Err (e : exception).
Arguments Ok {A} a.
Arguments Err {A} e.

#[global] Instance result_ret : MRet result := fun A a => Ok a.
#[global] Instance result_bind : MBind result := fun A B f m =>
  match m with
  | Ok a => f a
  | Err e => Err e
  end.

Definition is_Err {A} (m : result A) : Prop := exists e, m = Err e.

(** A call on an object of type [S]: it returns a value and the new object,
    or throws and leaves the object as it was at the throw. *)
Inductive outcome (S A : Type) : Type :=
| Ret (a : A) (s : S)
| Throw (e : exception) (s : S).
Arguments Ret {S A} a s.
Arguments Throw {S A} e s.

Definition M (S A : Type) : Type := S -> outcome S A.

Definition ret {S A} (a : A) : M S A := fun s => Ret a s.

Definition bind {S A B} (m : M S A) (k : A -> M S B) : M S B := fun s =>
  match m s with
  | Ret a s' => k a s'
  | Throw e s' => Throw e s'
  end.

Definition get {S} : M S S := fun s => Ret s s.
Definition modify {S} (f : S -> S) : M S unit := fun s => Ret tt (f s).
Definition throw {S A} (e : exception) : M S A := fun s => Throw e s.

(** A [const] member function that may throw, called from a mutating one. *)
Definition lift {S A} (f : S -> result A) : M S A := fun s =>
  match f s with
  | Ok a => Ret a s
  | Err e => Throw e s
  end.

#[global] Instance M_ret {S} : MRet (M S) := fun A => @ret S A.
#[global] Instance M_bind {S} : MBind (M S) := fun A B k m => bind m k.

(** The object after the call, whether it returned or threw. *)
Definition final_state {S A} (o : outcome S A) : S :=
  match o with
  | Ret _ s => s
  | Throw _ s => s
  end.

Definition returns {S A} (o : outcome S A) : Prop := exists a s, o = Ret a s.
Definition throws {S A} (o : outcome S A) : Prop := exists e s, o = Throw e s.

(** [keeps I m]: from a state satisfying [I], the call [m] leaves a state
    satisfying [I], whether it returns or throws. *)
Definition keeps {S A} (I : S -> Prop) (m : M S A) : Prop :=
  forall s, I s -> I (final_state (m s)).

(** Modelled from the spec: the macro [TLLM_CHECK_WITH_INFO(cond, msg)] is
    defined in [common/assert.h], which is not among the sources at hand.  A
    violated check is fatal for the call: it throws, with the message, before
    anything after it runs. *)
Definition TLLM_CHECK_WITH_INFO {S} (cond : bool) (info : string) : M S unit :=
  if cond then ret tt else throw (TllmException info).

(** [assert(cond)], with assertions enabled. *)
Definition assert {S} (cond : bool) : M S unit :=
  if cond then ret tt else throw assertion_failure.

(** [for (std::size_t i = 0; i < n; ++i) body(i)] *)
Fixpoint for_each {S} (indices : list nat) (body : nat -> M S unit) : M S unit :=
  match indices with
  | [] => ret tt
  | i :: rest => body i ≫= λ _, for_each rest body
  end.

(** [for (std::size_t i = 0; i < v.size(); ++i) body(i, v[i])] *)
Fixpoint for_each_from {S A} (i : nat) (v : list A) (body : nat -> A -> M S unit)
  : M S unit :=
  match v with
  | [] => ret tt
  | x :: rest => body i x ≫= λ _, for_each_from (Datatypes.S i) rest body
  end.

(** ** std::vector *)

(** A [SizeType] used as a [size_type] converts modulo [2^64]: a negative
    value becomes a count above [max_size()].  [vector(count, value)] and
    [resize(count)] then throw [std::length_error], and [at(pos)] throws
    [std::out_of_range].  Exhaustion of memory is not modelled. *)
Definition vector_new {A} (count : SizeType) (value : A) : result (list A) :=
  if decide (0 <= count) then Ok (replicate (Z.to_nat count) value)
  else Err length_error.

Definition vector_resize {A} (value : A) (count : SizeType) (v : list A)
  : result (list A) :=
  if decide (0 <= count) then Ok (resize (Z.to_nat count) value v)
  else Err length_error.

Definition vector_at {A} (v : list A) (pos : Z) : result A :=
  if decide (0 <= pos) then
    match v !! Z.to_nat pos with
    | Some x => Ok x
    | None => Err out_of_range
    end
  else Err out_of_range.

(** [v.at(pos) = f(v.at(pos))] for an update [f] that may itself throw. *)
Definition vector_update_at {A} (v : list A) (pos : Z) (f : A -> result A)
  : result (list A) :=
  x ← vector_at v pos;
  x' ← f x;
  Ok (<[Z.to_nat pos := x']> v).

(** ** The request *)

Inductive LlmRequestState_t : Type :=
| REQUEST_STATE_UNKNOWN
| REQUEST_STATE_CONTEXT_INIT
| REQUEST_STATE_GENERATION_IN_PROGRESS
| REQUEST_STATE_GENERATION_COMPLETE.

#[global] Instance LlmRequestState_eq_dec : EqDecision LlmRequestState_t.
Proof. solve_decision. Defined.

(** Modelled from the spec: [runtime::SamplingConfig] is declared in
    [runtime/samplingConfig.h], which is not part of the sources at hand.  The
    request only reads its beam width. *)
Record SamplingConfig : Type := { beamWidth : SizeType }.

(** [for (i = 0; i < n; ++i) acc = body(acc, i)] where [body] may throw. *)
Fixpoint for_fold {A} (indices : list nat) (acc : A) (body : A -> nat -> result A)
  : result A :=
  match indices with
  | [] => Ok acc
  | i :: rest => acc' ← body acc i; for_fold rest acc' body
  end.

Section WithTensor.

(** The template parameter [TTensor], and the value of a default-constructed
    [TTensor] (the constructor leaves the logits members default-initialised). *)
Context {TTensor : Type}.
Variable TTensor_default : TTensor.

Record Request : Type := {
  mRequestId : RequestIdType;
  mPromptLen : SizeType;
  mMaxNewTokens : SizeType;
  mSamplingConfig : SamplingConfig;
  mState : LlmRequestState_t;
  mIsStreaming : bool;
  mEndId : option SizeType;
  mPadId : option SizeType;
  mSeqSlot : SizeType;
  mOrigPromptLen : SizeType;
  mTokens : BeamTokens;
  mMaxSentTokenPos : SizeType;
  mEmbeddingBias : option TTensor;
  mBadWordsList : option TTensor;
  mStopWordsList : option TTensor;
  mPromptEmbeddingTable : option TTensor;
  mPromptVocabSize : option SizeType;
  mLoraWeights : option TTensor;
  mLoraConfig : option TTensor;
  mReturnLogProbs : bool;
  mContextChunkSize : option SizeType;
  mContextCurrentPosition : SizeType;
  mLogProbs : list VecLogProbs;
  mCumLogProbs : VecLogProbs;
  (* a shared_ptr: [None] is the null pointer *)
  mDraftTokens : option VecTokens;
  mDraftLogits : option TTensor;
  mContextLogits : TTensor;
  mContextLogitsHost : TTensor;
  mGenerationLogits : TTensor;
  mGenerationLogitsHost : TTensor;
  mGenerationLogitsFragments : list TTensor
}.

(** Assignments to single data members. *)
Definition set_mPromptLen (x : SizeType) (r : Request) : Request :=
  {| mRequestId := mRequestId r; mPromptLen := x; mMaxNewTokens := mMaxNewTokens r;
     mSamplingConfig := mSamplingConfig r; mState := mState r;
     mIsStreaming := mIsStreaming r; mEndId := mEndId r; mPadId := mPadId r;
     mSeqSlot := mSeqSlot r; mOrigPromptLen := mOrigPromptLen r;
     mTokens := mTokens r; mMaxSentTokenPos := mMaxSentTokenPos r;
     mEmbeddingBias := mEmbeddingBias r; mBadWordsList := mBadWordsList r;
     mStopWordsList := mStopWordsList r;
     mPromptEmbeddingTable := mPromptEmbeddingTable r;
     mPromptVocabSize := mPromptVocabSize r; mLoraWeights := mLoraWeights r;
     mLoraConfig := mLoraConfig r; mReturnLogProbs := mReturnLogProbs r;
     mContextChunkSize := mContextChunkSize r;
     mContextCurrentPosition := mContextCurrentPosition r;
     mLogProbs := mLogProbs r; mCumLogProbs := mCumLogProbs r;
     mDraftTokens := mDraftTokens r; mDraftLogits := mDraftLogits r;
     mContextLogits := mContextLogits r;
     mContextLogitsHost := mContextLogitsHost r;
     mGenerationLogits := mGenerationLogits r;
     mGenerationLogitsHost := mGenerationLogitsHost r;
     mGenerationLogitsFragments := mGenerationLogitsFragments r |}.

Definition set_mMaxNewTokens (x : SizeType) (r : Request) : Request :=
  {| mRequestId := mRequestId r; mPromptLen := mPromptLen r; mMaxNewTokens := x;
     mSamplingConfig := mSamplingConfig r; mState := mState r;
     mIsStreaming := mIsStreaming r; mEndId := mEndId r; mPadId := mPadId r;
     mSeqSlot := mSeqSlot r; mOrigPromptLen := mOrigPromptLen r;
     mTokens := mTokens r; mMaxSentTokenPos := mMaxSentTokenPos r;
     mEmbeddingBias := mEmbeddingBias r; mBadWordsList := mBadWordsList r;
     mStopWordsList := mStopWordsList r;
     mPromptEmbeddingTable := mPromptEmbeddingTable r;
     mPromptVocabSize := mPromptVocabSize r; mLoraWeights := mLoraWeights r;
     mLoraConfig := mLoraConfig r; mReturnLogProbs := mReturnLogProbs r;
     mContextChunkSize := mContextChunkSize r;
     mContextCurrentPosition := mContextCurrentPosition r;
     mLogProbs := mLogProbs r; mCumLogProbs := mCumLogProbs r;
     mDraftTokens := mDraftTokens r; mDraftLogits := mDraftLogits r;
     mContextLogits := mContextLogits r;
     mContextLogitsHost := mContextLogitsHost r;
     mGenerationLogits := mGenerationLogits r;
     mGenerationLogitsHost := mGenerationLogitsHost r;
     mGenerationLogitsFragments := mGenerationLogitsFragments r |}.

Definition set_mState (x : LlmRequestState_t) (r : Request) : Request :=
  {| mRequestId := mRequestId r; mPromptLen := mPromptLen r;
     mMaxNewTokens := mMaxNewTokens r;
     mSamplingConfig := mSamplingConfig r; mState := x;
     mIsStreaming := mIsStreaming r; mEndId := mEndId r; mPadId := mPadId r;
     mSeqSlot := mSeqSlot r; mOrigPromptLen := mOrigPromptLen r;
     mTokens := mTokens r; mMaxSentTokenPos := mMaxSentTokenPos r;
     mEmbeddingBias := mEmbeddingBias r; mBadWordsList := mBadWordsList r;
     mStopWordsList := mStopWordsList r;
     mPromptEmbeddingTable := mPromptEmbeddingTable r;
     mPromptVocabSize := mPromptVocabSize r; mLoraWeights := mLoraWeights r;
     mLoraConfig := mLoraConfig r; mReturnLogProbs := mReturnLogProbs r;
     mContextChunkSize := mContextChunkSize r;
     mContextCurrentPosition := mContextCurrentPosition r;
     mLogProbs := mLogProbs r; mCumLogProbs := mCumLogProbs r;
     mDraftTokens := mDraftTokens r; mDraftLogits := mDraftLogits r;
     mContextLogits := mContextLogits r;
     mContextLogitsHost := mContextLogitsHost r;
     mGenerationLogits := mGenerationLogits r;
     mGenerationLogitsHost := mGenerationLogitsHost r;
     mGenerationLogitsFragments := mGenerationLogitsFragments r |}.

Definition set_mSeqSlot (x : SizeType) (r : Request) : Request :=
  {| mRequestId := mRequestId r; mPromptLen := mPromptLen r;
     mMaxNewTokens := mMaxNewTokens r;
     mSamplingConfig := mSamplingConfig r; mState := mState r;
     mIsStreaming := mIsStreaming r; mEndId := mEndId r; mPadId := mPadId r;
     mSeqSlot := x; mOrigPromptLen := mOrigPromptLen r;
     mTokens := mTokens r; mMaxSentTokenPos := mMaxSentTokenPos r;
     mEmbeddingBias := mEmbeddingBias r; mBadWordsList := mBadWordsList r;
     mStopWordsList := mStopWordsList r;
     mPromptEmbeddingTable := mPromptEmbeddingTable r;
     mPromptVocabSize := mPromptVocabSize r; mLoraWeights := mLoraWeights r;
     mLoraConfig := mLoraConfig r; mReturnLogProbs := mReturnLogProbs r;
     mContextChunkSize := mContextChunkSize r;
     mContextCurrentPosition := mContextCurrentPosition r;
     mLogProbs := mLogProbs r; mCumLogProbs := mCumLogProbs r;
     mDraftTokens := mDraftTokens r; mDraftLogits := mDraftLogits r;
     mContextLogits := mContextLogits r;
     mContextLogitsHost := mContextLogitsHost r;
     mGenerationLogits := mGenerationLogits r;
     mGenerationLogitsHost := mGenerationLogitsHost r;
     mGenerationLogitsFragments := mGenerationLogitsFragments r |}.

Definition set_mTokens (x : BeamTokens) (r : Request) : Request :=
  {| mRequestId := mRequestId r; mPromptLen := mPromptLen r;
     mMaxNewTokens := mMaxNewTokens r;
     mSamplingConfig := mSamplingConfig r; mState := mState r;
     mIsStreaming := mIsStreaming r; mEndId := mEndId r; mPadId := mPadId r;
     mSeqSlot := mSeqSlot r; mOrigPromptLen := mOrigPromptLen r;
     mTokens := x; mMaxSentTokenPos := mMaxSentTokenPos r;
     mEmbeddingBias := mEmbeddingBias r; mBadWordsList := mBadWordsList r;
     mStopWordsList := mStopWordsList r;
     mPromptEmbeddingTable := mPromptEmbeddingTable r;
     mPromptVocabSize := mPromptVocabSize r; mLoraWeights := mLoraWeights r;
     mLoraConfig := mLoraConfig r; mReturnLogProbs := mReturnLogProbs r;
     mContextChunkSize := mContextChunkSize r;
     mContextCurrentPosition := mContextCurrentPosition r;
     mLogProbs := mLogProbs r; mCumLogProbs := mCumLogProbs r;
     mDraftTokens := mDraftTokens r; mDraftLogits := mDraftLogits r;
     mContextLogits := mContextLogits r;
     mContextLogitsHost := mContextLogitsHost r;
     mGenerationLogits := mGenerationLogits r;
     mGenerationLogitsHost := mGenerationLogitsHost r;
     mGenerationLogitsFragments := mGenerationLogitsFragments r |}.

Definition set_mMaxSentTokenPos (x : SizeType) (r : Request) : Request :=
  {| mRequestId := mRequestId r; mPromptLen := mPromptLen r;
     mMaxNewTokens := mMaxNewTokens r;
     mSamplingConfig := mSamplingConfig r; mState := mState r;
     mIsStreaming := mIsStreaming r; mEndId := mEndId r; mPadId := mPadId r;
     mSeqSlot := mSeqSlot r; mOrigPromptLen := mOrigPromptLen r;
     mTokens := mTokens r; mMaxSentTokenPos := x;
     mEmbeddingBias := mEmbeddingBias r; mBadWordsList := mBadWordsList r;
     mStopWordsList := mStopWordsList r;
     mPromptEmbeddingTable := mPromptEmbeddingTable r;
     mPromptVocabSize := mPromptVocabSize r; mLoraWeights := mLoraWeights r;
     mLoraConfig := mLoraConfig r; mReturnLogProbs := mReturnLogProbs r;
     mContextChunkSize := mContextChunkSize r;
     mContextCurrentPosition := mContextCurrentPosition r;
     mLogProbs := mLogProbs r; mCumLogProbs := mCumLogProbs r;
     mDraftTokens := mDraftTokens r; mDraftLogits := mDraftLogits r;
     mContextLogits := mContextLogits r;
     mContextLogitsHost := mContextLogitsHost r;
     mGenerationLogits := mGenerationLogits r;
     mGenerationLogitsHost := mGenerationLogitsHost r;
     mGenerationLogitsFragments := mGenerationLogitsFragments r |}.

Definition set_mContextChunkSize (x : option SizeType) (r : Request) : Request :=
  {| mRequestId := mRequestId r; mPromptLen := mPromptLen r;
     mMaxNewTokens := mMaxNewTokens r;
     mSamplingConfig := mSamplingConfig r; mState := mState r;
     mIsStreaming := mIsStreaming r; mEndId := mEndId r; mPadId := mPadId r;
     mSeqSlot := mSeqSlot r; mOrigPromptLen := mOrigPromptLen r;
     mTokens := mTokens r; mMaxSentTokenPos := mMaxSentTokenPos r;
     mEmbeddingBias := mEmbeddingBias r; mBadWordsList := mBadWordsList r;
     mStopWordsList := mStopWordsList r;
     mPromptEmbeddingTable := mPromptEmbeddingTable r;
     mPromptVocabSize := mPromptVocabSize r; mLoraWeights := mLoraWeights r;
     mLoraConfig := mLoraConfig r; mReturnLogProbs := mReturnLogProbs r;
     mContextChunkSize := x;
     mContextCurrentPosition := mContextCurrentPosition r;
     mLogProbs := mLogProbs r; mCumLogProbs := mCumLogProbs r;
     mDraftTokens := mDraftTokens r; mDraftLogits := mDraftLogits r;
     mContextLogits := mContextLogits r;
     mContextLogitsHost := mContextLogitsHost r;
     mGenerationLogits := mGenerationLogits r;
     mGenerationLogitsHost := mGenerationLogitsHost r;
     mGenerationLogitsFragments := mGenerationLogitsFragments r |}.

Definition set_mContextCurrentPosition (x : SizeType) (r : Request) : Request :=
  {| mRequestId := mRequestId r; mPromptLen := mPromptLen r;
     mMaxNewTokens := mMaxNewTokens r;
     mSamplingConfig := mSamplingConfig r; mState := mState r;
     mIsStreaming := mIsStreaming r; mEndId := mEndId r; mPadId := mPadId r;
     mSeqSlot := mSeqSlot r; mOrigPromptLen := mOrigPromptLen r;
     mTokens := mTokens r; mMaxSentTokenPos := mMaxSentTokenPos r;
     mEmbeddingBias := mEmbeddingBias r; mBadWordsList := mBadWordsList r;
     mStopWordsList := mStopWordsList r;
     mPromptEmbeddingTable := mPromptEmbeddingTable r;
     mPromptVocabSize := mPromptVocabSize r; mLoraWeights := mLoraWeights r;
     mLoraConfig := mLoraConfig r; mReturnLogProbs := mReturnLogProbs r;
     mContextChunkSize := mContextChunkSize r;
     mContextCurrentPosition := x;
     mLogProbs := mLogProbs r; mCumLogProbs := mCumLogProbs r;
     mDraftTokens := mDraftTokens r; mDraftLogits := mDraftLogits r;
     mContextLogits := mContextLogits r;
     mContextLogitsHost := mContextLogitsHost r;
     mGenerationLogits := mGenerationLogits r;
     mGenerationLogitsHost := mGenerationLogitsHost r;
     mGenerationLogitsFragments := mGenerationLogitsFragments r |}.

Definition set_mLogProbs (x : list VecLogProbs) (r : Request) : Request :=
  {| mRequestId := mRequestId r; mPromptLen := mPromptLen r;
     mMaxNewTokens := mMaxNewTokens r;
     mSamplingConfig := mSamplingConfig r; mState := mState r;
     mIsStreaming := mIsStreaming r; mEndId := mEndId r; mPadId := mPadId r;
     mSeqSlot := mSeqSlot r; mOrigPromptLen := mOrigPromptLen r;
     mTokens := mTokens r; mMaxSentTokenPos := mMaxSentTokenPos r;
     mEmbeddingBias := mEmbeddingBias r; mBadWordsList := mBadWordsList r;
     mStopWordsList := mStopWordsList r;
     mPromptEmbeddingTable := mPromptEmbeddingTable r;
     mPromptVocabSize := mPromptVocabSize r; mLoraWeights := mLoraWeights r;
     mLoraConfig := mLoraConfig r; mReturnLogProbs := mReturnLogProbs r;
     mContextChunkSize := mContextChunkSize r;
     mContextCurrentPosition := mContextCurrentPosition r;
     mLogProbs := x; mCumLogProbs := mCumLogProbs r;
     mDraftTokens := mDraftTokens r; mDraftLogits := mDraftLogits r;
     mContextLogits := mContextLogits r;
     mContextLogitsHost := mContextLogitsHost r;
     mGenerationLogits := mGenerationLogits r;
     mGenerationLogitsHost := mGenerationLogitsHost r;
     mGenerationLogitsFragments := mGenerationLogitsFragments r |}.

Definition set_mCumLogProbs (x : VecLogProbs) (r : Request) : Request :=
  {| mRequestId := mRequestId r; mPromptLen := mPromptLen r;
     mMaxNewTokens := mMaxNewTokens r;
     mSamplingConfig := mSamplingConfig r; mState := mState r;
     mIsStreaming := mIsStreaming r; mEndId := mEndId r; mPadId := mPadId r;
     mSeqSlot := mSeqSlot r; mOrigPromptLen := mOrigPromptLen r;
     mTokens := mTokens r; mMaxSentTokenPos := mMaxSentTokenPos r;
     mEmbeddingBias := mEmbeddingBias r; mBadWordsList := mBadWordsList r;
     mStopWordsList := mStopWordsList r;
     mPromptEmbeddingTable := mPromptEmbeddingTable r;
     mPromptVocabSize := mPromptVocabSize r; mLoraWeights := mLoraWeights r;
     mLoraConfig := mLoraConfig r; mReturnLogProbs := mReturnLogProbs r;
     mContextChunkSize := mContextChunkSize r;
     mContextCurrentPosition := mContextCurrentPosition r;
     mLogProbs := mLogProbs r; mCumLogProbs := x;
     mDraftTokens := mDraftTokens r; mDraftLogits := mDraftLogits r;
     mContextLogits := mContextLogits r;
     mContextLogitsHost := mContextLogitsHost r;
     mGenerationLogits := mGenerationLogits r;
     mGenerationLogitsHost := mGenerationLogitsHost r;
     mGenerationLogitsFragments := mGenerationLogitsFragments r |}.

Definition set_mDraftTokens (x : option VecTokens) (r : Request) : Request :=
  {| mRequestId := mRequestId r; mPromptLen := mPromptLen r;
     mMaxNewTokens := mMaxNewTokens r;
     mSamplingConfig := mSamplingConfig r; mState := mState r;
     mIsStreaming := mIsStreaming r; mEndId := mEndId r; mPadId := mPadId r;
     mSeqSlot := mSeqSlot r; mOrigPromptLen := mOrigPromptLen r;
     mTokens := mTokens r; mMaxSentTokenPos := mMaxSentTokenPos r;
     mEmbeddingBias := mEmbeddingBias r; mBadWordsList := mBadWordsList r;
     mStopWordsList := mStopWordsList r;
     mPromptEmbeddingTable := mPromptEmbeddingTable r;
     mPromptVocabSize := mPromptVocabSize r; mLoraWeights := mLoraWeights r;
     mLoraConfig := mLoraConfig r; mReturnLogProbs := mReturnLogProbs r;
     mContextChunkSize := mContextChunkSize r;
     mContextCurrentPosition := mContextCurrentPosition r;
     mLogProbs := mLogProbs r; mCumLogProbs := mCumLogProbs r;
     mDraftTokens := x; mDraftLogits := mDraftLogits r;
     mContextLogits := mContextLogits r;
     mContextLogitsHost := mContextLogitsHost r;
     mGenerationLogits := mGenerationLogits r;
     mGenerationLogitsHost := mGenerationLogitsHost r;
     mGenerationLogitsFragments := mGenerationLogitsFragments r |}.

Definition set_mDraftLogits (x : option TTensor) (r : Request) : Request :=
  {| mRequestId := mRequestId r; mPromptLen := mPromptLen r;
     mMaxNewTokens := mMaxNewTokens r;
     mSamplingConfig := mSamplingConfig r; mState := mState r;
     mIsStreaming := mIsStreaming r; mEndId := mEndId r; mPadId := mPadId r;
     mSeqSlot := mSeqSlot r; mOrigPromptLen := mOrigPromptLen r;
     mTokens := mTokens r; mMaxSentTokenPos := mMaxSentTokenPos r;
     mEmbeddingBias := mEmbeddingBias r; mBadWordsList := mBadWordsList r;
     mStopWordsList := mStopWordsList r;
     mPromptEmbeddingTable := mPromptEmbeddingTable r;
     mPromptVocabSize := mPromptVocabSize r; mLoraWeights := mLoraWeights r;
     mLoraConfig := mLoraConfig r; mReturnLogProbs := mReturnLogProbs r;
     mContextChunkSize := mContextChunkSize r;
     mContextCurrentPosition := mContextCurrentPosition r;
     mLogProbs := mLogProbs r; mCumLogProbs := mCumLogProbs r;
     mDraftTokens := mDraftTokens r; mDraftLogits := x;
     mContextLogits := mContextLogits r;
     mContextLogitsHost := mContextLogitsHost r;
     mGenerationLogits := mGenerationLogits r;
     mGenerationLogitsHost := mGenerationLogitsHost r;
     mGenerationLogitsFragments := mGenerationLogitsFragments r |}.

Definition set_mContextLogitsHost (x : TTensor) (r : Request) : Request :=
  {| mRequestId := mRequestId r; mPromptLen := mPromptLen r;
     mMaxNewTokens := mMaxNewTokens r;
     mSamplingConfig := mSamplingConfig r; mState := mState r;
     mIsStreaming := mIsStreaming r; mEndId := mEndId r; mPadId := mPadId r;
     mSeqSlot := mSeqSlot r; mOrigPromptLen := mOrigPromptLen r;
     mTokens := mTokens r; mMaxSentTokenPos := mMaxSentTokenPos r;
     mEmbeddingBias := mEmbeddingBias r; mBadWordsList := mBadWordsList r;
     mStopWordsList := mStopWordsList r;
     mPromptEmbeddingTable := mPromptEmbeddingTable r;
     mPromptVocabSize := mPromptVocabSize r; mLoraWeights := mLoraWeights r;
     mLoraConfig := mLoraConfig r; mReturnLogProbs := mReturnLogProbs r;
     mContextChunkSize := mContextChunkSize r;
     mContextCurrentPosition := mContextCurrentPosition r;
     mLogProbs := mLogProbs r; mCumLogProbs := mCumLogProbs r;
     mDraftTokens := mDraftTokens r; mDraftLogits := mDraftLogits r;
     mContextLogits := mContextLogits r;
     mContextLogitsHost := x;
     mGenerationLogits := mGenerationLogits r;
     mGenerationLogitsHost := mGenerationLogitsHost r;
     mGenerationLogitsFragments := mGenerationLogitsFragments r |}.

Definition set_mGenerationLogitsHost (x : TTensor) (r : Request) : Request :=
  {| mRequestId := mRequestId r; mPromptLen := mPromptLen r;
     mMaxNewTokens := mMaxNewTokens r;
     mSamplingConfig := mSamplingConfig r; mState := mState r;
     mIsStreaming := mIsStreaming r; mEndId := mEndId r; mPadId := mPadId r;
     mSeqSlot := mSeqSlot r; mOrigPromptLen := mOrigPromptLen r;
     mTokens := mTokens r; mMaxSentTokenPos := mMaxSentTokenPos r;
     mEmbeddingBias := mEmbeddingBias r; mBadWordsList := mBadWordsList r;
     mStopWordsList := mStopWordsList r;
     mPromptEmbeddingTable := mPromptEmbeddingTable r;
     mPromptVocabSize := mPromptVocabSize r; mLoraWeights := mLoraWeights r;
     mLoraConfig := mLoraConfig r; mReturnLogProbs := mReturnLogProbs r;
     mContextChunkSize := mContextChunkSize r;
     mContextCurrentPosition := mContextCurrentPosition r;
     mLogProbs := mLogProbs r; mCumLogProbs := mCumLogProbs r;
     mDraftTokens := mDraftTokens r; mDraftLogits := mDraftLogits r;
     mContextLogits := mContextLogits r;
     mContextLogitsHost := mContextLogitsHost r;
     mGenerationLogits := mGenerationLogits r;
     mGenerationLogitsHost := x;
     mGenerationLogitsFragments := mGenerationLogitsFragments r |}.

Definition set_mGenerationLogitsFragments (x : list TTensor) (r : Request)
  : Request :=
  {| mRequestId := mRequestId r; mPromptLen := mPromptLen r;
     mMaxNewTokens := mMaxNewTokens r;
     mSamplingConfig := mSamplingConfig r; mState := mState r;
     mIsStreaming := mIsStreaming r; mEndId := mEndId r; mPadId := mPadId r;
     mSeqSlot := mSeqSlot r; mOrigPromptLen := mOrigPromptLen r;
     mTokens := mTokens r; mMaxSentTokenPos := mMaxSentTokenPos r;
     mEmbeddingBias := mEmbeddingBias r; mBadWordsList := mBadWordsList r;
     mStopWordsList := mStopWordsList r;
     mPromptEmbeddingTable := mPromptEmbeddingTable r;
     mPromptVocabSize := mPromptVocabSize r; mLoraWeights := mLoraWeights r;
     mLoraConfig := mLoraConfig r; mReturnLogProbs := mReturnLogProbs r;
     mContextChunkSize := mContextChunkSize r;
     mContextCurrentPosition := mContextCurrentPosition r;
     mLogProbs := mLogProbs r; mCumLogProbs := mCumLogProbs r;
     mDraftTokens := mDraftTokens r; mDraftLogits := mDraftLogits r;
     mContextLogits := mContextLogits r;
     mContextLogitsHost := mContextLogitsHost r;
     mGenerationLogits := mGenerationLogits r;
     mGenerationLogitsHost := mGenerationLogitsHost r;
     mGenerationLogitsFragments := x |}.


(** *** Data members by name *)

(** The data members of the class, and the statement that a request [r'] has
    every member as in [r], but for the listed ones: what a member function
    leaves alone. *)
Inductive Member : Type :=
  | member_mRequestId
  | member_mPromptLen
  | member_mMaxNewTokens
  | member_mSamplingConfig
  | member_mState
  | member_mIsStreaming
  | member_mEndId
  | member_mPadId
  | member_mSeqSlot
  | member_mOrigPromptLen
  | member_mTokens
  | member_mMaxSentTokenPos
  | member_mEmbeddingBias
  | member_mBadWordsList
  | member_mStopWordsList
  | member_mPromptEmbeddingTable
  | member_mPromptVocabSize
  | member_mLoraWeights
  | member_mLoraConfig
  | member_mReturnLogProbs
  | member_mContextChunkSize
  | member_mContextCurrentPosition
  | member_mLogProbs
  | member_mCumLogProbs
  | member_mDraftTokens
  | member_mDraftLogits
  | member_mContextLogits
  | member_mContextLogitsHost
  | member_mGenerationLogits
  | member_mGenerationLogitsHost
  | member_mGenerationLogitsFragments.

Definition same_member (m : Member) (r r' : Request) : Prop :=
  match m with
  | member_mRequestId => mRequestId r' = mRequestId r
  | member_mPromptLen => mPromptLen r' = mPromptLen r
  | member_mMaxNewTokens => mMaxNewTokens r' = mMaxNewTokens r
  | member_mSamplingConfig => mSamplingConfig r' = mSamplingConfig r
  | member_mState => mState r' = mState r
  | member_mIsStreaming => mIsStreaming r' = mIsStreaming r
  | member_mEndId => mEndId r' = mEndId r
  | member_mPadId => mPadId r' = mPadId r
  | member_mSeqSlot => mSeqSlot r' = mSeqSlot r
  | member_mOrigPromptLen => mOrigPromptLen r' = mOrigPromptLen r
  | member_mTokens => mTokens r' = mTokens r
  | member_mMaxSentTokenPos => mMaxSentTokenPos r' = mMaxSentTokenPos r
  | member_mEmbeddingBias => mEmbeddingBias r' = mEmbeddingBias r
  | member_mBadWordsList => mBadWordsList r' = mBadWordsList r
  | member_mStopWordsList => mStopWordsList r' = mStopWordsList r
  | member_mPromptEmbeddingTable => mPromptEmbeddingTable r' = mPromptEmbeddingTable r
  | member_mPromptVocabSize => mPromptVocabSize r' = mPromptVocabSize r
  | member_mLoraWeights => mLoraWeights r' = mLoraWeights r
  | member_mLoraConfig => mLoraConfig r' = mLoraConfig r
  | member_mReturnLogProbs => mReturnLogProbs r' = mReturnLogProbs r
  | member_mContextChunkSize => mContextChunkSize r' = mContextChunkSize r
  | member_mContextCurrentPosition => mContextCurrentPosition r' = mContextCurrentPosition r
  | member_mLogProbs => mLogProbs r' = mLogProbs r
  | member_mCumLogProbs => mCumLogProbs r' = mCumLogProbs r
  | member_mDraftTokens => mDraftTokens r' = mDraftTokens r
  | member_mDraftLogits => mDraftLogits r' = mDraftLogits r
  | member_mContextLogits => mContextLogits r' = mContextLogits r
  | member_mContextLogitsHost => mContextLogitsHost r' = mContextLogitsHost r
  | member_mGenerationLogits => mGenerationLogits r' = mGenerationLogits r
  | member_mGenerationLogitsHost => mGenerationLogitsHost r' = mGenerationLogitsHost r
  | member_mGenerationLogitsFragments => mGenerationLogitsFragments r' = mGenerationLogitsFragments r
  end.

Definition unchanged_except (ms : list Member) (r r' : Request) : Prop :=
  forall m, m ∉ ms -> same_member m r r'.

(** *** Construction *)

(** The constructor's parameters.  [inputTokens] is the vector the shared
    pointer refers to (the constructor dereferences it unconditionally);
    [draftTokens] is an optional shared pointer. *)
Record Args : Type := {
  requestId : RequestIdType;
  maxNewTokens : SizeType;
  inputTokens : VecTokens;
  samplingConfig : SamplingConfig;
  isStreaming : bool;
  endId : option SizeType;
  padId : option SizeType;
  embeddingBias : option TTensor;
  badWordsList : option TTensor;
  stopWordsList : option TTensor;
  promptEmbeddingTable : option TTensor;
  promptVocabSize : option SizeType;
  loraWeights : option TTensor;
  loraConfig : option TTensor;
  returnLogProbs : bool;
  draftTokens : option (option VecTokens);
  draftLogits : option TTensor
}.

Definition has_value {A} (o : option A) : bool :=
  match o with
  | Some _ => true
  | None => false
  end.

Definition GenericLlmRequest (a : Args) : result Request :=
  let promptLen := Int32.of_size (length (inputTokens a)) in
  let width := beamWidth (samplingConfig a) in
  logProbs ← vector_new width ([] : VecLogProbs);
  cumLogProbs ← vector_new width 0%float;
  (* Scatter the input tokens to other beam *)
  tokens ← vector_new width (inputTokens a);
  if (has_value (promptEmbeddingTable a) && negb (has_value (promptVocabSize a)))
     || (negb (has_value (promptEmbeddingTable a)) && has_value (promptVocabSize a))
  then
    Err (runtime_error
      "Prompt embedding table and prompt vocab size tensors must both be provided for requests with prompt tuning enabled.")
  else if has_value (draftLogits a) && negb (has_value (draftTokens a)) then
    Err (runtime_error "Draft tokens must be specified when draft logits are given.")
  else
    Ok {| mRequestId := requestId a;
          mPromptLen := promptLen;
          mMaxNewTokens := maxNewTokens a;
          mSamplingConfig := samplingConfig a;
          mState := REQUEST_STATE_CONTEXT_INIT;
          mIsStreaming := isStreaming a;
          mEndId := endId a;
          mPadId := padId a;
          mSeqSlot := -1;
          mOrigPromptLen := promptLen;
          mTokens := tokens;
          mMaxSentTokenPos := Int32.sub promptLen 1;
          mEmbeddingBias := embeddingBias a;
          mBadWordsList := badWordsList a;
          mStopWordsList := stopWordsList a;
          mPromptEmbeddingTable := promptEmbeddingTable a;
          mPromptVocabSize := promptVocabSize a;
          mLoraWeights := loraWeights a;
          mLoraConfig := loraConfig a;
          mReturnLogProbs := returnLogProbs a;
          mContextChunkSize := None;
          mContextCurrentPosition := 0;
          mLogProbs := logProbs;
          mCumLogProbs := cumLogProbs;
          mDraftTokens := default (Some []) (draftTokens a);
          mDraftLogits := draftLogits a;
          mContextLogits := TTensor_default;
          mContextLogitsHost := TTensor_default;
          mGenerationLogits := TTensor_default;
          mGenerationLogitsHost := TTensor_default;
          mGenerationLogitsFragments := [] |}.

(** *** Tokens *)

Definition getNumTokens (beam : SizeType) (r : Request) : result SizeType :=
  v ← vector_at (mTokens r) beam;
  Ok (Int32.of_size (length v)).

Definition getMaxBeamNumTokens (r : Request) : result SizeType :=
  for_fold (seq 0 (Z.to_nat (beamWidth (mSamplingConfig r)))) 0
    (fun maxTokens beam =>
       v ← vector_at (mTokens r) (Z.of_nat beam);
       Ok (Z.max maxTokens (Int32.of_size (length v)))).

Definition getToken (beam pos : SizeType) (r : Request) : result TokenIdType :=
  v ← vector_at (mTokens r) beam;
  vector_at v pos.

Definition getTokens (beam : SizeType) (r : Request) : result VecTokens :=
  vector_at (mTokens r) beam.

Definition hasDraftTokens (r : Request) : bool :=
  match mDraftTokens r with
  | Some d => bool_decide (0 < length d)%nat
  | None => false
  end.

Definition getMaxNumGeneratedTokens (r : Request) : result SizeType :=
  maxTokens ← getMaxBeamNumTokens r;
  Ok (Int32.sub maxTokens (mPromptLen r)).

(** [mTokens.at(beam)] updated in place by [f]. *)
Definition update_tokens_at (beam : Z) (f : VecTokens -> result VecTokens)
  : M Request unit := fun r =>
  match vector_update_at (mTokens r) beam f with
  | Ok tokens => Ret tt (set_mTokens tokens r)
  | Err e => Throw e r
  end.

(** [mLogProbs.at(beam)] updated in place by [f]. *)
Definition update_logProbs_at (beam : Z) (f : VecLogProbs -> result VecLogProbs)
  : M Request unit := fun r =>
  match vector_update_at (mLogProbs r) beam f with
  | Ok logProbs => Ret tt (set_mLogProbs logProbs r)
  | Err e => Throw e r
  end.

Definition addNewToken (token : TokenIdType) (beam : SizeType) : M Request unit :=
  update_tokens_at beam (fun v => Ok (v ++ [token])).

Definition addNewTokens (beamTokens : VecTokens) : M Request unit :=
  r ← get;
  assert (bool_decide (beamWidth (mSamplingConfig r) = Z.of_nat (length beamTokens)));;
  for_each_from 0 beamTokens (fun beam outputId =>
    update_tokens_at (Z.of_nat beam) (fun v => Ok (v ++ [outputId]))).

(** [mTokens[beam]] is unchecked in the source; the assertion makes the index
    valid whenever the request holds [beamWidth] beams. *)
Definition setGeneratedTokens (generatedBeamTokens : BeamTokens) : M Request unit :=
  r ← get;
  assert (bool_decide (Z.of_nat (length generatedBeamTokens)
                       = beamWidth (mSamplingConfig r)));;
  for_each_from 0 generatedBeamTokens (fun beam generated =>
    r ← get;
    update_tokens_at (Z.of_nat beam) (fun beamTokens =>
      beamTokens' ← vector_resize 0 (mPromptLen r) beamTokens;
      Ok (beamTokens' ++ generated))).

(** *** Pause *)

(** The [TLLM_LOG_DEBUG] line of the single-beam branch writes to the log
    only and is left out, as are the [TLLM_LOG_ERROR] lines of the
    constructor. *)

Definition pause (maxInputLen : SizeType) : M Request unit :=
  r ← get;
  (if decide (1 < beamWidth (mSamplingConfig r)) then
     for_each (seq 0 (length (mTokens r))) (fun beam =>
       r ← get;
       update_tokens_at (Z.of_nat beam) (vector_resize 0 (mPromptLen r));;
       if mReturnLogProbs r
       then update_logProbs_at (Z.of_nat beam) (fun _ => Ok [])
       else mret tt)
   else
     generated ← lift getMaxNumGeneratedTokens;
     let newPromptLen := Z.min maxInputLen (Int32.add (mPromptLen r) generated) in
     for_each (seq 0 (length (mTokens r))) (fun beam =>
       r ← get;
       update_tokens_at (Z.of_nat beam) (vector_resize 0 newPromptLen);;
       if mReturnLogProbs r
       then update_logProbs_at (Z.of_nat beam)
              (vector_resize 0%float (Int32.sub newPromptLen (mPromptLen r)))
       else mret tt);;
     modify (fun r =>
       set_mMaxNewTokens
         (Int32.sub (mMaxNewTokens r) (Int32.sub newPromptLen (mPromptLen r))) r);;
     modify (set_mPromptLen newPromptLen));;
  modify (set_mState REQUEST_STATE_CONTEXT_INIT);;
  modify (set_mContextCurrentPosition 0);;
  modify (set_mContextChunkSize None);;
  modify (set_mSeqSlot (-1)).

(** *** Streaming position, log-probs, attachments *)

Definition getMaxSentTokenPos (r : Request) : SizeType := mMaxSentTokenPos r.

Definition setMaxSentTokenPos (pos : SizeType) : M Request unit :=
  modify (set_mMaxSentTokenPos pos).

Definition getLogProbs (beam : SizeType) (r : Request) : result VecLogProbs :=
  vector_at (mLogProbs r) beam.

Definition setLogProbs (logProbs : VecLogProbs) (beam : SizeType) : M Request unit :=
  r ← get;
  update_logProbs_at beam
    (vector_resize 0%float (Int32.sub (mPromptLen r) (mOrigPromptLen r)));;
  update_logProbs_at beam (fun v => Ok (v ++ logProbs)).

Definition setCumLogProb (cumLogProb : float) (beam : SizeType) : M Request unit :=
  fun r =>
  match vector_update_at (mCumLogProbs r) beam (fun _ => Ok cumLogProb) with
  | Ok c => Ret tt (set_mCumLogProbs c r)
  | Err e => Throw e r
  end.

Definition getOrigPromptLen (r : Request) : SizeType := mOrigPromptLen r.

Definition setDraftTokens (draft : option VecTokens) : M Request unit :=
  modify (set_mDraftTokens draft).

Definition setDraftLogits (logits : option TTensor) : M Request unit :=
  modify (set_mDraftLogits logits).

Definition setContextLogitsHost (t : TTensor) : M Request unit :=
  modify (set_mContextLogitsHost t).

Definition setGenerationLogitsHost (t : TTensor) : M Request unit :=
  modify (set_mGenerationLogitsHost t).

Definition addGenerationFragments (genLogits : TTensor) : M Request unit :=
  modify (fun r =>
    set_mGenerationLogitsFragments (mGenerationLogitsFragments r ++ [genLogits]) r).

Definition clearGenerationLogitsFragments : M Request unit :=
  modify (set_mGenerationLogitsFragments []).

(** *** Chunked context *)

Definition isContextInitState (r : Request) : bool :=
  bool_decide (mState r = REQUEST_STATE_CONTEXT_INIT).

Definition isGenerationInProgessState (r : Request) : bool :=
  bool_decide (mState r = REQUEST_STATE_GENERATION_IN_PROGRESS).

Definition isFullContextRequest (r : Request) : bool :=
  isContextInitState r && negb (has_value (mContextChunkSize r)).

Definition getContextCurrentPosition (r : Request) : SizeType :=
  mContextCurrentPosition r.

Definition getContextRemainingLength (r : Request) : SizeType :=
  Int32.sub (mPromptLen r) (getContextCurrentPosition r).

Definition getContextChunkSize (r : Request) : result SizeType :=
  match isContextInitState r, mContextChunkSize r with
  | true, Some size => Ok size
  | _, _ => Err (TllmException "The current request is not in context chunking state.")
  end.

Definition setContextChunkSize (size : SizeType) : M Request unit :=
  r ← get;
  TLLM_CHECK_WITH_INFO (isContextInitState r)
    "Chunking is only possible during the context phase.";;
  TLLM_CHECK_WITH_INFO (bool_decide (0 <= size))
    "The chunk size of context (%d) can't be negative.";;
  modify (set_mContextChunkSize (Some (Z.min size (getContextRemainingLength r)))).

(** The right operand of [||] and of [&&] is evaluated only when needed, so
    [getContextChunkSize] is reached only in a chunked context-init state. *)
Definition isLastContextChunk (r : Request) : result bool :=
  if isFullContextRequest r then Ok true
  else if isContextInitState r then
    size ← getContextChunkSize r;
    Ok (bool_decide (Int32.add (getContextCurrentPosition r) size = mPromptLen r))
  else Ok false.

Definition isFirstContextChunk (r : Request) : bool :=
  isFullContextRequest r || bool_decide (getContextCurrentPosition r = 0).

Definition moveToNextContextChunk : M Request unit :=
  r ← get;
  TLLM_CHECK_WITH_INFO (isContextInitState r)
    "Chunking is only possible during the context phase.";;
  if has_value (mContextChunkSize r) then
    size ← lift getContextChunkSize;
    modify (fun r =>
      set_mContextCurrentPosition (Int32.add (mContextCurrentPosition r) size) r);;
    setContextChunkSize 0
  else
    TLLM_CHECK_WITH_INFO (bool_decide (mContextCurrentPosition r = 0))
      "Full context out of bounds.";;
    modify (set_mContextCurrentPosition (mPromptLen r)).

Definition set_mPromptEmbeddingTable (x : option TTensor) (r : Request) : Request :=
  {| mRequestId := mRequestId r; mPromptLen := mPromptLen r;
     mMaxNewTokens := mMaxNewTokens r;
     mSamplingConfig := mSamplingConfig r; mState := mState r;
     mIsStreaming := mIsStreaming r; mEndId := mEndId r; mPadId := mPadId r;
     mSeqSlot := mSeqSlot r; mOrigPromptLen := mOrigPromptLen r;
     mTokens := mTokens r; mMaxSentTokenPos := mMaxSentTokenPos r;
     mEmbeddingBias := mEmbeddingBias r; mBadWordsList := mBadWordsList r;
     mStopWordsList := mStopWordsList r;
     mPromptEmbeddingTable := x;
     mPromptVocabSize := mPromptVocabSize r; mLoraWeights := mLoraWeights r;
     mLoraConfig := mLoraConfig r; mReturnLogProbs := mReturnLogProbs r;
     mContextChunkSize := mContextChunkSize r;
     mContextCurrentPosition := mContextCurrentPosition r;
     mLogProbs := mLogProbs r; mCumLogProbs := mCumLogProbs r;
     mDraftTokens := mDraftTokens r; mDraftLogits := mDraftLogits r;
     mContextLogits := mContextLogits r;
     mContextLogitsHost := mContextLogitsHost r;
     mGenerationLogits := mGenerationLogits r;
     mGenerationLogitsHost := mGenerationLogitsHost r;
     mGenerationLogitsFragments := mGenerationLogitsFragments r |}.

Definition set_mLoraWeights (x : option TTensor) (r : Request) : Request :=
  {| mRequestId := mRequestId r; mPromptLen := mPromptLen r;
     mMaxNewTokens := mMaxNewTokens r;
     mSamplingConfig := mSamplingConfig r; mState := mState r;
     mIsStreaming := mIsStreaming r; mEndId := mEndId r; mPadId := mPadId r;
     mSeqSlot := mSeqSlot r; mOrigPromptLen := mOrigPromptLen r;
     mTokens := mTokens r; mMaxSentTokenPos := mMaxSentTokenPos r;
     mEmbeddingBias := mEmbeddingBias r; mBadWordsList := mBadWordsList r;
     mStopWordsList := mStopWordsList r;
     mPromptEmbeddingTable := mPromptEmbeddingTable r;
     mPromptVocabSize := mPromptVocabSize r; mLoraWeights := x;
     mLoraConfig := mLoraConfig r; mReturnLogProbs := mReturnLogProbs r;
     mContextChunkSize := mContextChunkSize r;
     mContextCurrentPosition := mContextCurrentPosition r;
     mLogProbs := mLogProbs r; mCumLogProbs := mCumLogProbs r;
     mDraftTokens := mDraftTokens r; mDraftLogits := mDraftLogits r;
     mContextLogits := mContextLogits r;
     mContextLogitsHost := mContextLogitsHost r;
     mGenerationLogits := mGenerationLogits r;
     mGenerationLogitsHost := mGenerationLogitsHost r;
     mGenerationLogitsFragments := mGenerationLogitsFragments r |}.

(** *** Remaining accessors *)

Definition getCumLogProbs (r : Request) : VecLogProbs := mCumLogProbs r.

Definition getGenerationLogitsFragments (r : Request) : list TTensor :=
  mGenerationLogitsFragments r.

Definition getGenerationLogitsFragmentsSize (r : Request) : SizeType :=
  Int32.of_size (length (mGenerationLogitsFragments r)).

End WithTensor.
Arguments Request : clear implicits.
Arguments Args : clear implicits.

(** ** The request as a state machine *)

Section Lifecycle.
Context {TTensor : Type}.

(** What a caller can do to a request between construction and destruction:
    call a mutating member function, or assign one of the two public members
    the scheduler owns ([mState] for the lifecycle transitions it decides,
    [mSeqSlot] for the execution slot). *)
Inductive Call : Type :=
| AddNewToken (token : TokenIdType) (beam : SizeType)
| AddNewTokens (beamTokens : VecTokens)
| SetGeneratedTokens (generatedBeamTokens : BeamTokens)
| Pause (maxInputLen : SizeType)
| SetMaxSentTokenPos (pos : SizeType)
| SetLogProbs (logProbs : VecLogProbs) (beam : SizeType)
| SetCumLogProb (cumLogProb : float) (beam : SizeType)
| SetDraftTokens (draft : option VecTokens)
| SetDraftLogits (logits : option TTensor)
| SetContextLogitsHost (t : TTensor)
| SetGenerationLogitsHost (t : TTensor)
| AddGenerationFragments (genLogits : TTensor)
| ClearGenerationLogitsFragments
| SetContextChunkSize (size : SizeType)
| MoveToNextContextChunk
| AssignState (state : LlmRequestState_t)
| AssignSeqSlot (slot : SizeType).

Definition exec (c : Call) : M (Request TTensor) unit :=
  match c with
  | AddNewToken token beam => addNewToken token beam
  | AddNewTokens beamTokens => addNewTokens beamTokens
  | SetGeneratedTokens g => setGeneratedTokens g
  | Pause maxInputLen => pause maxInputLen
  | SetMaxSentTokenPos pos => setMaxSentTokenPos pos
  | SetLogProbs logProbs beam => setLogProbs logProbs beam
  | SetCumLogProb c beam => setCumLogProb c beam
  | SetDraftTokens d => setDraftTokens d
  | SetDraftLogits l => setDraftLogits l
  | SetContextLogitsHost t => setContextLogitsHost t
  | SetGenerationLogitsHost t => setGenerationLogitsHost t
  | AddGenerationFragments t => addGenerationFragments t
  | ClearGenerationLogitsFragments => clearGenerationLogitsFragments
  | SetContextChunkSize size => setContextChunkSize size
  | MoveToNextContextChunk => moveToNextContextChunk
  | AssignState state => modify (set_mState state)
  | AssignSeqSlot slot => modify (set_mSeqSlot slot)
  end.

(** A history of calls that all returned; [None] as soon as one throws. *)
Fixpoint run (calls : list Call) (r : Request TTensor) : option (Request TTensor) :=
  match calls with
  | [] => Some r
  | c :: rest =>
      match exec c r with
      | Ret _ r' => run rest r'
      | Throw _ _ => None
      end
  end.

(** The construction contract: a beam width of at least one, and a prompt
    whose length is a [SizeType]. *)
Definition valid_args (a : Args TTensor) : Prop :=
  1 <= beamWidth (samplingConfig a) /\
  Z.of_nat (length (inputTokens a)) <= Int32.max_value.

(** The requests that exist: constructed under the contract, then driven by
    calls that returned. *)
Definition reachable (r : Request TTensor) : Prop :=
  exists (dflt : TTensor) (a : Args TTensor) (r0 : Request TTensor)
         (calls : list Call),
    valid_args a /\ GenericLlmRequest dflt a = Ok r0 /\ run calls r0 = Some r.

(** The representation invariant of the requests constructed with sampling
    configuration [cfg] from a prompt of [origLen] tokens. *)
Record Inv (cfg : SamplingConfig) (origLen : SizeType) (r : Request TTensor)
  : Prop := {
  inv_config : mSamplingConfig r = cfg;
  inv_orig : mOrigPromptLen r = origLen;
  inv_promptLen : 0 <= mPromptLen r <= Int32.max_value;
  inv_beamWidth : 1 <= beamWidth (mSamplingConfig r);
  inv_tokens : length (mTokens r) = Z.to_nat (beamWidth (mSamplingConfig r));
  inv_logProbs : length (mLogProbs r) = Z.to_nat (beamWidth (mSamplingConfig r));
  inv_beams : Forall (fun t : VecTokens => mPromptLen r <= Z.of_nat (length t))
                     (mTokens r);
  inv_position : 0 <= mContextCurrentPosition r <= mPromptLen r;
  inv_chunk : forall size, mContextChunkSize r = Some size ->
                0 <= size <= mPromptLen r - mContextCurrentPosition r;
  inv_multi : 1 < beamWidth (mSamplingConfig r) -> mPromptLen r = mOrigPromptLen r
}.

(** The sampling configuration and both prompt lengths, as fixed values. *)
Definition prompt_fixed (cfg : SamplingConfig) (len : SizeType)
    (r : Request TTensor) : Prop :=
  mSamplingConfig r = cfg /\ mPromptLen r = len /\ mOrigPromptLen r = len.

(** Two readings of [a chunk size has been assigned], over a history of calls
    that returned: ever since construction, and since the last pause. *)
Definition assigns_chunk (c : Call) : bool :=
  match c with
  | SetContextChunkSize _ => true
  | _ => false
  end.

(** The calls that may write the chunk size. *)
Definition touches_chunk (c : Call) : bool :=
  match c with
  | SetContextChunkSize _ | Pause _ | MoveToNextContextChunk => true
  | _ => false
  end.

Definition chunk_ever_assigned (calls : list Call) : bool :=
  existsb assigns_chunk calls.

Definition chunk_flag (assigned : bool) (c : Call) : bool :=
  match c with
  | SetContextChunkSize _ => true
  | Pause _ => false
  | _ => assigned
  end.

Definition chunk_assigned_since_pause (calls : list Call) : bool :=
  fold_left chunk_flag calls false.

(** The chunking scenario: assign a chunk size, then advance, for each size.
    The states are observed after every call. *)
Fixpoint chunk_steps (sizes : list SizeType) : list Call :=
  match sizes with
  | [] => []
  | size :: rest => SetContextChunkSize size :: MoveToNextContextChunk :: chunk_steps rest
  end.

Fixpoint observe (calls : list Call) (r : Request TTensor) : list (Request TTensor) :=
  match calls with
  | [] => []
  | c :: rest =>
      match exec c r with
      | Ret _ r' => r' :: observe rest r'
      | Throw _ _ => []
      end
  end.

End Lifecycle.
Arguments Call : clear implicits.

(** ** The request with device-capable tensors *)

(** Modelled from the spec: [runtime::MemoryType] is declared in
    [runtime/iBuffer.h], which is not among the sources at hand; it is the
    residency tag of a buffer. *)
Inductive MemoryType : Type := kGPU | kCPU | kPINNED.

#[global] Instance MemoryType_eq_dec : EqDecision MemoryType.
Proof. solve_decision. Defined.

Section LlmRequest.

(** [LlmRequest] is the request at [TTensor = ITensor::SharedPtr].  Of the
    tensor the two member functions below use its memory type, and of the
    [BufferManager] its [copyFrom(tensor, memoryType)]; both are declared
    outside the sources at hand and are taken as parameters. *)
Context {TTensor BufferManager : Type}.
Variable getMemoryType : TTensor -> MemoryType.
Variable copyFrom : BufferManager -> TTensor -> MemoryType -> TTensor.

Definition movePromptEmbeddingTableToGpu (manager : BufferManager)
  : M (Request TTensor) unit :=
  r ← get;
  match mPromptEmbeddingTable r with
  | None => mret tt
  | Some table =>
      if decide (getMemoryType table = kGPU) then mret tt
      else modify (set_mPromptEmbeddingTable (Some (copyFrom manager table kGPU)))
  end.

Definition moveLoraWeightsToGpu (manager : BufferManager)
  : M (Request TTensor) unit :=
  r ← get;
  match mLoraWeights r with
  | None => mret tt
  | Some weights =>
      if decide (getMemoryType weights = kGPU) then mret tt
      else modify (set_mLoraWeights (Some (copyFrom manager weights kGPU)))
  end.

End LlmRequest.

(** ** Concrete requests *)

Definition args_of (prompt : VecTokens) (width : SizeType) (logProbs : bool)
  : Args unit :=
  {| requestId := 1; maxNewTokens := 64; inputTokens := prompt;
     samplingConfig := {| beamWidth := width |}; isStreaming := false;
     endId := None; padId := None; embeddingBias := None; badWordsList := None;
     stopWordsList := None; promptEmbeddingTable := None; promptVocabSize := None;
     loraWeights := None; loraConfig := None; returnLogProbs := logProbs;
     draftTokens := None; draftLogits := None |}.

(** Draft logits without draft tokens. *)
Definition args_draft_logits_only : Args unit :=
  {| requestId := 1; maxNewTokens := 64; inputTokens := [7; 8];
     samplingConfig := {| beamWidth := 1 |}; isStreaming := false;
     endId := None; padId := None; embeddingBias := None; badWordsList := None;
     stopWordsList := None; promptEmbeddingTable := None; promptVocabSize := None;
     loraWeights := None; loraConfig := None; returnLogProbs := false;
     draftTokens := None; draftLogits := Some tt |}.

(** The request [GenericLlmRequest] builds from [args_of]. *)
Definition request_of (prompt : VecTokens) (width : SizeType) (logProbs : bool)
  : Request unit :=
  {| mRequestId := 1;
     mPromptLen := Int32.of_size (length prompt);
     mMaxNewTokens := 64;
     mSamplingConfig := {| beamWidth := width |};
     mState := REQUEST_STATE_CONTEXT_INIT;
     mIsStreaming := false; mEndId := None; mPadId := None;
     mSeqSlot := -1;
     mOrigPromptLen := Int32.of_size (length prompt);
     mTokens := replicate (Z.to_nat width) prompt;
     mMaxSentTokenPos := Int32.sub (Int32.of_size (length prompt)) 1;
     mEmbeddingBias := None; mBadWordsList := None; mStopWordsList := None;
     mPromptEmbeddingTable := None; mPromptVocabSize := None;
     mLoraWeights := None; mLoraConfig := None;
     mReturnLogProbs := logProbs;
     mContextChunkSize := None;
     mContextCurrentPosition := 0;
     mLogProbs := replicate (Z.to_nat width) [];
     mCumLogProbs := replicate (Z.to_nat width) 0%float;
     mDraftTokens := Some [];
     mDraftLogits := None;
     mContextLogits := tt; mContextLogitsHost := tt;
     mGenerationLogits := tt; mGenerationLogitsHost := tt;
     mGenerationLogitsFragments := [] |}.

(** A single-beam request with a prompt of 50 tokens and 20 generated tokens,
    and the same request after [pause 60] has made 10 of them prompt tokens. *)
Definition generated_20 : Request unit :=
  set_mState REQUEST_STATE_GENERATION_IN_PROGRESS
    (set_mLogProbs [replicate 20 0%float]
       (set_mTokens [replicate 70 7] (request_of (replicate 50 7) 1 true))).

Definition resumed_60 : Request unit :=
  set_mLogProbs [replicate 10 0%float]
    (set_mTokens [replicate 60 7]
       (set_mMaxNewTokens 54
          (set_mPromptLen 60 (request_of (replicate 50 7) 1 true)))).

(** A two-token prompt, one token generated, generation in progress. *)
Definition generating : Request unit :=
  set_mState REQUEST_STATE_GENERATION_IN_PROGRESS
    (set_mTokens [[7; 8; 9]] (request_of [7; 8] 1 true)).

(** A two-token prompt without log-probs, paused with [maxInputLen = 1]. *)
Definition shrunk : Request unit :=
  set_mTokens [[7]]
    (set_mMaxNewTokens 65 (set_mPromptLen 1 (request_of [7; 8] 1 false))).

(** Four beams, some tokens generated. *)
Definition beam_calls : list (Call unit) :=
  [ AddNewTokens [9; 10; 11; 12];
    AssignState REQUEST_STATE_GENERATION_IN_PROGRESS;
    AddNewToken 13 2;
    SetLogProbs [1%float; 2%float] 0 ].

Definition four_beams : Request unit :=
  set_mLogProbs [[1%float; 2%float]; []; []; []]
    (set_mState REQUEST_STATE_GENERATION_IN_PROGRESS
       (set_mTokens [[7; 8; 9]; [7; 8; 10]; [7; 8; 11; 13]; [7; 8; 12]]
          (request_of [7; 8] 4 true))).

(** A chunk of one token assigned on a fresh two-token request. *)
Definition chunked : Request unit :=
  set_mContextChunkSize (Some 1) (request_of [7; 8] 1 false).

(** The request after [pause 60], five more tokens generated and their
    log-probs stored. *)
Definition regenerated_65 : Request unit :=
  set_mState REQUEST_STATE_GENERATION_IN_PROGRESS
    (set_mLogProbs [replicate 15 1%float]
       (set_mTokens [replicate 65 7] resumed_60)).

(** * Properties *)

(** ** 32-bit arithmetic *)

Ltac int32_consts :=
  unfold Int32.in_range, Int32.add, Int32.sub, Int32.of_size, Int32.wrap,
    Int32.modulus in *;
  change Int32.min_value with (-2147483648) in *;
  change Int32.max_value with 2147483647 in *;
  change (2 ^ 32) with 4294967296 in *.

Ltac int32_range :=
  unfold Int32.in_range in *;
  change Int32.min_value with (-2147483648) in *;
  change Int32.max_value with 2147483647 in *.

Lemma wrap_in_range (x : Z) : Int32.in_range (Int32.wrap x).
Proof.
  int32_consts.
  pose proof (Z.mod_pos_bound (x - -2147483648) 4294967296). lia.
Qed.

Lemma wrap_id (x : Z) : Int32.in_range x -> Int32.wrap x = x.
Proof.
  int32_consts. intros Hx.
  rewrite Z.mod_small by lia. lia.
Qed.

Lemma wrap_wrap (x : Z) : Int32.wrap (Int32.wrap x) = Int32.wrap x.
Proof. apply wrap_id, wrap_in_range. Qed.

Lemma add_exact (a b : Z) : Int32.in_range (a + b) -> Int32.add a b = a + b.
Proof. apply wrap_id. Qed.

Lemma sub_exact (a b : Z) : Int32.in_range (a - b) -> Int32.sub a b = a - b.
Proof. apply wrap_id. Qed.

(** [a + (b - a)] is [b] in 32-bit arithmetic, whatever overflows on the way. *)
Lemma add_sub_cancel (a b : Z) : Int32.add a (Int32.sub b a) = Int32.wrap b.
Proof.
  int32_consts.
  replace (a + ((b - a - -2147483648) mod 4294967296 + -2147483648) - -2147483648)
    with (a + (b - a - -2147483648) mod 4294967296) by lia.
  rewrite Zplus_mod_idemp_r. do 2 f_equal. lia.
Qed.

Lemma of_size_in_range (n : nat) : Int32.in_range (Int32.of_size n).
Proof. apply wrap_in_range. Qed.

Lemma of_size_exact (n : nat) :
  Z.of_nat n <= Int32.max_value -> Int32.of_size n = Z.of_nat n.
Proof. intros Hn. apply wrap_id. int32_consts. lia. Qed.

(** ** Running the monad *)

Ltac run_monad :=
  unfold mbind, mret, M_bind, M_ret, result_bind, result_ret, bind, ret, get,
    modify, throw, lift, TLLM_CHECK_WITH_INFO, assert in *;
  cbn beta iota in *.

Lemma vector_at_lookup {A} (v : list A) (i : nat) (x : A) :
  v !! i = Some x -> vector_at v (Z.of_nat i) = Ok x.
Proof.
  intros Hx. unfold vector_at.
  destruct (decide (0 <= Z.of_nat i)) as [_|]; [|lia].
  by rewrite Nat2Z.id, Hx.
Qed.

Lemma vector_at_Ok {A} (v : list A) (pos : Z) (x : A) :
  vector_at v pos = Ok x <-> 0 <= pos /\ v !! Z.to_nat pos = Some x.
Proof.
  unfold vector_at. destruct (decide (0 <= pos)).
  - destruct (v !! Z.to_nat pos); split.
    + intros [= ->]. done.
    + intros [_ [= ->]]. done.
    + discriminate.
    + intros [_ [=]].
  - split; [discriminate | lia].
Qed.

Lemma vector_resize_Ok {A} (d : A) (n : Z) (v : list A) :
  0 <= n -> vector_resize d n v = Ok (resize (Z.to_nat n) d v).
Proof. intros Hn. unfold vector_resize. by destruct (decide (0 <= n)). Qed.

Lemma vector_resize_Err {A} (d : A) (n : Z) (v : list A) :
  n < 0 -> vector_resize d n v = Err length_error.
Proof. intros Hn. unfold vector_resize. destruct (decide (0 <= n)); [lia|done]. Qed.

Lemma vector_update_at_lookup {A} (v : list A) (i : nat) (x x' : A) f :
  v !! i = Some x -> f x = Ok x' ->
  vector_update_at v (Z.of_nat i) f = Ok (<[i := x']> v).
Proof.
  intros Hx Hf. unfold vector_update_at.
  rewrite (vector_at_lookup _ _ _ Hx). run_monad. rewrite Hf.
  by rewrite Nat2Z.id.
Qed.

(** ** Invariants of computations *)

Lemma keeps_ret {S A} (I : S -> Prop) (a : A) : keeps I (mret a).
Proof. intros s Hs. exact Hs. Qed.

Lemma keeps_throw {S A} (I : S -> Prop) e : keeps I (throw (A:=A) e).
Proof. intros s Hs. exact Hs. Qed.

Lemma keeps_modify {S} (I : S -> Prop) (f : S -> S) :
  (forall s, I s -> I (f s)) -> keeps I (modify f).
Proof. intros Hf s Hs. by apply Hf. Qed.

Lemma keeps_lift {S A} (I : S -> Prop) (f : S -> result A) : keeps I (lift f).
Proof. intros s Hs. unfold lift. by destruct (f s). Qed.

Lemma keeps_bind {S A B} (I : S -> Prop) (m : M S A) (k : A -> M S B) :
  keeps I m -> (forall a, keeps I (k a)) -> keeps I (m ≫= k).
Proof.
  intros Hm Hk s Hs. specialize (Hm s Hs). run_monad.
  destruct (m s) as [a s'|e s']; cbn in *; [by apply Hk | done].
Qed.

Lemma keeps_get_bind {S B} (I : S -> Prop) (k : S -> M S B) :
  (forall r, I r -> keeps I (k r)) -> keeps I (get ≫= k).
Proof. intros Hk s Hs. run_monad. by apply Hk. Qed.

Lemma keeps_check {S} (I : S -> Prop) (cond : bool) info :
  keeps I (TLLM_CHECK_WITH_INFO cond info).
Proof. intros s Hs. unfold TLLM_CHECK_WITH_INFO. by destruct cond. Qed.

Lemma keeps_assert {S} (I : S -> Prop) (cond : bool) : keeps I (assert cond).
Proof. intros s Hs. unfold assert. by destruct cond. Qed.

Lemma keeps_for_each {S} (I : S -> Prop) indices (body : nat -> M S unit) :
  (forall i, keeps I (body i)) -> keeps I (for_each indices body).
Proof.
  intros Hbody. induction indices as [|i rest IH]; cbn.
  - apply keeps_ret.
  - apply keeps_bind; [apply Hbody | intros _; exact IH].
Qed.

Lemma keeps_for_each_from {S A} (I : S -> Prop) (v : list A) i
    (body : nat -> A -> M S unit) :
  (forall j x, keeps I (body j x)) -> keeps I (for_each_from i v body).
Proof.
  intros Hbody. revert i. induction v as [|x rest IH]; intros i; cbn.
  - apply keeps_ret.
  - apply keeps_bind; [apply Hbody | intros _; apply IH].
Qed.

(** The same for calls that return: [I] need only survive normal returns. *)
Lemma for_each_returns_inv {S} (I : S -> Prop) indices (body : nat -> M S unit) s s' :
  (forall i s1 s2, I s1 -> body i s1 = Ret tt s2 -> I s2) ->
  I s -> for_each indices body s = Ret tt s' -> I s'.
Proof.
  intros Hbody. revert s. induction indices as [|i rest IH]; intros s Hs; cbn.
  - intros [= <-]. exact Hs.
  - run_monad. destruct (body i s) as [[] s1|e s1] eqn:Hb; [|discriminate].
    apply IH. by eapply Hbody.
Qed.

Lemma for_each_from_returns_inv {S A} (I : S -> Prop) (v : list A) i
    (body : nat -> A -> M S unit) s s' :
  (forall j x s1 s2, I s1 -> body j x s1 = Ret tt s2 -> I s2) ->
  I s -> for_each_from i v body s = Ret tt s' -> I s'.
Proof.
  intros Hbody. revert i s. induction v as [|x rest IH]; intros i s Hs; cbn.
  - intros [= <-]. exact Hs.
  - run_monad. destruct (body i x s) as [[] s1|e s1] eqn:Hb; [|discriminate].
    apply IH. by eapply Hbody.
Qed.

Lemma vector_update_at_Ok {A} (v : list A) (pos : Z) (x x' : A) f :
  0 <= pos -> v !! Z.to_nat pos = Some x -> f x = Ok x' ->
  vector_update_at v pos f = Ok (<[Z.to_nat pos := x']> v).
Proof.
  intros Hpos Hx Hf. rewrite <- (Z2Nat.id pos Hpos) at 1.
  by apply (vector_update_at_lookup v (Z.to_nat pos) x x').
Qed.

Lemma vector_update_at_fails {A} (v : list A) (i : nat) (x : A) f e :
  v !! i = Some x -> f x = Err e -> vector_update_at v (Z.of_nat i) f = Err e.
Proof.
  intros Hx Hf. unfold vector_update_at.
  rewrite (vector_at_lookup _ _ _ Hx). run_monad. by rewrite Hf.
Qed.

Lemma bind_returns {S A B} (m : M S A) (k : A -> M S B) s b s' :
  (m ≫= k) s = Ret b s' -> exists a s1, m s = Ret a s1 /\ k a s1 = Ret b s'.
Proof.
  run_monad. destruct (m s) as [a s1|]; [|discriminate]. eauto.
Qed.

(** Projections out of member assignments, and nothing else. *)
Ltac simpl_fields :=
  cbn [mRequestId mPromptLen mMaxNewTokens mSamplingConfig mState mIsStreaming
       mEndId mPadId mSeqSlot mOrigPromptLen mTokens mMaxSentTokenPos
       mEmbeddingBias mBadWordsList mStopWordsList mPromptEmbeddingTable
       mPromptVocabSize mLoraWeights mLoraConfig mReturnLogProbs
       mContextChunkSize mContextCurrentPosition mLogProbs mCumLogProbs
       mDraftTokens mDraftLogits mContextLogits mContextLogitsHost
       mGenerationLogits mGenerationLogitsHost mGenerationLogitsFragments
       set_mPromptLen set_mMaxNewTokens set_mState set_mSeqSlot set_mTokens
       set_mMaxSentTokenPos set_mContextChunkSize set_mContextCurrentPosition
       set_mLogProbs set_mCumLogProbs set_mDraftTokens set_mDraftLogits
       set_mContextLogitsHost set_mGenerationLogitsHost
       set_mGenerationLogitsFragments] in *;
  unfold BeamTokens, VecLogProbs, VecTokens, TokenIdType, SizeType in *.

(** [unchanged_except ms r r'], member by member. *)
Ltac frame :=
  let m := fresh "m" in
  let Hm := fresh "Hm" in
  intros m Hm; destruct m; try reflexivity;
  exfalso; apply Hm; repeat constructor.

(** A member is not among the listed ones. *)
Ltac other_member :=
  let H := fresh "H" in
  intros H;
  repeat (apply elem_of_cons in H as [H|H]; [discriminate H|]);
  by apply elem_of_nil in H.

Section Properties.
Context {TTensor : Type}.
Implicit Types (r : Request TTensor) (a : Args TTensor).
Implicit Types (tokens : VecTokens) (logProbs : VecLogProbs).

(** ** Construction *)

Lemma GenericLlmRequest_negative_width (dflt : TTensor) a :
  beamWidth (samplingConfig a) < 0 -> GenericLlmRequest dflt a = Err length_error.
Proof.
  intros Hw. unfold GenericLlmRequest, vector_new.
  destruct (decide (0 <= beamWidth (samplingConfig a))); [lia|done].
Qed.

(** C9.  Under a non-negative beam width (the construction contract asks for
    at least one beam), construction throws exactly when one of the
    prompt-tuning embedding table and the prompt vocab size is given without
    the other, or draft logits are given without draft tokens; so with the
    prompt-tuning pair consistent, giving both draft fields or neither
    succeeds. *)
Theorem construction_throws_iff (dflt : TTensor) a :
  0 <= beamWidth (samplingConfig a) ->
  (is_Err (GenericLlmRequest dflt a) <->
     has_value (promptEmbeddingTable a) <> has_value (promptVocabSize a) \/
     (has_value (draftLogits a) = true /\ has_value (draftTokens a) = false)) /\
  (has_value (promptEmbeddingTable a) = has_value (promptVocabSize a) ->
   has_value (draftLogits a) = has_value (draftTokens a) ->
   exists r, GenericLlmRequest dflt a = Ok r).
Proof.
  intros Hw. unfold GenericLlmRequest, vector_new, is_Err.
  destruct (decide (0 <= beamWidth (samplingConfig a))) as [_|]; [|lia].
  run_monad.
  destruct (has_value (promptEmbeddingTable a)), (has_value (promptVocabSize a)),
    (has_value (draftLogits a)), (has_value (draftTokens a)); cbn;
    (split; [split; [intros [e He]; try discriminate; auto
                    | intros [Hne | [H1 H2]]; try congruence; eauto]
            | intros; try discriminate; eauto]).
Qed.

(** C10.  A successful construction from a prompt of length [L] under beam
    width [B] yields exactly [B] beam token sequences, each the prompt itself,
    the state ContextInit, and [maxSentTokenPos = L - 1] (computed in 32-bit
    arithmetic, hence exactly [L - 1] for every prompt whose length is a
    [SizeType]). *)
Theorem construction_beams (dflt : TTensor) a r :
  GenericLlmRequest dflt a = Ok r ->
  0 <= beamWidth (samplingConfig a) /\
  Z.of_nat (length (mTokens r)) = beamWidth (samplingConfig a) /\
  Forall (fun t => t = inputTokens a) (mTokens r) /\
  mState r = REQUEST_STATE_CONTEXT_INIT /\
  mMaxSentTokenPos r = Int32.sub (Int32.of_size (length (inputTokens a))) 1 /\
  (Z.of_nat (length (inputTokens a)) <= Int32.max_value ->
   mMaxSentTokenPos r = Z.of_nat (length (inputTokens a)) - 1).
Proof.
  unfold GenericLlmRequest, vector_new.
  destruct (decide (0 <= beamWidth (samplingConfig a))) as [Hw|]; [|discriminate].
  run_monad.
  destruct (_ || _); [discriminate|].
  destruct (_ && _); [discriminate|].
  intros [= <-]. cbn.
  split; [done|]. split; [rewrite length_replicate; lia|].
  split; [apply Forall_replicate; done|].
  split; [done|]. split; [done|].
  intros HL. rewrite (of_size_exact _ HL). apply sub_exact.
  int32_consts. lia.
Qed.

(** ** The chunked-context cursor *)

Lemma isContextInitState_true r :
  isContextInitState r = true <-> mState r = REQUEST_STATE_CONTEXT_INIT.
Proof. unfold isContextInitState. apply bool_decide_eq_true. Qed.

Lemma isContextInitState_false r :
  isContextInitState r = false <-> mState r <> REQUEST_STATE_CONTEXT_INIT.
Proof. unfold isContextInitState. apply bool_decide_eq_false. Qed.

Lemma setContextChunkSize_returns r size :
  mState r = REQUEST_STATE_CONTEXT_INIT -> 0 <= size ->
  setContextChunkSize size r
  = Ret tt (set_mContextChunkSize
              (Some (Z.min size (getContextRemainingLength r))) r).
Proof.
  intros Hs Hsize. unfold setContextChunkSize. run_monad.
  apply isContextInitState_true in Hs. rewrite Hs.
  by rewrite bool_decide_eq_true_2.
Qed.

Lemma setContextChunkSize_wrong_state r size :
  mState r <> REQUEST_STATE_CONTEXT_INIT ->
  setContextChunkSize size r
  = Throw (TllmException "Chunking is only possible during the context phase.") r.
Proof.
  intros Hs. unfold setContextChunkSize. run_monad.
  apply isContextInitState_false in Hs. by rewrite Hs.
Qed.

Lemma setContextChunkSize_negative r size :
  mState r = REQUEST_STATE_CONTEXT_INIT -> size < 0 ->
  setContextChunkSize size r
  = Throw (TllmException "The chunk size of context (%d) can't be negative.") r.
Proof.
  intros Hs Hsize. unfold setContextChunkSize. run_monad.
  apply isContextInitState_true in Hs. rewrite Hs.
  by rewrite bool_decide_eq_false_2 by lia.
Qed.

Lemma getContextChunkSize_chunked r size :
  mState r = REQUEST_STATE_CONTEXT_INIT -> mContextChunkSize r = Some size ->
  getContextChunkSize r = Ok size.
Proof.
  intros Hs Hc. unfold getContextChunkSize.
  apply isContextInitState_true in Hs. by rewrite Hs, Hc.
Qed.

(** C6.  [setContextChunkSize size] throws exactly when the request is not
    in ContextInit or [size] is negative, and then leaves the request as it
    was; otherwise it returns a request whose chunk size, read from the
    member and through [getContextChunkSize], is
    [min (size, promptLen - position)], and whose other members are all as
    before.  The subtraction is the 32-bit one of
    [getContextRemainingLength], which is the exact difference whenever that
    is a [SizeType]. *)
Theorem setContextChunkSize_spec r size :
  (throws (setContextChunkSize size r) <->
     mState r <> REQUEST_STATE_CONTEXT_INIT \/ size < 0) /\
  (throws (setContextChunkSize size r) ->
     final_state (setContextChunkSize size r) = r) /\
  (mState r = REQUEST_STATE_CONTEXT_INIT -> 0 <= size ->
     exists r', setContextChunkSize size r = Ret tt r' /\
       mContextChunkSize r'
       = Some (Z.min size (Int32.sub (mPromptLen r) (mContextCurrentPosition r))) /\
       getContextChunkSize r'
       = Ok (Z.min size (Int32.sub (mPromptLen r) (mContextCurrentPosition r))) /\
       unchanged_except [member_mContextChunkSize] r r') /\
  (Int32.in_range (mPromptLen r - mContextCurrentPosition r) ->
     Int32.sub (mPromptLen r) (mContextCurrentPosition r)
     = mPromptLen r - mContextCurrentPosition r).
Proof.
  destruct (decide (mState r = REQUEST_STATE_CONTEXT_INIT)) as [Hs|Hs].
  - destruct (decide (0 <= size)) as [Hsize|Hsize].
    + pose proof (setContextChunkSize_returns r size Hs Hsize) as Hret.
      split; [|split; [|split]].
      * split; [intros (e & s & He); congruence|intros [?|?]; [done|lia]].
      * intros (e & s & He). congruence.
      * intros _ _. eexists. split; [exact Hret|].
        split; [reflexivity|]. split; [|frame].
        by apply getContextChunkSize_chunked.
      * apply sub_exact.
    + pose proof (setContextChunkSize_negative r size Hs ltac:(lia)) as Hthrow.
      repeat split.
      * intros _. right. lia.
      * intros _. eexists _, _. exact Hthrow.
      * intros _. by rewrite Hthrow.
      * intros _ ?. lia.
      * apply sub_exact.
  - pose proof (setContextChunkSize_wrong_state r size Hs) as Hthrow.
    repeat split.
    + intros _. by left.
    + intros _. eexists _, _. exact Hthrow.
    + intros _. by rewrite Hthrow.
    + intros ?. done.
    + apply sub_exact.
Qed.

(** [isLastContextChunk] is declared [noexcept]: it never reaches the throw
    inside [getContextChunkSize]. *)
Lemma isLastContextChunk_noexcept r : exists b, isLastContextChunk r = Ok b.
Proof.
  unfold isLastContextChunk, isFullContextRequest, getContextChunkSize.
  destruct (isContextInitState r); cbn; [|eauto].
  destruct (mContextChunkSize r); cbn; eauto.
Qed.

Lemma moveToNextContextChunk_wrong_state r :
  mState r <> REQUEST_STATE_CONTEXT_INIT ->
  moveToNextContextChunk r
  = Throw (TllmException "Chunking is only possible during the context phase.") r.
Proof.
  intros Hs. unfold moveToNextContextChunk. run_monad.
  apply isContextInitState_false in Hs. by rewrite Hs.
Qed.

(** The chunked step as the code computes it, for any request record. *)
Lemma moveToNextContextChunk_chunked r size :
  mState r = REQUEST_STATE_CONTEXT_INIT -> mContextChunkSize r = Some size ->
  moveToNextContextChunk r
  = Ret tt
      (set_mContextChunkSize
         (Some (Z.min 0
                  (Int32.sub (mPromptLen r)
                     (Int32.add (mContextCurrentPosition r) size))))
         (set_mContextCurrentPosition
            (Int32.add (mContextCurrentPosition r) size) r)).
Proof.
  intros Hs Hc. unfold moveToNextContextChunk. run_monad.
  pose proof (getContextChunkSize_chunked r size Hs Hc) as Hget.
  pose proof Hs as Hs'. apply isContextInitState_true in Hs'.
  rewrite Hs', Hc. cbn. rewrite Hget.
  by rewrite setContextChunkSize_returns.
Qed.

Lemma moveToNextContextChunk_full r :
  mState r = REQUEST_STATE_CONTEXT_INIT -> mContextChunkSize r = None ->
  mContextCurrentPosition r = 0 ->
  moveToNextContextChunk r
  = Ret tt (set_mContextCurrentPosition (mPromptLen r) r).
Proof.
  intros Hs Hc Hp. unfold moveToNextContextChunk. run_monad.
  apply isContextInitState_true in Hs. rewrite Hs, Hc. cbn.
  by rewrite bool_decide_eq_true_2.
Qed.

Lemma moveToNextContextChunk_full_out_of_bounds r :
  mState r = REQUEST_STATE_CONTEXT_INIT -> mContextChunkSize r = None ->
  mContextCurrentPosition r <> 0 ->
  moveToNextContextChunk r = Throw (TllmException "Full context out of bounds.") r.
Proof.
  intros Hs Hc Hp. unfold moveToNextContextChunk. run_monad.
  apply isContextInitState_true in Hs. rewrite Hs, Hc. cbn.
  by rewrite bool_decide_eq_false_2.
Qed.

(** C5 (as amended).  From a request in ContextInit with [promptLen = 100]
    and the cursor at 0, the calls setContextChunkSize 30,
    moveToNextContextChunk, ... with sizes 30, 30, 30, 10 all return.
    [isFirstContextChunk] holds in the starting state and after the first
    assignment, that is before the first advance, and in none of the seven
    states after it.  [isLastContextChunk] never throws; in the starting
    state it is true when no chunk size is assigned (and, with a size left
    assigned, when that size is the whole prompt); in the eight states after
    the calls it is false until the final chunk of 10 is assigned and true
    from then on, after the last advance too.  From an unchunked start it is
    therefore true, false six times, true, true.  The remaining length goes
    100, 70, 40, 10, 0 across the advances, and the position stays between 0
    and [promptLen]. *)
Theorem chunking_sequence r :
  mState r = REQUEST_STATE_CONTEXT_INIT ->
  mPromptLen r = 100 ->
  mContextCurrentPosition r = 0 ->
  let states := observe (chunk_steps [30; 30; 30; 10]) r in
  length states = 8%nat /\
  isFirstContextChunk r = true /\
  isFirstContextChunk <$> states
    = [true; false; false; false; false; false; false; false] /\
  isLastContextChunk r
    = Ok (match mContextChunkSize r with
          | None => true
          | Some size => bool_decide (Int32.add 0 size = 100)
          end) /\
  isLastContextChunk <$> states
    = [Ok false; Ok false; Ok false; Ok false; Ok false; Ok false; Ok true; Ok true] /\
  (mContextChunkSize r = None ->
   isLastContextChunk <$> r :: states
     = [Ok true; Ok false; Ok false; Ok false; Ok false; Ok false; Ok false;
        Ok true; Ok true]) /\
  getContextRemainingLength r = 100 /\
  getContextRemainingLength <$> states = [100; 70; 70; 40; 40; 10; 10; 0] /\
  getContextCurrentPosition <$> states = [0; 30; 30; 60; 60; 90; 90; 100] /\
  Forall (fun s => 0 <= mContextCurrentPosition s <= mPromptLen s) (r :: states).
Proof.
  intros Hs Hp Hc. destruct r. cbn in Hs, Hp, Hc. subst.
  cbv zeta.
  split; [vm_compute; reflexivity|].
  split; [by destruct mContextChunkSize0|].
  split; [vm_compute; reflexivity|].
  split; [by destruct mContextChunkSize0|].
  split; [vm_compute; reflexivity|].
  split; [cbn; intros ->; vm_compute; reflexivity|].
  split; [vm_compute; reflexivity|].
  split; [vm_compute; reflexivity|].
  split; [vm_compute; reflexivity|].
  vm_compute. repeat constructor; discriminate.
Qed.

(** ** Beam updates *)

Lemma update_tokens_at_returns beam f r r' :
  update_tokens_at beam f r = Ret tt r' ->
  exists v v', 0 <= beam /\ mTokens r !! Z.to_nat beam = Some v /\ f v = Ok v' /\
    r' = set_mTokens (<[Z.to_nat beam := v']> (mTokens r)) r.
Proof.
  unfold update_tokens_at, vector_update_at. run_monad.
  destruct (vector_at (mTokens r) beam) as [v|] eqn:Hat; [|discriminate].
  destruct (f v) as [v'|] eqn:Hf; [|discriminate].
  intros [= <-]. apply vector_at_Ok in Hat as [? ?]. eauto 10.
Qed.

Lemma update_tokens_at_final beam f r :
  final_state (update_tokens_at beam f r) = r \/
  exists beams, final_state (update_tokens_at beam f r) = set_mTokens beams r.
Proof.
  unfold update_tokens_at. destruct (vector_update_at _ _ _); cbn; eauto.
Qed.

Lemma update_logProbs_at_returns beam f r r' :
  update_logProbs_at beam f r = Ret tt r' ->
  exists v v', 0 <= beam /\ mLogProbs r !! Z.to_nat beam = Some v /\ f v = Ok v' /\
    r' = set_mLogProbs (<[Z.to_nat beam := v']> (mLogProbs r)) r.
Proof.
  unfold update_logProbs_at, vector_update_at. run_monad.
  destruct (vector_at (mLogProbs r) beam) as [v|] eqn:Hat; [|discriminate].
  destruct (f v) as [v'|] eqn:Hf; [|discriminate].
  intros [= <-]. apply vector_at_Ok in Hat as [? ?]. eauto 10.
Qed.

Lemma update_logProbs_at_final beam f r :
  final_state (update_logProbs_at beam f r) = r \/
  exists beams, final_state (update_logProbs_at beam f r) = set_mLogProbs beams r.
Proof.
  unfold update_logProbs_at. destruct (vector_update_at _ _ _); cbn; eauto.
Qed.

(** ** The prompt length under beam search *)

Lemma keeps_update_tokens_at (I : Request TTensor -> Prop) beam f :
  (forall beams s, I s -> I (set_mTokens beams s)) ->
  keeps I (update_tokens_at beam f).
Proof.
  intros HI r Hr.
  destruct (update_tokens_at_final beam f r) as [->|[t ->]]; [done|by apply HI].
Qed.

Lemma keeps_update_logProbs_at (I : Request TTensor -> Prop) beam f :
  (forall beams s, I s -> I (set_mLogProbs beams s)) ->
  keeps I (update_logProbs_at beam f).
Proof.
  intros HI r Hr.
  destruct (update_logProbs_at_final beam f r) as [->|[t ->]]; [done|by apply HI].
Qed.

Lemma keeps_setCumLogProb (I : Request TTensor -> Prop) c beam :
  (forall v s, I s -> I (set_mCumLogProbs v s)) ->
  keeps I (setCumLogProb c beam).
Proof.
  intros HI r Hr. unfold setCumLogProb.
  destruct (vector_update_at _ _ _); [by apply HI|done].
Qed.

Ltac keeps_step :=
  lazymatch goal with
  | |- keeps _ (mbind _ get) => apply keeps_get_bind; intros ? ?
  | |- keeps _ (mbind _ _) => apply keeps_bind; [|intros ?]
  | |- keeps _ (update_tokens_at _ _) =>
      apply keeps_update_tokens_at; intros ? ? ?; assumption
  | |- keeps _ (update_logProbs_at _ _) =>
      apply keeps_update_logProbs_at; intros ? ? ?; assumption
  | |- keeps _ (setCumLogProb _ _) =>
      apply keeps_setCumLogProb; intros ? ? ?; assumption
  | |- keeps _ (mret _) => apply keeps_ret
  | |- keeps _ (throw _) => apply keeps_throw
  | |- keeps _ (lift _) => apply keeps_lift
  | |- keeps _ (TLLM_CHECK_WITH_INFO _ _) => apply keeps_check
  | |- keeps _ (assert _) => apply keeps_assert
  | |- keeps _ (modify _) => apply keeps_modify; intros ? ?; assumption
  | |- keeps _ (for_each _ _) => apply keeps_for_each; intros ?
  | |- keeps _ (for_each_from _ _ _) => apply keeps_for_each_from; intros ? ?
  end.

Lemma keeps_pause_multi_beam cfg len maxInputLen :
  1 < beamWidth cfg -> keeps (@prompt_fixed TTensor cfg len) (pause maxInputLen).
Proof.
  intros Hw. unfold pause.
  apply keeps_get_bind. intros r (Hcfg & _ & _).
  destruct (decide (1 < beamWidth (mSamplingConfig r))) as [_|Hn];
    [|rewrite Hcfg in Hn; lia].
  apply keeps_bind; [|intros ?].
  - apply keeps_for_each. intros beam.
    apply keeps_get_bind. intros r1 _.
    destruct (mReturnLogProbs r1); repeat keeps_step.
  - repeat (apply keeps_bind; [|intros ?]);
      apply keeps_modify; intros s Hs; exact Hs.
Qed.

Lemma keeps_exec cfg len (c : Call TTensor) :
  1 < beamWidth cfg -> keeps (@prompt_fixed TTensor cfg len) (exec c).
Proof.
  intros Hw. destruct c; cbn [exec];
    try (by apply keeps_pause_multi_beam);
    unfold addNewToken, addNewTokens, setGeneratedTokens, setMaxSentTokenPos,
      setLogProbs, setDraftTokens, setDraftLogits, setContextLogitsHost,
      setGenerationLogitsHost, addGenerationFragments,
      clearGenerationLogitsFragments, setContextChunkSize;
    try (repeat keeps_step; fail).
  - (* moveToNextContextChunk *)
    unfold moveToNextContextChunk.
    apply keeps_get_bind. intros r _.
    apply keeps_bind; [apply keeps_check|intros _].
    destruct (has_value (mContextChunkSize r)).
    + unfold setContextChunkSize. repeat keeps_step.
    + repeat keeps_step.
Qed.

Lemma GenericLlmRequest_prompt_fixed (dflt : TTensor) a r0 :
  GenericLlmRequest dflt a = Ok r0 ->
  prompt_fixed (samplingConfig a) (Int32.of_size (length (inputTokens a))) r0.
Proof.
  unfold GenericLlmRequest, vector_new.
  destruct (decide (0 <= beamWidth (samplingConfig a))); [|discriminate].
  run_monad.
  destruct (_ || _); [discriminate|].
  destruct (_ && _); [discriminate|].
  by intros [= <-].
Qed.

Lemma run_keeps (I : Request TTensor -> Prop) calls r r' :
  (forall c, keeps I (exec c)) -> I r -> run calls r = Some r' -> I r'.
Proof.
  intros Hexec. revert r. induction calls as [|c rest IH]; intros r Hr; cbn.
  - by intros [= <-].
  - pose proof (Hexec c r Hr) as Hc.
    destruct (exec c r) as [[] r1|]; [|discriminate]. by apply IH.
Qed.

(** C3.  A request constructed with [beamWidth > 1] has
    [promptLen = origPromptLen]; every operation on a multi-beam request
    (every mutating member function, pause with its multi-beam branch
    included, and the scheduler's assignments to the state and the slot)
    leaves the beam width, [promptLen] and [origPromptLen] as they were,
    whether the call returns or throws; hence the equality holds in every
    state a history of calls leads to. *)
Theorem multi_beam_prompt_length_fixed (dflt : TTensor) a r0 :
  GenericLlmRequest dflt a = Ok r0 ->
  1 < beamWidth (samplingConfig a) ->
  mPromptLen r0 = mOrigPromptLen r0 /\
  (forall (c : Call TTensor) r,
     mSamplingConfig r = samplingConfig a ->
     mPromptLen r = mOrigPromptLen r ->
     let r' := final_state (exec c r) in
     mSamplingConfig r' = mSamplingConfig r /\
     mPromptLen r' = mPromptLen r /\
     mOrigPromptLen r' = mOrigPromptLen r /\
     mPromptLen r' = mOrigPromptLen r') /\
  (forall calls r, run calls r0 = Some r -> mPromptLen r = mOrigPromptLen r).
Proof.
  intros Hctor Hw. pose proof (GenericLlmRequest_prompt_fixed _ _ _ Hctor) as H0.
  split; [|split].
  - destruct H0 as (_ & -> & ->). done.
  - intros c r Hcfg Heq.
    assert (prompt_fixed (samplingConfig a) (mPromptLen r) r) as Hr by done.
    apply (keeps_exec _ _ c Hw) in Hr. destruct Hr as (H1 & H2 & H3).
    cbv zeta. rewrite H1, H2, H3. repeat split; congruence.
  - intros calls r Hrun.
    eapply run_keeps in Hrun; [|intros c; by apply keeps_exec|exact H0].
    destruct Hrun as (_ & -> & ->). done.
Qed.

(** ** Pause, single beam *)

Lemma getMaxBeamNumTokens_single r tokens :
  beamWidth (mSamplingConfig r) = 1 -> mTokens r = [tokens] ->
  getMaxBeamNumTokens r = Ok (Z.max 0 (Int32.of_size (length tokens))).
Proof.
  intros Hw Ht. unfold getMaxBeamNumTokens. by rewrite Hw, Ht.
Qed.

Lemma getMaxNumGeneratedTokens_single r tokens :
  beamWidth (mSamplingConfig r) = 1 -> mTokens r = [tokens] ->
  getMaxNumGeneratedTokens r
  = Ok (Int32.sub (Z.max 0 (Int32.of_size (length tokens))) (mPromptLen r)).
Proof.
  intros Hw Ht. unfold getMaxNumGeneratedTokens.
  by rewrite (getMaxBeamNumTokens_single r tokens Hw Ht).
Qed.

(** The prompt plus the generated tokens is the length of the beam, taken
    as a [SizeType] and never below zero. *)
Lemma prompt_plus_generated r tokens :
  Int32.add (mPromptLen r)
    (Int32.sub (Z.max 0 (Int32.of_size (length tokens))) (mPromptLen r))
  = Z.max 0 (Int32.of_size (length tokens)).
Proof.
  rewrite add_sub_cancel. apply wrap_id.
  pose proof (of_size_in_range (length tokens)). int32_range. lia.
Qed.

(** The single-beam branch, as one case analysis: which of the two resizes
    throws, if any, and the request the call returns otherwise. *)
Lemma pause_single_beam_outcome r maxInputLen tokens logProbs :
  beamWidth (mSamplingConfig r) = 1 ->
  mTokens r = [tokens] -> mLogProbs r = [logProbs] ->
  let newPromptLen :=
    Z.min maxInputLen (Z.max 0 (Int32.of_size (length tokens))) in
  let grown := Int32.sub newPromptLen (mPromptLen r) in
  pause maxInputLen r =
    if decide (0 <= newPromptLen) then
      let resized := set_mTokens [resize (Z.to_nat newPromptLen) 0 tokens] r in
      if mReturnLogProbs r then
        if decide (0 <= grown) then
          Ret tt
            (set_mSeqSlot (-1) (set_mContextChunkSize None
               (set_mContextCurrentPosition 0
                  (set_mState REQUEST_STATE_CONTEXT_INIT
                     (set_mPromptLen newPromptLen
                        (set_mMaxNewTokens (Int32.sub (mMaxNewTokens r) grown)
                           (set_mLogProbs
                              [resize (Z.to_nat grown) 0%float logProbs]
                              resized)))))))
        else Throw length_error resized
      else
        Ret tt
          (set_mSeqSlot (-1) (set_mContextChunkSize None
             (set_mContextCurrentPosition 0
                (set_mState REQUEST_STATE_CONTEXT_INIT
                   (set_mPromptLen newPromptLen
                      (set_mMaxNewTokens (Int32.sub (mMaxNewTokens r) grown)
                         resized))))))
    else Throw length_error r.
Proof.
  intros Hw Ht Hl. cbv zeta.
  unfold pause. run_monad.
  destruct (decide (1 < beamWidth (mSamplingConfig r))) as [|_]; [lia|].
  rewrite (getMaxNumGeneratedTokens_single r tokens Hw Ht).
  rewrite prompt_plus_generated.
  set (newPromptLen := Z.min maxInputLen (Z.max 0 (Int32.of_size (length tokens)))).
  rewrite Ht. cbn [length seq for_each]. run_monad.
  unfold update_tokens_at at 1. rewrite Ht.
  destruct (decide (0 <= newPromptLen)) as [Hnew|Hnew].
  - rewrite (vector_update_at_lookup [tokens] 0 tokens _ _ eq_refl
               (vector_resize_Ok 0 newPromptLen tokens Hnew)).
    cbn [insert list_insert]. unfold update_logProbs_at.
    destruct (mReturnLogProbs r) eqn:Hlp; cbn; [|done].
    rewrite Hl.
    destruct (decide (0 <= Int32.sub newPromptLen (mPromptLen r))) as [Hg|Hg].
    + by rewrite (vector_update_at_lookup [logProbs] 0 logProbs _ _ eq_refl
                    (vector_resize_Ok 0%float _ logProbs Hg)).
    + by rewrite (vector_update_at_fails [logProbs] 0 logProbs _ _ eq_refl
                    (vector_resize_Err 0%float
                       (Int32.sub newPromptLen (mPromptLen r)) logProbs
                       ltac:(lia))).
  - by rewrite (vector_update_at_fails [tokens] 0 tokens _ _ eq_refl
                  (vector_resize_Err 0 newPromptLen tokens ltac:(lia))).
Qed.

Lemma pause_single_beam_throws r maxInputLen tokens logProbs :
  beamWidth (mSamplingConfig r) = 1 ->
  mTokens r = [tokens] -> mLogProbs r = [logProbs] ->
  let newPromptLen :=
    Z.min maxInputLen (Z.max 0 (Int32.of_size (length tokens))) in
  maxInputLen < 0 \/
  (mReturnLogProbs r = true /\ Int32.sub newPromptLen (mPromptLen r) < 0) ->
  exists s, pause maxInputLen r = Throw length_error s.
Proof.
  intros Hw Ht Hl newPromptLen Hbad.
  rewrite (pause_single_beam_outcome r maxInputLen tokens logProbs Hw Ht Hl).
  cbv zeta. fold newPromptLen.
  destruct (decide (0 <= newPromptLen)) as [Hnew|Hnew]; [|eauto].
  destruct Hbad as [Hneg|[Hlp Hg]]; [unfold newPromptLen in Hnew; lia|].
  rewrite Hlp.
  destruct (decide (0 <= Int32.sub newPromptLen (mPromptLen r))); [lia|eauto].
Qed.

(** C1 (as amended).  For a request with one beam, [pause maxInputLen] with
    [maxInputLen >= 0] and, when log-probs are returned, a new prompt length
    not below the current one: the new prompt length is
    [min (maxInputLen, promptLen + generated)], where [generated] is what
    [getMaxNumGeneratedTokens] returns; the max-new-tokens budget decreases
    by [newPromptLen - promptLen]; the token sequence is resized to
    [newPromptLen]; the log-prob sequence is resized to
    [newPromptLen - promptLen] when log-probs are returned (and untouched
    otherwise); and the cursor position is 0, the chunk size and the
    execution slot are cleared, and the state is ContextInit. *)
Theorem pause_single_beam r maxInputLen tokens logProbs :
  beamWidth (mSamplingConfig r) = 1 ->
  mTokens r = [tokens] -> mLogProbs r = [logProbs] ->
  let generated :=
    Int32.sub (Z.max 0 (Int32.of_size (length tokens))) (mPromptLen r) in
  let newPromptLen := Z.min maxInputLen (Int32.add (mPromptLen r) generated) in
  let grown := Int32.sub newPromptLen (mPromptLen r) in
  0 <= maxInputLen ->
  (mReturnLogProbs r = true -> 0 <= grown) ->
  getMaxNumGeneratedTokens r = Ok generated /\
  exists r', pause maxInputLen r = Ret tt r' /\
    mPromptLen r' = newPromptLen /\
    mMaxNewTokens r' = Int32.sub (mMaxNewTokens r) grown /\
    mTokens r' = [resize (Z.to_nat newPromptLen) 0 tokens] /\
    mLogProbs r' = (if mReturnLogProbs r
                    then [resize (Z.to_nat grown) 0%float logProbs]
                    else mLogProbs r) /\
    mContextCurrentPosition r' = 0 /\
    mContextChunkSize r' = None /\
    mSeqSlot r' = -1 /\
    mState r' = REQUEST_STATE_CONTEXT_INIT.
Proof.
  intros Hw Ht Hl generated newPromptLen grown Hmax Hgrown.
  split; [by apply getMaxNumGeneratedTokens_single|].
  rewrite (pause_single_beam_outcome r maxInputLen tokens logProbs Hw Ht Hl).
  cbv zeta. subst grown newPromptLen generated.
  rewrite prompt_plus_generated in *.
  set (newPromptLen := Z.min maxInputLen (Z.max 0 (Int32.of_size (length tokens)))) in *.
  destruct (decide (0 <= newPromptLen)) as [_|Hn]; [|unfold newPromptLen in Hn; lia].
  destruct (mReturnLogProbs r) eqn:Hlp.
  - destruct (decide (0 <= Int32.sub newPromptLen (mPromptLen r))) as [_|Hn];
      [|by specialize (Hgrown eq_refl)].
    eexists. split; [reflexivity|]. by repeat split.
  - eexists. split; [reflexivity|]. by repeat split.
Qed.

(** ** Pause, several beams *)

Lemma set_beams_id r : set_mLogProbs (mLogProbs r) (set_mTokens (mTokens r) r) = r.
Proof. by destruct r. Qed.

Lemma set_beams_twice r (t1 t2 : BeamTokens) (l1 l2 : list VecLogProbs) :
  set_mLogProbs l2 (set_mTokens t2 (set_mLogProbs l1 (set_mTokens t1 r)))
  = set_mLogProbs l2 (set_mTokens t2 r).
Proof. by destruct r. Qed.

(** The multi-beam loop, started at beam [length doneT] with the beams before
    it already processed. *)
Lemma pause_multi_beam_loop (restT doneT : BeamTokens) (doneL restL : list VecLogProbs) r :
  mTokens r = doneT ++ restT -> mLogProbs r = doneL ++ restL ->
  length doneL = length doneT -> length restL = length restT ->
  0 <= mPromptLen r ->
  for_each (seq (length doneT) (length restT)) (fun beam =>
    r ← get;
    update_tokens_at (Z.of_nat beam) (vector_resize 0 (mPromptLen r));;
    if mReturnLogProbs r
    then update_logProbs_at (Z.of_nat beam) (fun _ => Ok [])
    else mret tt) r
  = Ret tt
      (set_mLogProbs
         (doneL ++ (if mReturnLogProbs r then (fun _ => []) <$> restL else restL))
         (set_mTokens
            (doneT ++ (resize (Z.to_nat (mPromptLen r)) 0 <$> restT)) r)).
Proof.
  revert doneT doneL restL r.
  induction restT as [|t restT IH]; intros doneT doneL restL r Ht Hl Hd Hr Hp.
  - destruct restL; [|done]. cbn. unfold ret.
    rewrite app_nil_r in Ht, Hl.
    destruct (mReturnLogProbs r); rewrite !app_nil_r;
      rewrite <- Ht, <- Hl; by rewrite set_beams_id.
  - destruct restL as [|l restL]; [done|]. cbn in Hr.
    cbn [length seq for_each]. run_monad.
    unfold update_tokens_at at 1. rewrite Ht.
    rewrite (vector_update_at_lookup (doneT ++ t :: restT) (length doneT) t
               _ _ (list_lookup_middle _ _ _ _ eq_refl)
               (vector_resize_Ok 0 (mPromptLen r) t Hp)).
    rewrite insert_app_r_alt by lia. rewrite Nat.sub_diag. cbn [insert list_insert].
    set (t' := resize (Z.to_nat (mPromptLen r)) 0 t).
    assert (length (doneT ++ [t']) = S (length doneT)) as Hlen
      by (rewrite length_app; cbn; lia).
    destruct (mReturnLogProbs r) eqn:Hlp.
    + unfold update_logProbs_at at 1. cbn [mLogProbs set_mTokens]. rewrite Hl.
      erewrite vector_update_at_lookup;
        [|rewrite <- Hd; by apply list_lookup_middle|reflexivity].
      rewrite insert_app_r_alt by lia. rewrite Hd, Nat.sub_diag.
      cbn [insert list_insert].
      rewrite <- Hlen.
      pose proof (IH (doneT ++ [t']) (doneL ++ [[]]) restL
                    (set_mLogProbs (doneL ++ [] :: restL)
                       (set_mTokens (doneT ++ t' :: restT) r))) as IH'.
      run_monad. cbn in IH'. rewrite Hlp in IH'.
      etrans; [apply IH'|].
      * by rewrite <- app_assoc.
      * by rewrite <- app_assoc.
      * rewrite !length_app. cbn. lia.
      * lia.
      * done.
      * rewrite set_beams_twice. by rewrite <- !app_assoc.
    + rewrite <- Hlen.
      pose proof (IH (doneT ++ [t']) (doneL ++ [l]) restL
                    (set_mTokens (doneT ++ t' :: restT) r)) as IH'.
      run_monad. cbn in IH'. rewrite Hlp in IH'.
      etrans; [apply IH'|].
      * by rewrite <- app_assoc.
      * by rewrite Hl, <- app_assoc.
      * rewrite !length_app. cbn. lia.
      * lia.
      * done.
      * rewrite <- !app_assoc. cbn. by destruct r.
Qed.

Lemma pause_multi_beam_outcome r maxInputLen :
  1 < beamWidth (mSamplingConfig r) ->
  length (mLogProbs r) = length (mTokens r) ->
  0 <= mPromptLen r ->
  pause maxInputLen r
  = Ret tt
      (set_mSeqSlot (-1) (set_mContextChunkSize None
         (set_mContextCurrentPosition 0
            (set_mState REQUEST_STATE_CONTEXT_INIT
               (set_mLogProbs
                  (if mReturnLogProbs r
                   then (fun _ => []) <$> mLogProbs r else mLogProbs r)
                  (set_mTokens
                     (resize (Z.to_nat (mPromptLen r)) 0 <$> mTokens r) r)))))).
Proof.
  intros Hw Hlen Hp.
  pose proof (pause_multi_beam_loop (mTokens r) [] [] (mLogProbs r) r
                eq_refl eq_refl eq_refl Hlen Hp) as Hloop.
  unfold pause. run_monad.
  destruct (decide (1 < beamWidth (mSamplingConfig r))) as [_|]; [|lia].
  cbn [length] in Hloop. rewrite Hloop. done.
Qed.

(** ** The representation invariant *)

Lemma Inv_update_tokens_at cfg origLen beam f r r' :
  Inv cfg origLen r ->
  (forall v v', mPromptLen r <= Z.of_nat (length v) -> f v = Ok v' ->
                mPromptLen r <= Z.of_nat (length v')) ->
  update_tokens_at beam f r = Ret tt r' -> Inv cfg origLen r'.
Proof.
  intros [? ? ? ? ? ? Hbeams ? ? ?] Hf
    (v & v' & Hb & Hv & Hfv & ->)%update_tokens_at_returns.
  split; simpl_fields; try assumption.
  - by rewrite length_insert.
  - apply Forall_insert; [assumption|].
    eapply Hf; [|exact Hfv].
    exact (Forall_lookup_1 _ _ _ _ Hbeams Hv).
Qed.

Lemma Inv_update_logProbs_at cfg origLen beam f r r' :
  Inv cfg origLen r ->
  update_logProbs_at beam f r = Ret tt r' -> Inv cfg origLen r'.
Proof.
  intros [] (v & v' & Hb & Hv & Hfv & ->)%update_logProbs_at_returns.
  split; simpl_fields; try assumption. by rewrite length_insert.
Qed.

Lemma Inv_GenericLlmRequest (dflt : TTensor) a r0 :
  valid_args a -> GenericLlmRequest dflt a = Ok r0 ->
  Inv (samplingConfig a) (Z.of_nat (length (inputTokens a))) r0.
Proof.
  intros [Hw HL]. unfold GenericLlmRequest, vector_new.
  destruct (decide (0 <= beamWidth (samplingConfig a))); [|discriminate].
  run_monad.
  destruct (_ || _); [discriminate|].
  destruct (_ && _); [discriminate|].
  intros [= <-]. rewrite (of_size_exact _ HL).
  split; simpl_fields; try done.
  - int32_range. lia.
  - by rewrite length_replicate.
  - by rewrite length_replicate.
  - apply Forall_replicate. lia.
  - lia.
Qed.

Ltac inv_frame Hinv :=
  destruct Hinv; split; simpl_fields; assumption.

Lemma Inv_pause cfg origLen maxInputLen r r' :
  Inv cfg origLen r -> pause maxInputLen r = Ret tt r' -> Inv cfg origLen r'.
Proof.
  intros Hinv.
  destruct Hinv as [Hcfg Horig Hp Hw Ht Hl Hbeams Hpos Hchunk Hmulti].
  destruct (decide (1 < beamWidth (mSamplingConfig r))) as [Hm|Hs].
  - rewrite pause_multi_beam_outcome by (congruence || lia).
    intros [= <-]. split; simpl_fields; try assumption.
    + by rewrite length_fmap.
    + destruct (mReturnLogProbs r); [by rewrite length_fmap|done].
    + apply Forall_fmap, Forall_true. intros t. cbn.
      rewrite length_resize. lia.
    + lia.
    + intros ? [=].
  - assert (beamWidth (mSamplingConfig r) = 1) as Hw1 by lia.
    rewrite Hw1 in Ht, Hl. change (Z.to_nat 1) with 1%nat in *.
    destruct (mTokens r) as [|tokens [|]] eqn:HT; try done.
    destruct (mLogProbs r) as [|logProbs [|]] eqn:HL; try done.
    rewrite (pause_single_beam_outcome r maxInputLen tokens logProbs Hw1 HT HL).
    cbv zeta.
    set (newPromptLen := Z.min maxInputLen (Z.max 0 (Int32.of_size (length tokens)))).
    pose proof (of_size_in_range (length tokens)) as Hsize.
    assert (newPromptLen <= Int32.max_value) as Hle
      by (unfold newPromptLen; int32_range; lia).
    destruct (decide (0 <= newPromptLen)) as [Hnew|]; [|discriminate].
    destruct (mReturnLogProbs r).
    + destruct (decide (0 <= _)); [|discriminate].
      intros [= <-].
      split; simpl_fields; try assumption; try done; try (by rewrite Hw1);
        try lia.
      repeat constructor. rewrite length_resize. lia.
    + intros [= <-].
      split; simpl_fields; try assumption; try done; try (by rewrite Hw1);
        try (by rewrite HL, Hw1); try lia.
      repeat constructor. rewrite length_resize. lia.
Qed.

Lemma Inv_setContextChunkSize cfg origLen size r r' :
  Inv cfg origLen r -> setContextChunkSize size r = Ret tt r' ->
  Inv cfg origLen r'.
Proof.
  intros Hinv.
  destruct (decide (mState r = REQUEST_STATE_CONTEXT_INIT)) as [Hs|Hs];
    [|by rewrite setContextChunkSize_wrong_state].
  destruct (decide (0 <= size)) as [Hsize|Hsize];
    [|by rewrite setContextChunkSize_negative by (done || lia)].
  rewrite setContextChunkSize_returns by done. intros [= <-].
  destruct Hinv as [Hcfg Horig Hp Hw Ht Hl Hbeams Hpos Hchunk Hmulti].
  split; simpl_fields; try assumption.
  intros c [= <-]. unfold getContextRemainingLength, getContextCurrentPosition.
  rewrite sub_exact by (int32_range; lia). lia.
Qed.

Lemma moveToNextContextChunk_advance cfg origLen r size :
  Inv cfg origLen r ->
  mState r = REQUEST_STATE_CONTEXT_INIT -> mContextChunkSize r = Some size ->
  moveToNextContextChunk r
  = Ret tt (set_mContextChunkSize (Some 0)
              (set_mContextCurrentPosition (mContextCurrentPosition r + size) r)).
Proof.
  intros Hinv Hs Hc. rewrite (moveToNextContextChunk_chunked r size Hs Hc).
  destruct Hinv as [Hcfg Horig Hp Hw Ht Hl Hbeams Hpos Hchunk Hmulti].
  specialize (Hchunk size Hc).
  rewrite add_exact by (int32_range; lia).
  rewrite sub_exact by (int32_range; lia).
  by rewrite Z.min_l by lia.
Qed.

Lemma Inv_moveToNextContextChunk cfg origLen r r' :
  Inv cfg origLen r -> moveToNextContextChunk r = Ret tt r' ->
  Inv cfg origLen r'.
Proof.
  intros Hinv.
  destruct (decide (mState r = REQUEST_STATE_CONTEXT_INIT)) as [Hs|Hs];
    [|by rewrite moveToNextContextChunk_wrong_state].
  destruct (mContextChunkSize r) as [size|] eqn:Hc.
  - rewrite (moveToNextContextChunk_advance cfg origLen r size Hinv Hs Hc).
    intros [= <-].
    destruct Hinv as [Hcfg Horig Hp Hw Ht Hl Hbeams Hpos Hchunk Hmulti].
    specialize (Hchunk size Hc).
    split; simpl_fields; try assumption; [lia|].
    intros ? [= <-]. lia.
  - destruct (decide (mContextCurrentPosition r = 0)) as [Hz|Hz];
      [|by rewrite moveToNextContextChunk_full_out_of_bounds].
    rewrite moveToNextContextChunk_full by done. intros [= <-].
    destruct Hinv as [Hcfg Horig Hp Hw Ht Hl Hbeams Hpos Hchunk Hmulti].
    split; simpl_fields; try assumption; [lia|].
    rewrite Hc. intros ? [=].
Qed.

Lemma Inv_exec cfg origLen (c : Call TTensor) r r' :
  Inv cfg origLen r -> exec c r = Ret tt r' -> Inv cfg origLen r'.
Proof.
  intros Hinv. destruct c; cbn [exec].
  - (* addNewToken *)
    unfold addNewToken. intros Hret.
    eapply Inv_update_tokens_at; [exact Hinv| |exact Hret].
    intros v v' Hv [= <-]. rewrite length_app. lia.
  - (* addNewTokens *)
    unfold addNewTokens. run_monad.
    destruct (bool_decide _); cbn; [|discriminate]. intros Hloop.
    eapply (for_each_from_returns_inv (Inv cfg origLen));
      [|exact Hinv|exact Hloop].
    intros j x s1 s2 Hs1 Hb.
    eapply Inv_update_tokens_at; [exact Hs1| |exact Hb].
    intros v v' Hv [= <-]. rewrite length_app. lia.
  - (* setGeneratedTokens *)
    unfold setGeneratedTokens. run_monad.
    destruct (bool_decide _); cbn; [|discriminate]. intros Hloop.
    eapply (for_each_from_returns_inv (Inv cfg origLen));
      [|exact Hinv|exact Hloop].
    intros j x s1 s2 Hs1 Hb.
    eapply Inv_update_tokens_at; [exact Hs1| |exact Hb].
    intros v v' Hv. unfold vector_resize.
    destruct (decide (0 <= mPromptLen s1)); [|discriminate].
    intros [= <-]. rewrite length_app, length_resize. lia.
  - apply Inv_pause. exact Hinv.
  - intros [= <-]. inv_frame Hinv.
  - (* setLogProbs *)
    unfold setLogProbs. run_monad.
    destruct (update_logProbs_at _ _ r) as [[] s1|] eqn:H1; [|discriminate].
    intros H2. eapply Inv_update_logProbs_at; [|exact H2].
    eapply Inv_update_logProbs_at; [exact Hinv|exact H1].
  - (* setCumLogProb *)
    unfold setCumLogProb. destruct (vector_update_at _ _ _); [|discriminate].
    intros [= <-]. inv_frame Hinv.
  - intros [= <-]. inv_frame Hinv.
  - intros [= <-]. inv_frame Hinv.
  - intros [= <-]. inv_frame Hinv.
  - intros [= <-]. inv_frame Hinv.
  - intros [= <-]. inv_frame Hinv.
  - intros [= <-]. inv_frame Hinv.
  - apply Inv_setContextChunkSize. exact Hinv.
  - apply Inv_moveToNextContextChunk. exact Hinv.
  - intros [= <-]. inv_frame Hinv.
  - intros [= <-]. inv_frame Hinv.
Qed.

Lemma Inv_run cfg origLen (calls : list (Call TTensor)) r r' :
  Inv cfg origLen r -> run calls r = Some r' -> Inv cfg origLen r'.
Proof.
  revert r. induction calls as [|c rest IH]; intros r Hinv; cbn.
  - by intros [= <-].
  - destruct (exec c r) as [[] r1|] eqn:Hc; [|discriminate].
    apply IH. by eapply Inv_exec.
Qed.

Lemma reachable_Inv r :
  reachable r -> exists cfg origLen, Inv cfg origLen r.
Proof.
  intros (dflt & a & r0 & calls & Hvalid & Hctor & Hrun).
  eexists _, _. eapply Inv_run; [|exact Hrun].
  by eapply Inv_GenericLlmRequest.
Qed.


(** C7.  On a reachable request: [moveToNextContextChunk] throws outside
    ContextInit; in ContextInit with a chunk size assigned it returns with the
    position advanced by that size and the chunk size reset to 0; with no
    chunk size assigned it requires the position to be 0, throwing otherwise,
    and returns with the position at [promptLen].  The last two parts read
    the returned request back member by member: position and chunk size are
    as said and every other member is as before. *)
Theorem moveToNextContextChunk_spec r :
  reachable r ->
  (mState r <> REQUEST_STATE_CONTEXT_INIT ->
     throws (moveToNextContextChunk r) /\
     final_state (moveToNextContextChunk r) = r) /\
  (mState r = REQUEST_STATE_CONTEXT_INIT ->
     forall size, mContextChunkSize r = Some size ->
       moveToNextContextChunk r
       = Ret tt (set_mContextChunkSize (Some 0)
                   (set_mContextCurrentPosition
                      (mContextCurrentPosition r + size) r))) /\
  (mState r = REQUEST_STATE_CONTEXT_INIT -> mContextChunkSize r = None ->
     mContextCurrentPosition r = 0 ->
       moveToNextContextChunk r
       = Ret tt (set_mContextCurrentPosition (mPromptLen r) r)) /\
  (mState r = REQUEST_STATE_CONTEXT_INIT -> mContextChunkSize r = None ->
     mContextCurrentPosition r <> 0 ->
       throws (moveToNextContextChunk r) /\
       final_state (moveToNextContextChunk r) = r) /\
  (mState r = REQUEST_STATE_CONTEXT_INIT ->
     forall size, mContextChunkSize r = Some size ->
       exists r', moveToNextContextChunk r = Ret tt r' /\
         mContextCurrentPosition r' = mContextCurrentPosition r + size /\
         mContextChunkSize r' = Some 0 /\
         unchanged_except
           [member_mContextChunkSize; member_mContextCurrentPosition] r r') /\
  (mState r = REQUEST_STATE_CONTEXT_INIT -> mContextChunkSize r = None ->
     mContextCurrentPosition r = 0 ->
       exists r', moveToNextContextChunk r = Ret tt r' /\
         mContextCurrentPosition r' = mPromptLen r /\
         mContextChunkSize r' = None /\
         unchanged_except [member_mContextCurrentPosition] r r').
Proof.
  intros (cfg & origLen & Hinv)%reachable_Inv.
  split; [|split; [|split; [|split; [|split]]]].
  - intros Hs. rewrite moveToNextContextChunk_wrong_state by done.
    split; [by eexists _, _|done].
  - intros Hs size Hc. by eapply moveToNextContextChunk_advance.
  - apply moveToNextContextChunk_full.
  - intros Hs Hc Hp. rewrite moveToNextContextChunk_full_out_of_bounds by done.
    split; [by eexists _, _|done].
  - intros Hs size Hc. eexists.
    split; [by eapply moveToNextContextChunk_advance|].
    split; [reflexivity|]. split; [reflexivity|]. frame.
  - intros Hs Hc Hp. eexists.
    split; [by apply moveToNextContextChunk_full|].
    split; [reflexivity|]. split; [exact Hc|]. frame.
Qed.

(** ** Log-probs *)

(** C4 (as amended).  For a request with [promptLen - origPromptLen >= 0]
    (in 32-bit arithmetic), a beam index in range and any values,
    [setLogProbs values beam] returns and changes only that beam's log-prob
    sequence: its first [promptLen - origPromptLen] entries are kept (padded
    with zeros if there were fewer), whatever was at or beyond that index is
    discarded, and the values follow from that index on.  With
    [origPromptLen = 50], [promptLen = 60] and 10 values they are at indices
    10 to 19.  The last part reads the returned request back: the beam holds
    the new sequence, the other beams and every other member are as before. *)
Theorem setLogProbs_offset r (values : VecLogProbs) beam (old : VecLogProbs) :
  0 <= beam ->
  mLogProbs r !! Z.to_nat beam = Some old ->
  let offset := Int32.sub (mPromptLen r) (mOrigPromptLen r) in
  0 <= offset ->
  let new := resize (Z.to_nat offset) 0%float old ++ values in
  setLogProbs values beam r
    = Ret tt (set_mLogProbs (<[Z.to_nat beam := new]> (mLogProbs r)) r) /\
  length new = (Z.to_nat offset + length values)%nat /\
  (forall i, (i < length values)%nat ->
     new !! (Z.to_nat offset + i)%nat = values !! i) /\
  (forall j, (j < Z.to_nat offset)%nat -> (j < length old)%nat ->
     new !! j = old !! j) /\
  (mOrigPromptLen r = 50 -> mPromptLen r = 60 -> length values = 10%nat ->
   forall i, (10 <= i <= 19)%nat -> new !! i = values !! (i - 10)%nat) /\
  exists r', setLogProbs values beam r = Ret tt r' /\
    mLogProbs r' !! Z.to_nat beam = Some new /\
    length (mLogProbs r') = length (mLogProbs r) /\
    (forall other, other <> Z.to_nat beam ->
       mLogProbs r' !! other = mLogProbs r !! other) /\
    unchanged_except [member_mLogProbs] r r'.
Proof.
  intros Hbeam Hold offset Hoff new.
  assert (forall i, new !! (Z.to_nat offset + i)%nat = values !! i) as Hnew.
  { intros i. unfold new. rewrite lookup_app_r by (rewrite length_resize; lia).
    f_equal. rewrite length_resize. lia. }
  assert (setLogProbs values beam r
          = Ret tt (set_mLogProbs (<[Z.to_nat beam := new]> (mLogProbs r)) r))
    as Hret.
  { unfold setLogProbs. run_monad.
    unfold update_logProbs_at at 1. fold offset.
    erewrite vector_update_at_Ok;
      [|exact Hbeam|exact Hold|by apply vector_resize_Ok].
    unfold update_logProbs_at. simpl_fields.
    erewrite vector_update_at_Ok;
      [|exact Hbeam
       |apply list_lookup_insert_eq; by eapply lookup_lt_Some
       |reflexivity].
    rewrite list_insert_insert_eq. by destruct r. }
  split; [|split; [|split; [|split; [|split]]]];
    [exact Hret| | | | |
     eexists; split; [exact Hret|]; simpl_fields;
     split; [apply list_lookup_insert_eq; by eapply lookup_lt_Some|];
     split; [apply length_insert|];
     split; [intros other Hother; by apply list_lookup_insert_ne|frame]].
  - unfold new. by rewrite length_app, length_resize.
  - intros i _. apply Hnew.
  - intros j Hj1 Hj2. unfold new.
    rewrite lookup_app_l by (rewrite length_resize; lia).
    by apply lookup_resize.
  - intros Horig Hprompt Hlen i Hi.
    assert (Z.to_nat offset = 10%nat) as Hten
      by (unfold offset; rewrite Horig, Hprompt; reflexivity).
    rewrite <- Hnew, Hten. f_equal. lia.
Qed.

(** ** Full-context requests *)

Lemma pause_returns_reset r r' maxInputLen :
  pause maxInputLen r = Ret tt r' ->
  mContextChunkSize r' = None /\ mContextCurrentPosition r' = 0 /\
  mSeqSlot r' = -1 /\ mState r' = REQUEST_STATE_CONTEXT_INIT.
Proof.
  unfold pause. intros (r1 & s1 & _ & H)%bind_returns.
  apply bind_returns in H as ([] & s2 & _ & H).
  run_monad. by injection H as <-.
Qed.

Lemma keeps_chunk_exec (x : option SizeType) (c : Call TTensor) :
  touches_chunk c = false ->
  keeps (fun s => mContextChunkSize s = x) (exec c).
Proof.
  destruct c; cbn [exec touches_chunk]; try discriminate; intros _;
    unfold addNewToken, addNewTokens, setGeneratedTokens, setMaxSentTokenPos,
      setLogProbs, setDraftTokens, setDraftLogits, setContextLogitsHost,
      setGenerationLogitsHost, addGenerationFragments,
      clearGenerationLogitsFragments;
    repeat keeps_step.
Qed.

Lemma chunk_flag_exec (c : Call TTensor) r r' :
  exec c r = Ret tt r' ->
  has_value (mContextChunkSize r')
  = chunk_flag (has_value (mContextChunkSize r)) c.
Proof.
  destruct (touches_chunk c) eqn:Htouch.
  - destruct c; try discriminate; cbn [exec chunk_flag].
    + intros (Hnone & _)%pause_returns_reset. by rewrite Hnone.
    + destruct (decide (mState r = REQUEST_STATE_CONTEXT_INIT)) as [Hs|Hs];
        [|by rewrite setContextChunkSize_wrong_state].
      destruct (decide (0 <= size)) as [Hsize|Hsize];
        [|by rewrite setContextChunkSize_negative by (done || lia)].
      rewrite setContextChunkSize_returns by done. by intros [= <-].
    + destruct (decide (mState r = REQUEST_STATE_CONTEXT_INIT)) as [Hs|Hs];
        [|by rewrite moveToNextContextChunk_wrong_state].
      destruct (mContextChunkSize r) as [size|] eqn:Hc.
      * rewrite (moveToNextContextChunk_chunked r size Hs Hc). by intros [= <-].
      * destruct (decide (mContextCurrentPosition r = 0)) as [Hz|Hz];
          [|by rewrite moveToNextContextChunk_full_out_of_bounds].
        rewrite moveToNextContextChunk_full by done. intros [= <-].
        simpl_fields. by rewrite Hc.
  - intros Hret.
    pose proof (keeps_chunk_exec (mContextChunkSize r) c Htouch r eq_refl) as Hk.
    rewrite Hret in Hk. cbn in Hk. rewrite Hk.
    by destruct c.
Qed.

Lemma chunk_flag_run (calls : list (Call TTensor)) r r' :
  run calls r = Some r' ->
  has_value (mContextChunkSize r')
  = fold_left chunk_flag calls (has_value (mContextChunkSize r)).
Proof.
  revert r. induction calls as [|c rest IH]; intros r; cbn.
  - by intros [= <-].
  - destruct (exec c r) as [[] r1|] eqn:Hc; [|discriminate].
    intros Hrun. rewrite (IH _ Hrun). by rewrite (chunk_flag_exec c r r1 Hc).
Qed.

Lemma GenericLlmRequest_unchunked (dflt : TTensor) a r0 :
  GenericLlmRequest dflt a = Ok r0 -> mContextChunkSize r0 = None.
Proof.
  unfold GenericLlmRequest, vector_new.
  destruct (decide (0 <= beamWidth (samplingConfig a))); [|discriminate].
  run_monad.
  destruct (_ || _); [discriminate|].
  destruct (_ && _); [discriminate|].
  by intros [= <-].
Qed.

(** C8 (as amended).  In every state a history of returned calls leads to
    from construction, [isFullContextRequest] is true exactly when the
    request is in ContextInit and no call of [setContextChunkSize] has
    returned since construction or since the last pause. *)
Theorem isFullContextRequest_iff (dflt : TTensor) a r0 calls r :
  GenericLlmRequest dflt a = Ok r0 ->
  run calls r0 = Some r ->
  isFullContextRequest r = true <->
    mState r = REQUEST_STATE_CONTEXT_INIT /\
    chunk_assigned_since_pause calls = false.
Proof.
  intros Hctor Hrun. unfold isFullContextRequest, chunk_assigned_since_pause.
  pose proof (chunk_flag_run calls r0 r Hrun) as Hflag.
  rewrite (GenericLlmRequest_unchunked _ _ _ Hctor) in Hflag. cbn in Hflag.
  rewrite <- Hflag, andb_true_iff, negb_true_iff.
  by rewrite isContextInitState_true.
Qed.

End Properties.

(** ** The properties at concrete requests *)

Lemma request_of_constructed prompt width logProbs :
  0 <= width ->
  GenericLlmRequest tt (args_of prompt width logProbs)
  = Ok (request_of prompt width logProbs).
Proof.
  intros Hw. unfold GenericLlmRequest, vector_new. cbn.
  by destruct (decide (0 <= width)).
Qed.

Lemma args_of_valid prompt width logProbs :
  1 <= width -> (length prompt <= 1000)%nat ->
  valid_args (args_of prompt width logProbs).
Proof. intros Hw Hl. split; cbn; [done|]. int32_range. lia. Qed.

Lemma generated_20_count : getMaxNumGeneratedTokens generated_20 = Ok 20.
Proof. vm_compute. reflexivity. Qed.

Lemma resumed_60_is_paused : pause 60 generated_20 = Ret tt resumed_60.
Proof. vm_compute. reflexivity. Qed.

Lemma shrunk_reached : run [Pause 1] (request_of [7; 8] 1 false) = Some shrunk.
Proof. vm_compute. reflexivity. Qed.

Lemma generating_reached :
  run [AddNewToken 9 0; AssignState REQUEST_STATE_GENERATION_IN_PROGRESS]
    (request_of [7; 8] 1 true) = Some generating.
Proof. vm_compute. reflexivity. Qed.

Lemma four_beams_reached : run beam_calls (request_of [7; 8] 4 true) = Some four_beams.
Proof. vm_compute. reflexivity. Qed.

Lemma chunked_reachable : reachable chunked.
Proof.
  exists tt, (args_of [7; 8] 1 false), (request_of [7; 8] 1 false),
    [SetContextChunkSize 1].
  split; [apply args_of_valid; cbn; lia|].
  split; [by apply request_of_constructed|].
  vm_compute. reflexivity.
Qed.

(** The single-beam pause of the running example: a prompt of 50 tokens,
    20 generated, [maxInputLen = 60]. *)
Lemma pause_single_beam_witness :
  getMaxNumGeneratedTokens generated_20 = Ok 20 /\
  exists r', pause 60 generated_20 = Ret tt r' /\
    mPromptLen r' = 60 /\
    mMaxNewTokens r' = 54 /\
    mTokens r' = [replicate 60 7] /\
    mLogProbs r' = [replicate 10 0%float] /\
    mContextCurrentPosition r' = 0 /\
    mContextChunkSize r' = None /\
    mSeqSlot r' = -1 /\
    mState r' = REQUEST_STATE_CONTEXT_INIT.
Proof.
  apply (pause_single_beam generated_20 60 (replicate 70 7) (replicate 20 0%float));
    [reflexivity | reflexivity | reflexivity | lia | intros _; vm_compute; discriminate].
Defined.

(** With log-probs returned and [maxInputLen] below the prompt length, the
    log-prob resize gets a negative count and [pause] throws: the state stays
    GenerationInProgress and [promptLen] stays 2. *)
Lemma pause_single_beam_counterexample :
  GenericLlmRequest tt (args_of [7; 8] 1 true) = Ok (request_of [7; 8] 1 true) /\
  run [AddNewToken 9 0; AssignState REQUEST_STATE_GENERATION_IN_PROGRESS]
    (request_of [7; 8] 1 true) = Some generating /\
  beamWidth (mSamplingConfig generating) = 1 /\
  pause 1 generating = Throw length_error (set_mTokens [[7]] generating) /\
  mState (final_state (pause 1 generating)) = REQUEST_STATE_GENERATION_IN_PROGRESS /\
  mPromptLen (final_state (pause 1 generating)) = 2 /\
  ~ (exists r', pause 1 generating = Ret tt r' /\
       mPromptLen r' = 1 /\ mState r' = REQUEST_STATE_CONTEXT_INIT).
Proof.
  assert (pause 1 generating = Throw length_error (set_mTokens [[7]] generating))
    as Hthrow by (vm_compute; reflexivity).
  repeat split; try (vm_compute; reflexivity).
  intros (r' & Hret & _). rewrite Hthrow in Hret. discriminate.
Qed.


Lemma multi_beam_prompt_length_fixed_witness :
  mPromptLen (request_of [7; 8] 4 true) = mOrigPromptLen (request_of [7; 8] 4 true) /\
  (forall (c : Call unit) r,
     mSamplingConfig r = {| beamWidth := 4 |} ->
     mPromptLen r = mOrigPromptLen r ->
     let r' := final_state (exec c r) in
     mSamplingConfig r' = mSamplingConfig r /\
     mPromptLen r' = mPromptLen r /\
     mOrigPromptLen r' = mOrigPromptLen r /\
     mPromptLen r' = mOrigPromptLen r') /\
  (forall calls r, run calls (request_of [7; 8] 4 true) = Some r ->
     mPromptLen r = mOrigPromptLen r).
Proof.
  apply (multi_beam_prompt_length_fixed tt (args_of [7; 8] 4 true)).
  - apply request_of_constructed. lia.
  - cbn. lia.
Defined.

(** After the pause of the running example ([origPromptLen = 50],
    [promptLen = 60]), ten values go to indices 10 to 19. *)
Lemma setLogProbs_offset_witness :
  let values := replicate 10 1%float in
  let new := replicate 10 0%float ++ values in
  setLogProbs values 0 resumed_60 = Ret tt (set_mLogProbs [new] resumed_60) /\
  length new = 20%nat /\
  (forall i, (i < 10)%nat -> new !! (10 + i)%nat = values !! i) /\
  (forall j, (j < 10)%nat -> (j < 10)%nat -> new !! j = replicate 10 0%float !! j) /\
  (mOrigPromptLen resumed_60 = 50 -> mPromptLen resumed_60 = 60 ->
   length values = 10%nat ->
   forall i, (10 <= i <= 19)%nat -> new !! i = values !! (i - 10)%nat) /\
  exists r', setLogProbs values 0 resumed_60 = Ret tt r' /\
    mLogProbs r' !! 0%nat = Some new /\
    length (mLogProbs r') = length (mLogProbs resumed_60) /\
    (forall other, other <> 0%nat ->
       mLogProbs r' !! other = mLogProbs resumed_60 !! other) /\
    unchanged_except [member_mLogProbs] resumed_60 r'.
Proof.
  apply (setLogProbs_offset resumed_60 (replicate 10 1%float) 0
           (replicate 10 0%float));
    [lia | reflexivity | vm_compute; discriminate].
Defined.

(** Without log-probs a pause may shorten the prompt below its original
    length; [setLogProbs] then resizes to a negative count and throws,
    storing nothing. *)
Lemma setLogProbs_counterexample :
  GenericLlmRequest tt (args_of [7; 8] 1 false) = Ok (request_of [7; 8] 1 false) /\
  run [Pause 1] (request_of [7; 8] 1 false) = Some shrunk /\
  mPromptLen shrunk = 1 /\ mOrigPromptLen shrunk = 2 /\
  mLogProbs shrunk !! 0%nat = Some [] /\
  setLogProbs [1%float] 0 shrunk = Throw length_error shrunk /\
  ~ (exists r' new, setLogProbs [1%float] 0 shrunk = Ret tt r' /\
       mLogProbs r' !! 0%nat = Some new).
Proof.
  assert (setLogProbs [1%float] 0 shrunk = Throw length_error shrunk)
    as Hthrow by (vm_compute; reflexivity).
  repeat split; try (vm_compute; reflexivity).
  intros (r' & new & Hret & _). rewrite Hthrow in Hret. discriminate.
Qed.

Lemma chunking_sequence_witness :
  let r := request_of (replicate 100 7) 1 false in
  let states := observe (chunk_steps [30; 30; 30; 10]) r in
  length states = 8%nat /\
  isFirstContextChunk <$> r :: states
    = [true; true; false; false; false; false; false; false; false] /\
  isLastContextChunk <$> r :: states
    = [Ok true; Ok false; Ok false; Ok false; Ok false; Ok false; Ok false;
       Ok true; Ok true] /\
  getContextRemainingLength <$> r :: states
    = [100; 100; 70; 70; 40; 40; 10; 10; 0] /\
  getContextCurrentPosition <$> r :: states
    = [0; 0; 30; 30; 60; 60; 90; 90; 100] /\
  Forall (fun s => 0 <= mContextCurrentPosition s <= mPromptLen s) (r :: states).
Proof.
  destruct (chunking_sequence (request_of (replicate 100 7) 1 false)
              eq_refl eq_refl eq_refl)
    as (Hlen & Hfirst0 & Hfirst & _ & _ & Hlast & Hrem0 & Hrem & Hpos & Hin).
  cbv zeta. split; [exact Hlen|].
  split; [exact (f_equal2 cons Hfirst0 Hfirst)|].
  split; [exact (Hlast eq_refl)|].
  split; [exact (f_equal2 cons Hrem0 Hrem)|].
  split; [exact (f_equal (cons 0) Hpos)|].
  exact Hin.
Defined.

(** [isLastContextChunk] is not true at the final chunk only: it is true in
    the state the sequence starts from.  The request is freshly constructed with a
    prompt of 100 tokens; no chunk size is assigned, nothing is consumed and
    four chunks are still to come, yet [isLastContextChunk] is true.  Among
    the start state and the eight states after the calls, the final chunk
    (the 10) is assigned from index 7 on; the start state, index 0, is
    before the first of the four. *)
Lemma chunking_sequence_counterexample :
  let r := request_of (replicate 100 7) 1 false in
  let states := r :: observe (chunk_steps [30; 30; 30; 10]) r in
  GenericLlmRequest tt (args_of (replicate 100 7) 1 false) = Ok r /\
  mState r = REQUEST_STATE_CONTEXT_INIT /\
  mPromptLen r = 100 /\
  mContextCurrentPosition r = 0 /\
  mContextChunkSize r = None /\
  getContextRemainingLength r = 100 /\
  isLastContextChunk r = Ok true /\
  mContextChunkSize <$> states
    = [None; Some 30; Some 0; Some 30; Some 0; Some 30; Some 0; Some 10; Some 0] /\
  ~ (forall i s, states !! i = Some s ->
       isLastContextChunk s = Ok true -> (7 <= i)%nat).
Proof.
  cbv zeta. do 8 (split; [vm_compute; reflexivity|]).
  intros Honly.
  specialize (Honly 0%nat (request_of (replicate 100 7) 1 false) eq_refl eq_refl).
  lia.
Qed.

Lemma setContextChunkSize_spec_witness :
  exists r', setContextChunkSize 5 (request_of [7; 8] 1 false) = Ret tt r' /\
    mContextChunkSize r' = Some 2 /\
    getContextChunkSize r' = Ok 2 /\
    mContextCurrentPosition r' = 0 /\
    mPromptLen r' = 2 /\
    mTokens r' = [[7; 8]] /\
    mState r' = REQUEST_STATE_CONTEXT_INIT.
Proof.
  destruct (setContextChunkSize_spec (request_of [7; 8] 1 false) 5)
    as (_ & _ & Hret & _).
  destruct (Hret eq_refl ltac:(lia)) as (r' & Hcall & Hsize & Hget & Hframe).
  exists r'. split; [exact Hcall|]. split; [exact Hsize|]. split; [exact Hget|].
  split; [apply (Hframe member_mContextCurrentPosition); other_member|].
  split; [apply (Hframe member_mPromptLen); other_member|].
  split; [apply (Hframe member_mTokens); other_member|].
  apply (Hframe member_mState); other_member.
Defined.

Lemma moveToNextContextChunk_spec_witness :
  moveToNextContextChunk chunked
  = Ret tt (set_mContextChunkSize (Some 0)
              (set_mContextCurrentPosition 1 chunked)) /\
  exists r', moveToNextContextChunk chunked = Ret tt r' /\
    mContextCurrentPosition chunked = 0 /\
    mContextChunkSize chunked = Some 1 /\
    mContextCurrentPosition r' = 1 /\
    mContextChunkSize r' = Some 0 /\
    mPromptLen r' = 2 /\
    mTokens r' = [[7; 8]] /\
    mState r' = REQUEST_STATE_CONTEXT_INIT.
Proof.
  destruct (moveToNextContextChunk_spec chunked chunked_reachable)
    as (_ & Hadvance & _ & _ & Hread & _).
  split; [apply (Hadvance eq_refl 1 eq_refl)|].
  destruct (Hread eq_refl 1 eq_refl) as (r' & Hcall & Hpos & Hsize & Hframe).
  exists r'. split; [exact Hcall|].
  split; [reflexivity|]. split; [reflexivity|].
  split; [exact Hpos|]. split; [exact Hsize|].
  split; [apply (Hframe member_mPromptLen); other_member|].
  split; [apply (Hframe member_mTokens); other_member|].
  apply (Hframe member_mState); other_member.
Defined.

Lemma isFullContextRequest_iff_witness :
  isFullContextRequest (request_of [7; 8] 1 false) = true <->
    mState (request_of [7; 8] 1 false) = REQUEST_STATE_CONTEXT_INIT /\
    chunk_assigned_since_pause (@nil (Call unit)) = false.
Proof.
  apply (isFullContextRequest_iff tt (args_of [7; 8] 1 false)
           (request_of [7; 8] 1 false) []).
  - apply request_of_constructed. lia.
  - reflexivity.
Defined.

(** Both directions of the equivalence with [chunk_ever_assigned] fail.  A
    chunk size was assigned and a
    pause cleared it: the request is a full-context request again.  No chunk
    size was ever assigned and generation is in progress: the request is not
    a full-context request. *)
Lemma isFullContextRequest_counterexample :
  GenericLlmRequest tt (args_of [7; 8] 1 false) = Ok (request_of [7; 8] 1 false) /\
  (exists r,
     run [SetContextChunkSize 1; Pause 10] (request_of [7; 8] 1 false) = Some r /\
     chunk_ever_assigned [SetContextChunkSize 1; Pause 10 : Call unit] = true /\
     isFullContextRequest r = true) /\
  (exists r,
     run [MoveToNextContextChunk;
          AssignState REQUEST_STATE_GENERATION_IN_PROGRESS]
       (request_of [7; 8] 1 false) = Some r /\
     chunk_ever_assigned
       [MoveToNextContextChunk;
        AssignState REQUEST_STATE_GENERATION_IN_PROGRESS : Call unit] = false /\
     isFullContextRequest r = false).
Proof.
  split; [vm_compute; reflexivity|].
  split; eexists; (split; [vm_compute; reflexivity|]); split; vm_compute; reflexivity.
Qed.

Lemma construction_throws_iff_witness :
  (is_Err (GenericLlmRequest tt args_draft_logits_only) <->
     has_value (promptEmbeddingTable args_draft_logits_only)
       <> has_value (promptVocabSize args_draft_logits_only) \/
     (has_value (draftLogits args_draft_logits_only) = true /\
      has_value (draftTokens args_draft_logits_only) = false)) /\
  (has_value (promptEmbeddingTable args_draft_logits_only)
     = has_value (promptVocabSize args_draft_logits_only) ->
   has_value (draftLogits args_draft_logits_only)
     = has_value (draftTokens args_draft_logits_only) ->
   exists r, GenericLlmRequest tt args_draft_logits_only = Ok r).
Proof.
  apply (construction_throws_iff tt args_draft_logits_only). cbn. lia.
Defined.

Lemma construction_beams_witness :
  0 <= 4 /\
  Z.of_nat (length (mTokens (request_of [7; 8] 4 true))) = 4 /\
  Forall (fun t => t = [7; 8]) (mTokens (request_of [7; 8] 4 true)) /\
  mState (request_of [7; 8] 4 true) = REQUEST_STATE_CONTEXT_INIT /\
  mMaxSentTokenPos (request_of [7; 8] 4 true) = Int32.sub (Int32.of_size 2) 1 /\
  (Z.of_nat 2 <= Int32.max_value ->
   mMaxSentTokenPos (request_of [7; 8] 4 true) = Z.of_nat 2 - 1).
Proof.
  apply (construction_beams tt (args_of [7; 8] 4 true)).
  apply request_of_constructed. lia.
Defined.

(** * Further properties of the request *)

Section MoreProperties.
Context {TTensor : Type}.
Implicit Types (r : Request TTensor) (a : Args TTensor).
Implicit Types (tokens : VecTokens) (logProbs : VecLogProbs).

(** ** Appending tokens *)

Lemma update_tokens_at_Ok beam f r v v' :
  0 <= beam -> mTokens r !! Z.to_nat beam = Some v -> f v = Ok v' ->
  update_tokens_at beam f r
  = Ret tt (set_mTokens (<[Z.to_nat beam := v']> (mTokens r)) r).
Proof.
  intros Hb Hv Hf. unfold update_tokens_at.
  by rewrite (vector_update_at_Ok (mTokens r) beam v v' f Hb Hv Hf).
Qed.

Lemma vector_at_out_of_range {A} (v : list A) (pos : Z) :
  pos < 0 \/ Z.of_nat (length v) <= pos -> vector_at v pos = Err out_of_range.
Proof.
  intros Hpos. unfold vector_at. destruct (decide (0 <= pos)); [|done].
  rewrite lookup_ge_None_2; [done|lia].
Qed.

Lemma vector_at_in_range {A} (v : list A) (pos : Z) :
  0 <= pos < Z.of_nat (length v) -> exists x, v !! Z.to_nat pos = Some x.
Proof. intros Hpos. apply lookup_lt_is_Some. lia. Qed.

(** X1.  [addNewToken token beam] throws [std::out_of_range] exactly when
    [beam] is not the index of a beam, and then leaves the request as it
    was; otherwise it appends [token] to that beam and changes nothing else:
    the beam read back is the old beam followed by the token, the token is
    at the position of the old length, and the other beams are as before. *)
Theorem addNewToken_spec r token beam :
  (throws (addNewToken token beam r) <->
     beam < 0 \/ Z.of_nat (length (mTokens r)) <= beam) /\
  (beam < 0 \/ Z.of_nat (length (mTokens r)) <= beam ->
     addNewToken token beam r = Throw out_of_range r) /\
  (forall v, 0 <= beam -> mTokens r !! Z.to_nat beam = Some v ->
     exists r', addNewToken token beam r = Ret tt r' /\
       r' = set_mTokens (<[Z.to_nat beam := v ++ [token]]> (mTokens r)) r /\
       getTokens beam r' = Ok (v ++ [token]) /\
       getToken beam (Z.of_nat (length v)) r' = Ok token /\
       (forall other, other <> Z.to_nat beam ->
          mTokens r' !! other = mTokens r !! other)).
Proof.
  assert (beam < 0 \/ Z.of_nat (length (mTokens r)) <= beam ->
          addNewToken token beam r = Throw out_of_range r) as Hout.
  { intros Hb. unfold addNewToken, update_tokens_at, vector_update_at.
    by rewrite vector_at_out_of_range. }
  assert (forall v, 0 <= beam -> mTokens r !! Z.to_nat beam = Some v ->
          addNewToken token beam r
          = Ret tt (set_mTokens (<[Z.to_nat beam := v ++ [token]]> (mTokens r)) r))
    as Hin.
  { intros v Hb Hv. unfold addNewToken.
    by apply (update_tokens_at_Ok beam _ r v (v ++ [token])). }
  split; [|split].
  - split.
    + intros (e & s & Hthrow).
      destruct (decide (0 <= beam < Z.of_nat (length (mTokens r)))) as [Hr|Hr];
        [|lia].
      destruct (vector_at_in_range _ _ Hr) as [v Hv].
      rewrite (Hin v) in Hthrow by (lia || done). discriminate.
    + intros Hb. rewrite Hout by done. by eexists _, _.
  - exact Hout.
  - intros v Hb Hv. eexists. split; [by apply Hin|]. split; [done|].
    assert (<[Z.to_nat beam := v ++ [token]]> (mTokens r) !! Z.to_nat beam
            = Some (v ++ [token])) as Hnew
      by (apply list_lookup_insert_eq; by eapply lookup_lt_Some).
    split; [|split].
    + unfold getTokens. simpl_fields. apply vector_at_Ok. done.
    + unfold getToken. simpl_fields.
      pose proof (proj2 (vector_at_Ok _ beam _) (conj Hb Hnew)) as Hat.
      simpl_fields. rewrite Hat.
      run_monad. apply vector_at_lookup.
      rewrite lookup_app_r by lia. by rewrite Nat.sub_diag.
    + intros other Hne. simpl_fields. by apply list_lookup_insert_ne.
Qed.

(** A loop that rewrites beam [j] by [g x] for the [j]-th element [x] of a
    list, started at beam [length done]. *)
Lemma update_each_beam {A} (g : A -> VecTokens -> VecTokens)
    (I : Request TTensor -> Prop) (body : nat -> A -> M (Request TTensor) unit) :
  (forall beams s, I s -> I (set_mTokens beams s)) ->
  (forall j x s v, I s -> mTokens s !! j = Some v ->
     body j x s = Ret tt (set_mTokens (<[j := g x v]> (mTokens s)) s)) ->
  forall (xs : list A) (done rest : BeamTokens) s,
    I s -> mTokens s = done ++ rest -> length rest = length xs ->
    for_each_from (length done) xs body s
    = Ret tt (set_mTokens (done ++ zip_with (fun v x => g x v) rest xs) s).
Proof.
  intros Hstable Hbody xs.
  induction xs as [|x xs IH]; intros done rest s Hs Ht Hlen.
  - destruct rest; [|done]. cbn. rewrite <- Ht. by destruct s.
  - destruct rest as [|v rest]; [done|]. cbn in Hlen.
    cbn [for_each_from]. run_monad.
    rewrite (Hbody (length done) x s v Hs)
      by (rewrite Ht; by apply list_lookup_middle).
    simpl_fields.
    rewrite Ht, insert_app_r_alt, Nat.sub_diag by lia. cbn [insert list_insert].
    assert (length (done ++ [g x v]) = S (length done)) as Hdone
      by (rewrite length_app; cbn; lia).
    rewrite <- Hdone.
    etrans; [apply (IH (done ++ [g x v]) rest)|].
    + by apply Hstable.
    + simpl_fields. by rewrite <- app_assoc.
    + lia.
    + cbn [zip_with]. rewrite <- app_assoc. by destruct s.
Qed.

(** X2.  [addNewTokens beamTokens], on a request holding [beamWidth] beams:
    when [beamTokens] has one token per beam it returns with the [i]-th token
    appended to the [i]-th beam, for every beam, and nothing else changed;
    when the count differs from [beamWidth] the assertion fails and the
    request is left as it was.  The last part reads the returned request
    back: as many beams as before, each the old beam followed by its token,
    and every other member as before. *)
Theorem addNewTokens_spec r (beamTokens : VecTokens) :
  Z.of_nat (length (mTokens r)) = beamWidth (mSamplingConfig r) ->
  (Z.of_nat (length beamTokens) = beamWidth (mSamplingConfig r) ->
     addNewTokens beamTokens r
     = Ret tt (set_mTokens
                 (zip_with (fun v token => v ++ [token]) (mTokens r) beamTokens)
                 r)) /\
  (Z.of_nat (length beamTokens) <> beamWidth (mSamplingConfig r) ->
     addNewTokens beamTokens r = Throw assertion_failure r) /\
  (Z.of_nat (length beamTokens) = beamWidth (mSamplingConfig r) ->
     exists r', addNewTokens beamTokens r = Ret tt r' /\
       length (mTokens r') = length (mTokens r) /\
       (forall i v token,
          mTokens r !! i = Some v -> beamTokens !! i = Some token ->
          mTokens r' !! i = Some (v ++ [token])) /\
       unchanged_except [member_mTokens] r r').
Proof.
  intros Hbeams.
  assert (Z.of_nat (length beamTokens) = beamWidth (mSamplingConfig r) ->
          addNewTokens beamTokens r
          = Ret tt (set_mTokens
                      (zip_with (fun v token => v ++ [token]) (mTokens r) beamTokens)
                      r)) as Hret.
  { intros Hcount; unfold addNewTokens; run_monad.
    rewrite bool_decide_eq_true_2 by done. cbn.
    apply (update_each_beam (fun token v => v ++ [token]) (fun _ => True)
             _ (fun _ _ _ => I) ) with (done := []) (rest := mTokens r);
      [|done|done|lia].
    intros j x s v _ Hv.
    rewrite (update_tokens_at_Ok (Z.of_nat j) _ s v (v ++ [x]));
      rewrite ?Nat2Z.id; (done || lia). }
  split; [exact Hret|]. split.
  - intros Hcount; unfold addNewTokens; run_monad.
    rewrite bool_decide_eq_false_2 by done. done.
  - intros Hcount. eexists. split; [by apply Hret|]. simpl_fields.
    split; [rewrite length_zip_with; lia|]. split; [|frame].
    intros i v token Hv Htoken. rewrite lookup_zip_with, Hv. cbn.
    by rewrite Htoken.
Qed.

Lemma zip_resize_take (n : nat) (beams g : list (list Z)) :
  Forall (fun t => n <= length t)%nat beams ->
  zip_with (fun v gen => resize n 0 v ++ gen) beams g
  = zip_with (fun v gen => take n v ++ gen) beams g.
Proof.
  intros Hlong. revert g.
  induction Hlong as [|v vs Hv _ IH]; intros [|gen g]; cbn; try done.
  by rewrite IH, resize_le.
Qed.

Lemma zip_replace_again (n : nat) (beams g g' : list (list Z)) :
  Forall (fun t => n <= length t)%nat beams ->
  length beams = length g ->
  zip_with (fun v gen => resize n 0 v ++ gen)
    (zip_with (fun v gen => take n v ++ gen) beams g) g'
  = zip_with (fun v gen => take n v ++ gen) beams g'.
Proof.
  intros Hlong. revert g g'.
  induction Hlong as [|v vs Hv _ IH]; intros [|gen g] [|gen' g']; cbn; try done.
  intros [= Hg]. rewrite (IH g g' Hg). do 2 f_equal.
  rewrite resize_le by (rewrite length_app, length_take; lia).
  rewrite take_app_le by (rewrite length_take; lia).
  by rewrite take_take, Nat.min_id.
Qed.

(** X3.  [setGeneratedTokens generated], on a request holding [beamWidth]
    beams, each at least [promptLen >= 0] long: with one generated sequence
    per beam it returns with every beam made of its first [promptLen] tokens
    followed by the sequence given for it, and nothing else changed; calling
    it again with other sequences gives what that second call alone would
    have given; with a different count the assertion fails and the request
    is left as it was.  The last part reads the returned requests back:
    after each of the two calls there are as many beams as before, each the
    first [promptLen] tokens of the original beam followed by the sequence
    last given for it, and every other member is as before. *)
Theorem setGeneratedTokens_spec r (generated again : BeamTokens) :
  Z.of_nat (length (mTokens r)) = beamWidth (mSamplingConfig r) ->
  0 <= mPromptLen r ->
  Forall (fun t : VecTokens => mPromptLen r <= Z.of_nat (length t)) (mTokens r) ->
  let replaced (g : BeamTokens) :=
    set_mTokens
      (zip_with (fun v gen => take (Z.to_nat (mPromptLen r)) v ++ gen) (mTokens r) g)
      r in
  (Z.of_nat (length generated) = beamWidth (mSamplingConfig r) ->
     setGeneratedTokens generated r = Ret tt (replaced generated) /\
     (Z.of_nat (length again) = beamWidth (mSamplingConfig r) ->
        setGeneratedTokens again (replaced generated) = Ret tt (replaced again))) /\
  (Z.of_nat (length generated) <> beamWidth (mSamplingConfig r) ->
     setGeneratedTokens generated r = Throw assertion_failure r) /\
  (Z.of_nat (length generated) = beamWidth (mSamplingConfig r) ->
   Z.of_nat (length again) = beamWidth (mSamplingConfig r) ->
     exists r1 r2,
       setGeneratedTokens generated r = Ret tt r1 /\
       setGeneratedTokens again r1 = Ret tt r2 /\
       length (mTokens r1) = length (mTokens r) /\
       length (mTokens r2) = length (mTokens r) /\
       (forall i v gen,
          mTokens r !! i = Some v -> generated !! i = Some gen ->
          mTokens r1 !! i = Some (take (Z.to_nat (mPromptLen r)) v ++ gen)) /\
       (forall i v gen,
          mTokens r !! i = Some v -> again !! i = Some gen ->
          mTokens r2 !! i = Some (take (Z.to_nat (mPromptLen r)) v ++ gen)) /\
       unchanged_except [member_mTokens] r r1 /\
       unchanged_except [member_mTokens] r r2).
Proof.
  intros Hbeams Hprompt Hlong replaced.
  assert (forall (s : Request TTensor) (g : BeamTokens),
            mPromptLen s = mPromptLen r ->
            mSamplingConfig s = mSamplingConfig r ->
            length (mTokens s) = length g ->
            Z.of_nat (length g) = beamWidth (mSamplingConfig r) ->
            setGeneratedTokens g s
            = Ret tt (set_mTokens
                        (zip_with (fun v gen =>
                           resize (Z.to_nat (mPromptLen r)) 0 v ++ gen) (mTokens s) g)
                        s)) as Hset.
  { intros s g Hp Hcfg Hlen Hcount. unfold setGeneratedTokens. run_monad.
    rewrite Hcfg, bool_decide_eq_true_2 by done. cbn.
    apply (update_each_beam
             (fun gen v => resize (Z.to_nat (mPromptLen r)) 0 v ++ gen)
             (fun s => mPromptLen s = mPromptLen r))
      with (done := []) (rest := mTokens s); [done| |done|done|done].
    intros j x s1 v Hs1 Hv.
    rewrite (update_tokens_at_Ok (Z.of_nat j) _ s1 v
               (resize (Z.to_nat (mPromptLen r)) 0 v ++ x));
      rewrite ?Nat2Z.id; try (done || lia).
    rewrite Hs1, vector_resize_Ok by done. done. }
  assert (Forall (fun t : list Z => Z.to_nat (mPromptLen r) <= length t)%nat
            (mTokens r)) as Hlong'.
  { eapply Forall_impl; [exact Hlong|]. cbn. intros. simpl_fields. lia. }
  assert (Z.of_nat (length generated) = beamWidth (mSamplingConfig r) ->
          setGeneratedTokens generated r = Ret tt (replaced generated) /\
          (Z.of_nat (length again) = beamWidth (mSamplingConfig r) ->
           setGeneratedTokens again (replaced generated) = Ret tt (replaced again)))
    as Hret.
  { intros Hcount. split.
    + rewrite Hset by (done || lia). unfold replaced.
      by rewrite (zip_resize_take _ _ _ Hlong').
    + intros Hagain. unfold replaced.
      rewrite Hset; simpl_fields; try done.
      * by rewrite (zip_replace_again _ _ _ _ Hlong') by lia.
      * rewrite length_zip_with; lia. }
  assert (forall g : BeamTokens,
            Z.of_nat (length g) = beamWidth (mSamplingConfig r) ->
            length (mTokens (replaced g)) = length (mTokens r) /\
            (forall i v gen,
               mTokens r !! i = Some v -> g !! i = Some gen ->
               mTokens (replaced g) !! i
               = Some (take (Z.to_nat (mPromptLen r)) v ++ gen)) /\
            unchanged_except [member_mTokens] r (replaced g)) as Hread.
  { intros g Hg. unfold replaced. simpl_fields.
    split; [rewrite length_zip_with; lia|]. split; [|frame].
    intros i v gen Hv Hgen. rewrite lookup_zip_with, Hv. cbn. by rewrite Hgen. }
  split; [exact Hret|]. split.
  - intros Hcount. unfold setGeneratedTokens. run_monad.
    rewrite bool_decide_eq_false_2 by done. done.
  - intros Hcount Hagain. destruct (Hret Hcount) as [Hfirst Hsecond].
    destruct (Hread generated Hcount) as (Hlen1 & Hbeams1 & Hframe1).
    destruct (Hread again Hagain) as (Hlen2 & Hbeams2 & Hframe2).
    exists (replaced generated), (replaced again).
    split; [exact Hfirst|]. split; [by apply Hsecond|]. done.
Qed.

(** ** Counting tokens *)

Lemma foldl_max_spec {A} (f : A -> Z) (l : list A) (acc : Z) :
  let m := foldl (fun m t => Z.max m (f t)) acc l in
  acc <= m /\ Forall (fun t => f t <= m) l /\
  (m = acc \/ Exists (fun t => m = f t) l).
Proof.
  revert acc. induction l as [|t l IH]; intros acc; cbn.
  - split; [lia|]. split; [constructor|by left].
  - destruct (IH (Z.max acc (f t))) as (Hacc & Hall & Hex).
    split; [lia|]. split.
    + constructor; [lia|done].
    + destruct Hex as [Hm|Hex]; [|right; apply Exists_cons_tl; exact Hex].
      destruct (Z.max_spec acc (f t)) as [[_ Hmax]|[_ Hmax]].
      * right. apply Exists_cons_hd. by rewrite Hm.
      * left. by rewrite Hm.
Qed.

Lemma getMaxBeamNumTokens_fold r :
  Z.to_nat (beamWidth (mSamplingConfig r)) = length (mTokens r) ->
  getMaxBeamNumTokens r
  = Ok (foldl (fun m (t : list Z) => Z.max m (Int32.of_size (length t))) 0
          (mTokens r)).
Proof.
  intros Hw. unfold getMaxBeamNumTokens. rewrite Hw.
  assert (forall (rest seen : list (list Z)) acc,
            mTokens r = seen ++ rest ->
            for_fold (seq (length seen) (length rest)) acc
              (fun maxTokens beam =>
                 v ← vector_at (mTokens r) (Z.of_nat beam);
                 Ok (Z.max maxTokens (Int32.of_size (length v))))
            = Ok (foldl (fun m (t : list Z) => Z.max m (Int32.of_size (length t)))
                    acc rest)) as Hloop.
  { induction rest as [|t rest IH]; intros seen acc Ht; [done|].
    cbn [length seq for_fold foldl].
    rewrite (vector_at_lookup (mTokens r) (length seen) t)
      by (rewrite Ht; by apply list_lookup_middle).
    run_monad.
    assert (length (seen ++ [t]) = S (length seen)) as Hdone
      by (rewrite length_app; cbn; lia).
    rewrite <- Hdone. apply IH. by rewrite <- app_assoc. }
  exact (Hloop (mTokens r) [] 0 eq_refl).
Qed.

(** X4.  On a request holding [beamWidth] beams, [getMaxBeamNumTokens]
    returns a count that is at least what [getNumTokens] returns for any
    beam, and that is either 0 or the count of one of the beams; it does not
    throw. *)
Theorem getMaxBeamNumTokens_spec r :
  Z.to_nat (beamWidth (mSamplingConfig r)) = length (mTokens r) ->
  exists m, getMaxBeamNumTokens r = Ok m /\
    0 <= m /\
    (forall beam n, getNumTokens beam r = Ok n -> n <= m) /\
    (m = 0 \/ exists beam, getNumTokens beam r = Ok m).
Proof.
  intros Hw. eexists. split; [by apply getMaxBeamNumTokens_fold|].
  destruct (foldl_max_spec (fun t : list Z => Int32.of_size (length t))
              (mTokens r) 0) as (Hacc & Hall & Hex).
  cbv zeta in *. split; [done|]. split.
  - intros beam n. unfold getNumTokens. run_monad.
    destruct (vector_at (mTokens r) beam) as [t|] eqn:Hat; [|discriminate].
    intros [= <-]. apply vector_at_Ok in Hat as [_ Ht].
    by apply (Forall_lookup_1 _ _ _ _ Hall Ht).
  - destruct Hex as [->|Hex]; [by left|right].
    apply Exists_exists in Hex as (t & Hin & Hm).
    apply list_elem_of_lookup in Hin as [i Hi].
    exists (Z.of_nat i). unfold getNumTokens. simpl_fields.
    rewrite (vector_at_lookup _ _ _ Hi). run_monad. by rewrite Hm.
Qed.

(** ** More on pause *)

Lemma wrap_le (x : Z) : Int32.min_value <= x -> Int32.wrap x <= x.
Proof.
  int32_consts. intros Hx.
  pose proof (Z.mod_le (x - -2147483648) 4294967296 ltac:(lia) ltac:(lia)). lia.
Qed.

Lemma of_size_le (n : nat) : Int32.of_size n <= Z.of_nat n.
Proof. apply wrap_le. int32_range. lia. Qed.

Lemma add_wrap_r (a b : Z) : Int32.wrap (a + Int32.wrap b) = Int32.wrap (a + b).
Proof.
  int32_consts.
  replace (a + ((b - -2147483648) mod 4294967296 + -2147483648) - -2147483648)
    with (a + (b - -2147483648) mod 4294967296) by lia.
  rewrite Zplus_mod_idemp_r. do 2 f_equal. lia.
Qed.

Lemma sub_wrap_r (a b : Z) : Int32.wrap (a - Int32.wrap b) = Int32.wrap (a - b).
Proof.
  int32_consts.
  replace (a - ((b - -2147483648) mod 4294967296 + -2147483648) - -2147483648)
    with (a + 4294967296 - (b - -2147483648) mod 4294967296) by lia.
  rewrite Zminus_mod_idemp_r.
  do 2 f_equal. lia.
Qed.

(** Moving [grown] tokens from the budget to the prompt keeps their 32-bit
    sum. *)
Lemma prompt_plus_budget (p b new : Z) :
  Int32.add new (Int32.sub b (Int32.sub new p)) = Int32.add p b.
Proof.
  unfold Int32.add, Int32.sub.
  rewrite add_wrap_r.
  replace (new + (b - Int32.wrap (new - p)))
    with ((new + b) - Int32.wrap (new - p)) by lia.
  rewrite sub_wrap_r. f_equal. lia.
Qed.

(** What a returned pause leaves behind, on a request satisfying the
    representation invariant. *)
Lemma pause_returns_facts cfg origLen r r' maxInputLen :
  Inv cfg origLen r -> pause maxInputLen r = Ret tt r' ->
  mTokens r' = resize (Z.to_nat (mPromptLen r')) 0 <$> mTokens r /\
  Forall (fun t : list Z => (Z.to_nat (mPromptLen r') <= length t)%nat) (mTokens r) /\
  Int32.add (mPromptLen r') (mMaxNewTokens r')
  = Int32.add (mPromptLen r) (mMaxNewTokens r) /\
  mReturnLogProbs r' = mReturnLogProbs r /\
  (beamWidth (mSamplingConfig r) = 1 ->
     mPromptLen r' <= maxInputLen /\ Int32.in_range (mMaxNewTokens r')) /\
  (1 < beamWidth (mSamplingConfig r) ->
     mPromptLen r' = mPromptLen r /\ mMaxNewTokens r' = mMaxNewTokens r /\
     (mReturnLogProbs r = true -> Forall (fun l => l = []) (mLogProbs r'))).
Proof.
  intros Hinv.
  destruct Hinv as [Hcfg Horig Hp Hw Ht Hl Hbeams Hpos Hchunk Hmulti].
  destruct (decide (1 < beamWidth (mSamplingConfig r))) as [Hm|Hs].
  - rewrite pause_multi_beam_outcome by (congruence || lia).
    intros [= <-]. simpl_fields.
    split; [done|]. split.
    { eapply Forall_impl; [exact Hbeams|]. cbn. intros. lia. }
    split; [done|]. split; [done|]. split; [lia|].
    intros _. split; [done|]. split; [done|].
    intros ->. apply Forall_fmap, Forall_true. done.
  - assert (beamWidth (mSamplingConfig r) = 1) as Hw1 by lia.
    rewrite Hw1 in Ht, Hl. change (Z.to_nat 1) with 1%nat in *.
    destruct (mTokens r) as [|tokens [|]] eqn:HT; try done.
    destruct (mLogProbs r) as [|logProbs [|]] eqn:HL; try done.
    rewrite (pause_single_beam_outcome r maxInputLen tokens logProbs Hw1 HT HL).
    cbv zeta.
    set (newPromptLen := Z.min maxInputLen (Z.max 0 (Int32.of_size (length tokens)))).
    pose proof (of_size_le (length tokens)) as Hsize.
    assert (newPromptLen <= Z.of_nat (length tokens) /\ newPromptLen <= maxInputLen)
      as [Hle Hle'] by (unfold newPromptLen; lia).
    destruct (decide (0 <= newPromptLen)) as [Hnew|]; [|discriminate].
    destruct (mReturnLogProbs r) eqn:Hlp.
    + destruct (decide (0 <= _)); [|discriminate].
      intros [= <-]. simpl_fields.
      split; [done|]. split; [repeat constructor; lia|].
      split; [apply prompt_plus_budget|]. split; [done|].
      split; [intros _; split; [done|apply wrap_in_range]|lia].
    + intros [= <-]. simpl_fields.
      split; [done|]. split; [repeat constructor; lia|].
      split; [apply prompt_plus_budget|]. split; [done|].
      split; [intros _; split; [done|apply wrap_in_range]|lia].
Qed.

Lemma reachable_run (calls : list (Call TTensor)) r r' :
  reachable r -> run calls r = Some r' -> reachable r'.
Proof.
  intros (dflt & a & r0 & calls0 & Hvalid & Hctor & Hrun) Hrun'.
  exists dflt, a, r0, (calls0 ++ calls). split; [done|]. split; [done|].
  clear -Hrun Hrun'. revert r0 Hrun.
  induction calls0 as [|c calls0 IH]; intros r0; cbn.
  - by intros [= ->].
  - destruct (exec c r0) as [[] r1|]; [|discriminate]. apply IH.
Qed.

(** X5.  After [pause] has returned on a reachable request, no generated
    token is left: every beam is exactly [promptLen] tokens long and
    [getMaxNumGeneratedTokens] returns 0.  Each beam is a prefix of what it
    was before the call. *)
Theorem pause_leaves_prompt_only r r' maxInputLen :
  reachable r -> pause maxInputLen r = Ret tt r' ->
  Forall (fun t : VecTokens => Z.of_nat (length t) = mPromptLen r') (mTokens r') /\
  mTokens r' = take (Z.to_nat (mPromptLen r')) <$> mTokens r /\
  getMaxNumGeneratedTokens r' = Ok 0.
Proof.
  intros Hreach Hret.
  destruct (reachable_Inv r Hreach) as (cfg & origLen & Hinv).
  pose proof (Inv_pause _ _ _ _ _ Hinv Hret)
    as [Hcfg Horig Hp Hw Ht Hl Hbeams Hpos Hchunk Hmulti].
  destruct (pause_returns_facts _ _ _ _ _ Hinv Hret) as (Htok & Hlong & _).
  assert (Forall (fun t : list Z => Z.of_nat (length t) = mPromptLen r') (mTokens r'))
    as Hexact.
  { rewrite Htok. apply Forall_fmap, Forall_true. intros t. cbn.
    rewrite length_resize. lia. }
  split; [exact Hexact|]. split.
  - rewrite Htok. apply Forall_fmap_ext_1.
    eapply Forall_impl; [exact Hlong|]. intros t Hlen. by apply resize_le.
  - unfold getMaxNumGeneratedTokens.
    rewrite getMaxBeamNumTokens_fold by done. run_monad.
    destruct (foldl_max_spec (fun t : list Z => Int32.of_size (length t))
                (mTokens r') 0) as (Hacc & Hall & Hex).
    cbv zeta in *.
    assert (Forall (fun t : list Z => Int32.of_size (length t) = mPromptLen r')
              (mTokens r')) as Hsizes.
    { eapply Forall_impl; [exact Hexact|]. cbn. intros t Hlen.
      rewrite of_size_exact; lia. }
    assert (foldl (fun m (t : list Z) => Z.max m (Int32.of_size (length t))) 0
              (mTokens r') = mPromptLen r') as ->.
    { destruct (mTokens r') as [|t ts] eqn:HT; [cbn in Ht; lia|].
      apply Forall_cons in Hsizes as [Ht0 Hts].
      apply Forall_cons in Hall as [Hall0 _].
      destruct Hex as [Hz|Hex].
      - rewrite Ht0 in Hall0. lia.
      - apply Exists_exists in Hex as (t' & Hin & ->).
        apply (proj1 (Forall_forall _ _) (Forall_cons_2 _ _ _ Ht0 Hts)). done. }
    f_equal. rewrite sub_exact; int32_range; lia.
Qed.

(** X6.  A returned [pause] on a reachable request moves tokens from the
    budget to the prompt and loses none: [promptLen + maxNewTokens], taken
    in 32-bit arithmetic, is what it was before the call. *)
Theorem pause_keeps_prompt_plus_budget r r' maxInputLen :
  reachable r -> pause maxInputLen r = Ret tt r' ->
  Int32.add (mPromptLen r') (mMaxNewTokens r')
  = Int32.add (mPromptLen r) (mMaxNewTokens r).
Proof.
  intros Hreach Hret.
  destruct (reachable_Inv r Hreach) as (cfg & origLen & Hinv).
  by destruct (pause_returns_facts _ _ _ _ _ Hinv Hret) as (_ & _ & Hsum & _).
Qed.

Lemma reset_fields_id r :
  mSeqSlot r = -1 -> mContextChunkSize r = None ->
  mContextCurrentPosition r = 0 -> mState r = REQUEST_STATE_CONTEXT_INIT ->
  forall (beams : list VecLogProbs),
  set_mSeqSlot (-1) (set_mContextChunkSize None
    (set_mContextCurrentPosition 0
       (set_mState REQUEST_STATE_CONTEXT_INIT
          (set_mLogProbs beams (set_mTokens (mTokens r) r)))))
  = set_mLogProbs beams r.
Proof. destruct r. cbn. by intros -> -> -> ->. Qed.

Lemma pause_again_outcome r r1 maxInputLen :
  reachable r -> pause maxInputLen r = Ret tt r1 ->
  pause maxInputLen r1
  = Ret tt (set_mLogProbs
              (if mReturnLogProbs r1
               then (fun _ => []) <$> mLogProbs r1 else mLogProbs r1) r1).
Proof.
  intros Hreach Hret.
  destruct (reachable_Inv r Hreach) as (cfg & origLen & Hinv).
  pose proof (Inv_pause _ _ _ _ _ Hinv Hret) as Hinv1.
  destruct (pause_returns_facts _ _ _ _ _ Hinv Hret)
    as (Htok & _ & _ & _ & Hsingle & _).
  destruct (pause_returns_reset _ _ _ Hret) as (Hchunk1 & Hpos1 & Hslot1 & Hstate1).
  assert (mSamplingConfig r1 = mSamplingConfig r) as Hcfg
    by (destruct Hinv, Hinv1; congruence).
  assert (Forall (fun t : list Z => length t = Z.to_nat (mPromptLen r1)) (mTokens r1))
    as Hexact.
  { rewrite Htok. apply Forall_fmap, Forall_true. intros t. cbn.
    apply length_resize. }
  destruct Hinv1 as [_ _ Hp Hw Ht Hl _ _ _ _].
  destruct (decide (1 < beamWidth (mSamplingConfig r1))) as [Hm|Hs].
  - rewrite pause_multi_beam_outcome by (congruence || lia).
    assert (resize (Z.to_nat (mPromptLen r1)) 0 <$> mTokens r1 = mTokens r1) as ->.
    { rewrite <- (list_fmap_id (mTokens r1)) at 2. apply Forall_fmap_ext_1.
      eapply Forall_impl; [exact Hexact|]. intros t Hlen. cbn.
      by apply resize_all_alt. }
    by rewrite reset_fields_id.
  - assert (beamWidth (mSamplingConfig r1) = 1) as Hw1 by lia.
    destruct Hsingle as [Hle Hbudget]; [congruence|].
    rewrite Hw1 in Ht, Hl. change (Z.to_nat 1) with 1%nat in *.
    destruct (mTokens r1) as [|tokens [|]] eqn:HT; try done.
    destruct (mLogProbs r1) as [|logProbs [|]] eqn:HL; try done.
    apply Forall_cons in Hexact as [Hlen _].
    rewrite (pause_single_beam_outcome r1 maxInputLen tokens logProbs Hw1 HT HL).
    cbv zeta.
    assert (Z.min maxInputLen (Z.max 0 (Int32.of_size (length tokens)))
            = mPromptLen r1) as ->.
    { simpl_fields. rewrite of_size_exact by lia. lia. }
    assert (Int32.sub (mPromptLen r1) (mPromptLen r1) = 0) as ->
      by (unfold Int32.sub; by rewrite Z.sub_diag).
    assert (Int32.sub (mMaxNewTokens r1) 0 = mMaxNewTokens r1) as ->
      by (unfold Int32.sub; rewrite Z.sub_0_r; by apply wrap_id).
    assert (resize (Z.to_nat (mPromptLen r1)) 0 tokens = tokens) as ->
      by (by apply resize_all_alt).
    destruct (decide (0 <= mPromptLen r1)) as [_|]; [|lia].
    change (Z.to_nat 0) with 0%nat. rewrite resize_0.
    destruct (mReturnLogProbs r1) eqn:Hlp;
      [destruct (decide (0 <= 0)) as [_|]; [|lia]|];
      f_equal; clear -HT HL Hchunk1 Hpos1 Hslot1 Hstate1 Hlp;
      destruct r1; cbn in *; subst; reflexivity.
Qed.

(** X7.  Pausing a reachable request a second time with the same
    [maxInputLen] returns and changes nothing but the log-probs: tokens,
    prompt length, budget and state stay as the first pause left them, and
    every beam's log-prob sequence is emptied when log-probs are returned.
    The second part reads the returned request back: the log-probs are as
    said and every other member is as the first pause left it. *)
Theorem pause_twice r r1 maxInputLen :
  reachable r -> pause maxInputLen r = Ret tt r1 ->
  pause maxInputLen r1
  = Ret tt (set_mLogProbs
              (if mReturnLogProbs r1
               then (fun _ => []) <$> mLogProbs r1 else mLogProbs r1) r1) /\
  exists r2, pause maxInputLen r1 = Ret tt r2 /\
    mLogProbs r2
    = (if mReturnLogProbs r1
       then (fun _ => []) <$> mLogProbs r1 else mLogProbs r1) /\
    unchanged_except [member_mLogProbs] r1 r2.
Proof.
  intros Hreach Hret.
  pose proof (pause_again_outcome r r1 maxInputLen Hreach Hret) as Hagain.
  split; [exact Hagain|].
  eexists. split; [exact Hagain|]. split; [reflexivity|frame].
Qed.

Lemma setLogProbs_returns r (values old : VecLogProbs) beam :
  0 <= beam -> mLogProbs r !! Z.to_nat beam = Some old ->
  0 <= Int32.sub (mPromptLen r) (mOrigPromptLen r) ->
  setLogProbs values beam r
  = Ret tt (set_mLogProbs
              (<[Z.to_nat beam :=
                   resize (Z.to_nat (Int32.sub (mPromptLen r) (mOrigPromptLen r)))
                     0%float old ++ values]> (mLogProbs r)) r).
Proof.
  intros Hbeam Hold Hoff. unfold setLogProbs. run_monad.
  unfold update_logProbs_at at 1.
  erewrite vector_update_at_Ok;
    [|exact Hbeam|exact Hold|by apply vector_resize_Ok].
  unfold update_logProbs_at. simpl_fields.
  erewrite vector_update_at_Ok;
    [|exact Hbeam
     |apply list_lookup_insert_eq; by eapply lookup_lt_Some
     |reflexivity].
  rewrite list_insert_insert_eq. by destruct r.
Qed.

(** X8.  A single-beam pause with log-probs returned keeps the first
    [newPromptLen - promptLen] log-probs, counted from the current prompt
    length, while the next [setLogProbs] stores at
    [newPromptLen - origPromptLen], counted from the original one.  On a
    request not paused before the two agree and the values follow the kept
    log-probs directly.  On a request already paused
    ([promptLen > origPromptLen]) the indices between the two are filled
    with zeros. *)
Theorem pause_then_setLogProbs r maxInputLen tokens logProbs (values : VecLogProbs) :
  beamWidth (mSamplingConfig r) = 1 ->
  mTokens r = [tokens] -> mLogProbs r = [logProbs] ->
  mReturnLogProbs r = true ->
  let newPromptLen := Z.min maxInputLen (Z.max 0 (Int32.of_size (length tokens))) in
  let grown := Int32.sub newPromptLen (mPromptLen r) in
  let offset := Int32.sub newPromptLen (mOrigPromptLen r) in
  0 <= newPromptLen -> 0 <= grown -> 0 <= offset ->
  exists r1 r2 stored,
    pause maxInputLen r = Ret tt r1 /\
    setLogProbs values 0 r1 = Ret tt r2 /\
    mLogProbs r2 = [stored] /\
    stored = resize (Z.to_nat offset) 0%float
               (resize (Z.to_nat grown) 0%float logProbs) ++ values /\
    (mPromptLen r = mOrigPromptLen r ->
       stored = resize (Z.to_nat grown) 0%float logProbs ++ values) /\
    (forall i, (Z.to_nat grown <= i < Z.to_nat offset)%nat ->
       stored !! i = Some 0%float).
Proof.
  intros Hw Ht Hl Hlp newPromptLen grown offset Hnew Hgrown Hoff.
  pose proof (pause_single_beam_outcome r maxInputLen tokens logProbs Hw Ht Hl)
    as Hpause.
  cbv zeta in Hpause. fold newPromptLen in Hpause. fold grown in Hpause.
  rewrite Hlp in Hpause.
  destruct (decide (0 <= newPromptLen)) as [_|]; [|lia].
  destruct (decide (0 <= grown)) as [_|]; [|lia].
  eexists _, _,
    (resize (Z.to_nat offset) 0%float
       (resize (Z.to_nat grown) 0%float logProbs) ++ values).
  split; [exact Hpause|].
  split; [|split; [|split; [reflexivity|split]]].
  - apply (setLogProbs_returns _ values
             (resize (Z.to_nat grown) 0%float logProbs) 0); [lia|done|].
    simpl_fields. exact Hoff.
  - simpl_fields. done.
  - intros Heq. unfold offset, grown. rewrite <- Heq.
    f_equal. apply resize_all_alt. by rewrite length_resize.
  - intros i Hi. simpl_fields.
    rewrite lookup_app_l by (rewrite length_resize; lia).
    apply lookup_resize_new; [rewrite length_resize|]; lia.
Qed.

(** ** More on the chunk cursor *)

Lemma chunk_steps_position cfg origLen (sizes : list SizeType) r :
  Inv cfg origLen r ->
  mState r = REQUEST_STATE_CONTEXT_INIT ->
  Forall (fun size => 0 <= size) sizes ->
  exists r', run (chunk_steps sizes) r = Some r' /\
    mContextCurrentPosition r'
    = Z.min (mPromptLen r) (mContextCurrentPosition r + foldr Z.add 0 sizes) /\
    mPromptLen r' = mPromptLen r /\
    mState r' = REQUEST_STATE_CONTEXT_INIT /\
    mTokens r' = mTokens r /\
    (sizes <> [] -> mContextChunkSize r' = Some 0).
Proof.
  intros Hinv Hs Hsizes. revert r Hinv Hs.
  induction Hsizes as [|size sizes Hsize Hsizes IH]; intros r Hinv Hs.
  - exists r. cbn. destruct Hinv. repeat split; try done. lia.
  - cbn [chunk_steps run exec].
    rewrite setContextChunkSize_returns by done.
    set (r1 := set_mContextChunkSize _ r).
    pose proof (Inv_setContextChunkSize _ _ size r r1 Hinv
                  (setContextChunkSize_returns r size Hs Hsize)) as Hinv1.
    rewrite (moveToNextContextChunk_advance cfg origLen r1 _ Hinv1 Hs eq_refl).
    set (r2 := set_mContextChunkSize (Some 0) _).
    assert (Inv cfg origLen r2) as Hinv2.
    { eapply Inv_moveToNextContextChunk; [exact Hinv1|].
      by apply (moveToNextContextChunk_advance cfg origLen r1 _ Hinv1 Hs). }
    destruct (IH r2 Hinv2 Hs) as (r' & Hrun & Hpos & Hlen & Hstate & Htok & Hchunk).
    exists r'. split; [exact Hrun|].
    assert (foldr Z.add 0 sizes >= 0) as Hsum.
    { clear -Hsizes. induction Hsizes; cbn; lia. }
    destruct Hinv as [_ _ Hp _ _ _ _ Hposr _ _].
    subst r1 r2. simpl_fields.
    unfold getContextRemainingLength, getContextCurrentPosition in *.
    rewrite sub_exact in * by (int32_range; lia).
    repeat split; try done.
    + rewrite Hpos. cbn [foldr]. lia.
    + intros _. destruct sizes; [by injection Hrun as <-|by apply Hchunk].
Qed.

(** X9.  On a reachable request in ContextInit, assigning and advancing
    over any list of non-negative chunk sizes always returns, and leaves the
    cursor at [min (promptLen, position + sum of the sizes)]: sizes are
    capped to what is left, the cursor never passes [promptLen], and sizes
    given once the prompt is consumed advance nothing.  The prompt length,
    the state and the tokens are untouched, and the chunk size is back to 0. *)
Theorem chunking_any_sizes (sizes : list SizeType) r :
  reachable r ->
  mState r = REQUEST_STATE_CONTEXT_INIT ->
  Forall (fun size => 0 <= size) sizes ->
  exists r', run (chunk_steps sizes) r = Some r' /\
    mContextCurrentPosition r'
    = Z.min (mPromptLen r) (mContextCurrentPosition r + foldr Z.add 0 sizes) /\
    mPromptLen r' = mPromptLen r /\
    mState r' = REQUEST_STATE_CONTEXT_INIT /\
    mTokens r' = mTokens r /\
    (sizes <> [] -> mContextChunkSize r' = Some 0).
Proof.
  intros (cfg & origLen & Hinv)%reachable_Inv. by eapply chunk_steps_position.
Qed.

(** X10.  An unchunked request in ContextInit with the cursor at 0 takes its
    whole prompt in one [moveToNextContextChunk]: nothing is left, and it
    reports the last chunk.  A second call throws
    [Full context out of bounds] and changes nothing, except for an empty
    prompt, where it returns and changes nothing. *)
Theorem full_context_step_once r :
  mState r = REQUEST_STATE_CONTEXT_INIT ->
  mContextChunkSize r = None ->
  mContextCurrentPosition r = 0 ->
  let r1 := set_mContextCurrentPosition (mPromptLen r) r in
  moveToNextContextChunk r = Ret tt r1 /\
  getContextRemainingLength r1 = 0 /\
  isLastContextChunk r1 = Ok true /\
  (mPromptLen r <> 0 ->
     moveToNextContextChunk r1
     = Throw (TllmException "Full context out of bounds.") r1) /\
  (mPromptLen r = 0 -> moveToNextContextChunk r1 = Ret tt r1).
Proof.
  intros Hs Hc Hp r1. split; [by apply moveToNextContextChunk_full|].
  split; [|split; [|split]].
  - unfold getContextRemainingLength, getContextCurrentPosition, Int32.sub.
    subst r1. simpl_fields. by rewrite Z.sub_diag.
  - unfold isLastContextChunk, isFullContextRequest, isContextInitState.
    subst r1. simpl_fields. by rewrite Hs, Hc.
  - intros Hne. by apply moveToNextContextChunk_full_out_of_bounds.
  - intros Hz. rewrite moveToNextContextChunk_full by (done || by subst r1).
    subst r1. simpl_fields. by destruct r.
Qed.

(** X11.  On a reachable request in ContextInit, after
    [setContextChunkSize size] with [size >= 0]: [getContextChunkSize]
    returns the assigned size, which is between 0 and [size] and at most the
    remaining length; the request is no longer a full-context request;
    [isLastContextChunk] is true exactly when [size] covers the remaining
    length; and [isFirstContextChunk] is true exactly when the cursor is at
    0. *)
Theorem chunk_size_round_trip r size :
  reachable r ->
  mState r = REQUEST_STATE_CONTEXT_INIT -> 0 <= size ->
  exists r1 assigned,
    setContextChunkSize size r = Ret tt r1 /\
    getContextChunkSize r1 = Ok assigned /\
    0 <= assigned <= size /\
    assigned <= getContextRemainingLength r /\
    isFullContextRequest r1 = false /\
    isLastContextChunk r1
      = Ok (bool_decide (getContextRemainingLength r <= size)) /\
    isFirstContextChunk r1 = bool_decide (mContextCurrentPosition r = 0).
Proof.
  intros (cfg & origLen & Hinv)%reachable_Inv Hs Hsize.
  destruct Hinv as [_ _ Hp _ _ _ _ Hpos _ _].
  eexists _, _. split; [by apply setContextChunkSize_returns|].
  assert (getContextRemainingLength r
          = mPromptLen r - mContextCurrentPosition r) as Hrem.
  { unfold getContextRemainingLength, getContextCurrentPosition.
    apply sub_exact. int32_range. lia. }
  pose proof Hs as Hs'. apply isContextInitState_true in Hs'.
  split; [|split; [|split; [|split; [|split]]]].
  - unfold getContextChunkSize, isContextInitState in *. simpl_fields.
    by rewrite Hs'.
  - lia.
  - lia.
  - unfold isFullContextRequest, isContextInitState in *. simpl_fields.
    by rewrite Hs'.
  - unfold isLastContextChunk, isFullContextRequest, getContextChunkSize,
      isContextInitState, getContextCurrentPosition in *.
    simpl_fields. rewrite Hs'. cbn. run_monad. f_equal.
    rewrite add_exact by (int32_range; lia).
    apply bool_decide_ext. lia.
  - unfold isFirstContextChunk, isFullContextRequest, isContextInitState,
      getContextCurrentPosition in *.
    simpl_fields. by rewrite Hs'.
Qed.

(** X12.  [isLastContextChunk] is declared [noexcept] yet calls
    [getContextChunkSize], which throws outside a chunked ContextInit state:
    the call is never reached in such a state, so [isLastContextChunk]
    returns for every request; outside ContextInit it returns false. *)
Theorem isLastContextChunk_never_throws r :
  (exists b, isLastContextChunk r = Ok b) /\
  (is_Err (getContextChunkSize r) <->
     mState r <> REQUEST_STATE_CONTEXT_INIT \/ mContextChunkSize r = None) /\
  (mState r <> REQUEST_STATE_CONTEXT_INIT -> isLastContextChunk r = Ok false).
Proof.
  unfold isLastContextChunk, isFullContextRequest, getContextChunkSize, is_Err.
  destruct (decide (mState r = REQUEST_STATE_CONTEXT_INIT)) as [Hs|Hs].
  - pose proof Hs as Hs'. apply isContextInitState_true in Hs'. rewrite Hs'.
    destruct (mContextChunkSize r); cbn; (split; [eauto|]);
      (split; [|done]); split.
    + intros [e He]. discriminate.
    + intros [?|?]; done.
    + intros _. by right.
    + intros _. eauto.
  - pose proof Hs as Hs'. apply isContextInitState_false in Hs'. rewrite Hs'.
    cbn. split; [eauto|]. split; [|done]. split; [by left|eauto].
Qed.

(** ** Cumulative log-probs, fragments, draft tokens *)

(** X13.  [setCumLogProb c beam] throws [std::out_of_range] and changes
    nothing when [beam] is not the index of a beam; otherwise it overwrites
    that beam's cumulative log-prob and nothing else, so that of two calls on
    the same beam only the second value remains. *)
Theorem setCumLogProb_overwrites r (first second : float) beam :
  (beam < 0 \/ Z.of_nat (length (mCumLogProbs r)) <= beam ->
     setCumLogProb second beam r = Throw out_of_range r) /\
  (0 <= beam < Z.of_nat (length (mCumLogProbs r)) ->
     let r2 := set_mCumLogProbs (<[Z.to_nat beam := second]> (mCumLogProbs r)) r in
     setCumLogProb second beam r = Ret tt r2 /\
     getCumLogProbs r2 !! Z.to_nat beam = Some second /\
     (forall other, other <> Z.to_nat beam ->
        getCumLogProbs r2 !! other = getCumLogProbs r !! other) /\
     (exists r1, setCumLogProb first beam r = Ret tt r1 /\
        setCumLogProb second beam r1 = Ret tt r2)).
Proof.
  assert (forall (c : float) (s : Request TTensor),
            0 <= beam < Z.of_nat (length (mCumLogProbs s)) ->
            setCumLogProb c beam s
            = Ret tt (set_mCumLogProbs (<[Z.to_nat beam := c]> (mCumLogProbs s)) s))
    as Hset.
  { intros c s Hb. destruct (vector_at_in_range _ _ Hb) as [old Hold].
    unfold setCumLogProb.
    by rewrite (vector_update_at_Ok (mCumLogProbs s) beam old c _ (proj1 Hb) Hold
                  eq_refl). }
  split.
  - intros Hb. unfold setCumLogProb, vector_update_at.
    by rewrite vector_at_out_of_range.
  - intros Hb r2. split; [by apply Hset|]. split; [|split].
    + unfold getCumLogProbs. subst r2. simpl_fields.
      apply list_lookup_insert_eq. lia.
    + intros other Hne. unfold getCumLogProbs. subst r2. simpl_fields.
      by apply list_lookup_insert_ne.
    + eexists. split; [by apply Hset|].
      rewrite Hset by (simpl_fields; rewrite length_insert; lia).
      subst r2. simpl_fields. rewrite list_insert_insert_eq. by destruct r.
Qed.

Lemma run_addGenerationFragments (fragments : list TTensor) r :
  run (AddGenerationFragments <$> fragments) r
  = Some (set_mGenerationLogitsFragments
            (mGenerationLogitsFragments r ++ fragments) r).
Proof.
  revert r. induction fragments as [|t fragments IH]; intros r; cbn.
  - rewrite app_nil_r. by destruct r.
  - unfold addGenerationFragments, modify. rewrite IH. simpl_fields.
    rewrite <- app_assoc. by destruct r.
Qed.

(** X14.  Generation-logits fragments come back as they were added: after
    [clearGenerationLogitsFragments] and one [addGenerationFragments] per
    fragment of a list, the stored fragments are that list, in order, and
    the reported size is its length (as a [SizeType]); clearing afterwards
    leaves none.  Nothing else in the request changes. *)
Theorem generation_fragments_round_trip (fragments : list TTensor) r :
  let filled := set_mGenerationLogitsFragments fragments r in
  run (ClearGenerationLogitsFragments :: (AddGenerationFragments <$> fragments)) r
    = Some filled /\
  getGenerationLogitsFragments filled = fragments /\
  getGenerationLogitsFragmentsSize filled = Int32.of_size (length fragments) /\
  getGenerationLogitsFragmentsSize (final_state (clearGenerationLogitsFragments filled))
    = 0.
Proof.
  cbv zeta. split; [|by repeat split].
  cbn [run exec]. unfold clearGenerationLogitsFragments, modify.
  rewrite run_addGenerationFragments. simpl_fields. by destruct r.
Qed.

(** X15.  [hasDraftTokens] is true exactly when the request holds a
    non-null, non-empty draft-token list.  After construction that is when
    such a list was passed: omitted draft tokens become an empty list.  The
    constructor checks only that draft tokens are given with draft logits,
    not that there are any: with the prompt-tuning pair consistent and a
    beam width that is not negative, draft logits with a null or empty
    draft-token list construct a request that has draft logits and no draft
    tokens.  After [setDraftTokens] it is when the list set is non-null and
    non-empty. *)
Theorem hasDraftTokens_spec (dflt : TTensor) a :
  (forall r0, GenericLlmRequest dflt a = Ok r0 ->
     (hasDraftTokens r0 = true <->
        exists d, draftTokens a = Some (Some d) /\ d <> [])) /\
  (0 <= beamWidth (samplingConfig a) ->
   has_value (promptEmbeddingTable a) = has_value (promptVocabSize a) ->
   has_value (draftLogits a) = true ->
   draftTokens a = Some None \/ draftTokens a = Some (Some []) ->
   exists r0, GenericLlmRequest dflt a = Ok r0 /\
     hasDraftTokens r0 = false /\ mDraftLogits r0 = draftLogits a) /\
  (forall r (draft : option VecTokens),
     hasDraftTokens (final_state (setDraftTokens draft r)) = true <->
       exists d, draft = Some d /\ d <> []).
Proof.
  assert (forall (draft : option VecTokens) (r : Request TTensor),
            mDraftTokens r = draft ->
            hasDraftTokens r = true <-> exists d, draft = Some d /\ d <> [])
    as Hhas.
  { intros draft r <-. unfold hasDraftTokens.
    destruct (mDraftTokens r) as [[|t d]|]; cbn.
    - split; [done|]. by intros (d & [= <-] & Hd).
    - split; [|done]. intros _. by exists (t :: d).
    - split; [done|]. by intros (d & [=] & _). }
  split; [|split].
  - intros r0. unfold GenericLlmRequest, vector_new.
    destruct (decide (0 <= beamWidth (samplingConfig a))); [|discriminate].
    run_monad.
    destruct (_ || _); [discriminate|].
    destruct (_ && _); [discriminate|].
    intros [= <-]. rewrite (Hhas _ _ eq_refl). simpl_fields.
    destruct (draftTokens a) as [[d|]|]; cbn; split.
    + intros (d' & [= <-] & Hd). eauto.
    + intros (d' & [= <-] & Hd). eauto.
    + by intros (d' & [=] & _).
    + by intros (d' & [=] & _).
    + by intros (d' & [= <-] & Hd).
    + by intros (d' & [=] & _).
  - intros Hw Hpair Hlogits Hdraft. unfold GenericLlmRequest, vector_new.
    destruct (decide (0 <= beamWidth (samplingConfig a))); [|lia].
    run_monad.
    assert (has_value (draftTokens a) = true) as Hgiven
      by (destruct Hdraft as [-> | ->]; done).
    rewrite Hlogits, Hgiven.
    destruct (has_value (promptEmbeddingTable a)),
      (has_value (promptVocabSize a)); try discriminate; cbn;
      (eexists; split; [reflexivity|]); unfold hasDraftTokens; simpl_fields;
      destruct Hdraft as [-> | ->]; done.
  - intros r draft. by apply Hhas.
Qed.

(** X16.  After a successful construction every beam reads back the prompt:
    [getToken beam pos] returns the [pos]-th prompt token for every beam
    index below the beam width and every position below the prompt length,
    and throws [std::out_of_range] for any other beam index or position. *)
Theorem constructed_tokens_read_back (dflt : TTensor) a r0 beam pos :
  GenericLlmRequest dflt a = Ok r0 ->
  let inside (i bound : Z) := 0 <= i < bound in
  (inside beam (beamWidth (samplingConfig a)) ->
   inside pos (Z.of_nat (length (inputTokens a))) ->
     exists token, inputTokens a !! Z.to_nat pos = Some token /\
       getToken beam pos r0 = Ok token) /\
  (~ inside beam (beamWidth (samplingConfig a)) \/
   ~ inside pos (Z.of_nat (length (inputTokens a))) ->
     getToken beam pos r0 = Err out_of_range).
Proof.
  unfold GenericLlmRequest, vector_new.
  destruct (decide (0 <= beamWidth (samplingConfig a))) as [Hw|]; [|discriminate].
  run_monad.
  destruct (_ || _); [discriminate|].
  destruct (_ && _); [discriminate|].
  intros [= <-]. cbv zeta. unfold getToken. simpl_fields.
  destruct (decide (0 <= beam < beamWidth (samplingConfig a))) as [Hb|Hb].
  - assert (vector_at (replicate (Z.to_nat (beamWidth (samplingConfig a)))
                         (inputTokens a)) beam = Ok (inputTokens a)) as Hat.
    { apply vector_at_Ok. split; [lia|]. apply lookup_replicate_2. lia. }
    simpl_fields. rewrite Hat. run_monad. split.
    + intros _ Hp. destruct (vector_at_in_range _ _ Hp) as [token Htoken].
      exists token. split; [done|]. apply vector_at_Ok. split; [lia|done].
    + intros [?|Hp]; [done|]. apply vector_at_out_of_range. lia.
  - rewrite vector_at_out_of_range by (rewrite length_replicate; lia).
    run_monad. split; [by intros ?|done].
Qed.

(** X17.  Every reachable request is well formed: it holds exactly
    [beamWidth >= 1] token sequences and as many log-prob sequences, every
    beam is at least [promptLen] tokens long, [promptLen] is a non-negative
    [SizeType], the cursor is between 0 and [promptLen], and an assigned
    chunk size is between 0 and the remaining length. *)
Theorem reachable_well_formed r :
  reachable r ->
  1 <= beamWidth (mSamplingConfig r) /\
  Z.of_nat (length (mTokens r)) = beamWidth (mSamplingConfig r) /\
  Z.of_nat (length (mLogProbs r)) = beamWidth (mSamplingConfig r) /\
  Forall (fun t : VecTokens => mPromptLen r <= Z.of_nat (length t)) (mTokens r) /\
  0 <= mPromptLen r <= Int32.max_value /\
  0 <= mContextCurrentPosition r <= mPromptLen r /\
  (forall size, mContextChunkSize r = Some size ->
     0 <= size <= getContextRemainingLength r).
Proof.
  intros (cfg & origLen & [_ _ Hp Hw Ht Hl Hbeams Hpos Hchunk _])%reachable_Inv.
  repeat split; try done; try lia.
  - by apply Hchunk.
  - unfold getContextRemainingLength, getContextCurrentPosition.
    rewrite sub_exact by (int32_range; lia). by apply Hchunk.
Qed.

End MoreProperties.

(** ** Moving attachments to the device *)

Section LlmRequestProperties.
Context {TTensor BufferManager : Type}.
Variable getMemoryType : TTensor -> MemoryType.
Variable copyFrom : BufferManager -> TTensor -> MemoryType -> TTensor.
Implicit Types (r : Request TTensor) (manager : BufferManager).

(** X18.  [movePromptEmbeddingTableToGpu] returns for every request.  It
    changes nothing when there is no prompt-embedding table or the table is
    on the GPU already; otherwise it replaces the table, and nothing else,
    by the manager's GPU copy of it.  Provided the copy the manager makes is
    on the GPU, the table is then absent or on the GPU, and a second call
    changes nothing. *)
Theorem movePromptEmbeddingTableToGpu_spec manager r :
  let moved := final_state (movePromptEmbeddingTableToGpu getMemoryType copyFrom manager r) in
  returns (movePromptEmbeddingTableToGpu getMemoryType copyFrom manager r) /\
  (mPromptEmbeddingTable r = None -> moved = r) /\
  (forall table, mPromptEmbeddingTable r = Some table ->
     (getMemoryType table = kGPU -> moved = r) /\
     (getMemoryType table <> kGPU ->
        moved = set_mPromptEmbeddingTable (Some (copyFrom manager table kGPU)) r)) /\
  ((forall m t, getMemoryType (copyFrom m t kGPU) = kGPU) ->
     (forall table, mPromptEmbeddingTable moved = Some table ->
        getMemoryType table = kGPU) /\
     movePromptEmbeddingTableToGpu getMemoryType copyFrom manager moved
     = Ret tt moved).
Proof.
  unfold movePromptEmbeddingTableToGpu, returns. run_monad.
  destruct (mPromptEmbeddingTable r) as [table|] eqn:Htable.
  - destruct (decide (getMemoryType table = kGPU)) as [Hgpu|Hcpu]; cbn.
    + split; [by eexists _, _|]. split; [done|]. split.
      * intros ? [= <-]. by split.
      * intros Hcopy. rewrite Htable. split; [by intros ? [= <-]|].
        by destruct (decide (getMemoryType table = kGPU)).
    + split; [by eexists _, _|]. split; [done|]. split.
      * intros ? [= <-]. by split.
      * intros Hcopy. simpl_fields. cbn. split; [intros ? [= <-]; apply Hcopy|].
        by destruct (decide (getMemoryType (copyFrom manager table kGPU) = kGPU));
          [|rewrite Hcopy in *].
  - cbn. split; [by eexists _, _|]. split; [done|]. split; [done|].
    intros _. by rewrite Htable.
Qed.

(** X19.  [moveLoraWeightsToGpu] returns for every request.  It changes
    nothing when there are no LoRA weights or they are on the GPU already;
    otherwise it replaces the weights, and nothing else, by the manager's
    GPU copy of them.  Provided the copy the manager makes is on the GPU,
    the weights are then absent or on the GPU, and a second call changes
    nothing. *)
Theorem moveLoraWeightsToGpu_spec manager r :
  let moved := final_state (moveLoraWeightsToGpu getMemoryType copyFrom manager r) in
  returns (moveLoraWeightsToGpu getMemoryType copyFrom manager r) /\
  (mLoraWeights r = None -> moved = r) /\
  (forall weights, mLoraWeights r = Some weights ->
     (getMemoryType weights = kGPU -> moved = r) /\
     (getMemoryType weights <> kGPU ->
        moved = set_mLoraWeights (Some (copyFrom manager weights kGPU)) r)) /\
  ((forall m t, getMemoryType (copyFrom m t kGPU) = kGPU) ->
     (forall weights, mLoraWeights moved = Some weights ->
        getMemoryType weights = kGPU) /\
     moveLoraWeightsToGpu getMemoryType copyFrom manager moved = Ret tt moved).
Proof.
  unfold moveLoraWeightsToGpu, returns. run_monad.
  destruct (mLoraWeights r) as [weights|] eqn:Hweights.
  - destruct (decide (getMemoryType weights = kGPU)) as [Hgpu|Hcpu]; cbn.
    + split; [by eexists _, _|]. split; [done|]. split.
      * intros ? [= <-]. by split.
      * intros Hcopy. rewrite Hweights. split; [by intros ? [= <-]|].
        by destruct (decide (getMemoryType weights = kGPU)).
    + split; [by eexists _, _|]. split; [done|]. split.
      * intros ? [= <-]. by split.
      * intros Hcopy. simpl_fields. cbn. split; [intros ? [= <-]; apply Hcopy|].
        by destruct (decide (getMemoryType (copyFrom manager weights kGPU) = kGPU));
          [|rewrite Hcopy in *].
  - cbn. split; [by eexists _, _|]. split; [done|]. split; [done|].
    intros _. by rewrite Hweights.
Qed.

End LlmRequestProperties.

(** ** The further properties at concrete requests *)

Lemma fresh_reachable prompt width logProbs :
  1 <= width -> (length prompt <= 1000)%nat ->
  reachable (request_of prompt width logProbs).
Proof.
  intros Hw Hl.
  exists tt, (args_of prompt width logProbs), (request_of prompt width logProbs), [].
  split; [by apply args_of_valid|].
  split; [apply request_of_constructed; lia|done].
Qed.

Lemma four_beams_reachable : reachable four_beams.
Proof.
  eapply reachable_run; [|exact four_beams_reached].
  apply fresh_reachable; cbn; lia.
Qed.

Lemma generating_reachable : reachable generating.
Proof.
  eapply reachable_run; [|exact generating_reached].
  apply fresh_reachable; cbn; lia.
Qed.

Lemma addNewTokens_spec_witness :
  addNewTokens [9; 10; 11; 12] (request_of [7; 8] 4 true)
  = Ret tt (set_mTokens [[7; 8; 9]; [7; 8; 10]; [7; 8; 11]; [7; 8; 12]]
              (request_of [7; 8] 4 true)) /\
  exists r', addNewTokens [9; 10; 11; 12] (request_of [7; 8] 4 true) = Ret tt r' /\
    length (mTokens r') = 4%nat /\
    mTokens r' !! 2%nat = Some [7; 8; 11] /\
    mPromptLen r' = 2 /\
    mState r' = REQUEST_STATE_CONTEXT_INIT.
Proof.
  destruct (addNewTokens_spec (request_of [7; 8] 4 true) [9; 10; 11; 12] eq_refl)
    as (Hret & _ & Hread).
  split; [exact (Hret eq_refl)|].
  destruct (Hread eq_refl) as (r' & Hcall & Hlen & Hbeam & Hframe).
  exists r'. split; [exact Hcall|]. split; [exact Hlen|].
  split; [exact (Hbeam 2%nat [7; 8] 11 eq_refl eq_refl)|].
  split; [apply (Hframe member_mPromptLen); other_member|].
  apply (Hframe member_mState); other_member.
Defined.

Lemma setGeneratedTokens_spec_witness :
  setGeneratedTokens [[1]; [2]; [3]; [4]] four_beams
  = Ret tt (set_mTokens [[7; 8; 1]; [7; 8; 2]; [7; 8; 3]; [7; 8; 4]] four_beams) /\
  exists r1 r2,
    setGeneratedTokens [[1]; [2]; [3]; [4]] four_beams = Ret tt r1 /\
    setGeneratedTokens [[5]; [6]; [7]; [8]] r1 = Ret tt r2 /\
    mTokens four_beams !! 2%nat = Some [7; 8; 11; 13] /\
    mTokens r1 !! 2%nat = Some [7; 8; 3] /\
    mTokens r2 !! 2%nat = Some [7; 8; 7] /\
    length (mTokens r2) = 4%nat /\
    mPromptLen r2 = 2.
Proof.
  assert (0 <= mPromptLen four_beams) as Hprompt by (vm_compute; discriminate).
  assert (Forall (fun t : VecTokens => mPromptLen four_beams <= Z.of_nat (length t))
            (mTokens four_beams)) as Hlong
    by (repeat constructor; vm_compute; discriminate).
  destruct (setGeneratedTokens_spec four_beams
              [[1]; [2]; [3]; [4]] [[5]; [6]; [7]; [8]] eq_refl Hprompt Hlong)
    as (Hret & _ & Hread).
  split; [exact (proj1 (Hret eq_refl))|].
  destruct (Hread eq_refl eq_refl)
    as (r1 & r2 & Hfirst & Hsecond & _ & Hlen & Hbeams1 & Hbeams2 & _ & Hframe).
  exists r1, r2. split; [exact Hfirst|]. split; [exact Hsecond|].
  split; [reflexivity|].
  split; [exact (Hbeams1 2%nat [7; 8; 11; 13] [3] eq_refl eq_refl)|].
  split; [exact (Hbeams2 2%nat [7; 8; 11; 13] [7] eq_refl eq_refl)|].
  split; [exact Hlen|].
  apply (Hframe member_mPromptLen); other_member.
Defined.

Lemma getMaxBeamNumTokens_spec_witness :
  exists m, getMaxBeamNumTokens four_beams = Ok m /\
    0 <= m /\
    (forall beam n, getNumTokens beam four_beams = Ok n -> n <= m) /\
    (m = 0 \/ exists beam, getNumTokens beam four_beams = Ok m).
Proof. apply (getMaxBeamNumTokens_spec four_beams). reflexivity. Defined.

Lemma pause_leaves_prompt_only_witness :
  getMaxNumGeneratedTokens (final_state (pause 0 four_beams)) = Ok 0.
Proof.
  refine (proj2 (proj2 (pause_leaves_prompt_only four_beams _ 0
                          four_beams_reachable _))).
  vm_compute. reflexivity.
Defined.

Lemma pause_keeps_prompt_plus_budget_witness :
  Int32.add (mPromptLen (final_state (pause 5 generating)))
    (mMaxNewTokens (final_state (pause 5 generating)))
  = Int32.add (mPromptLen generating) (mMaxNewTokens generating).
Proof.
  refine (pause_keeps_prompt_plus_budget generating _ 5 generating_reachable _).
  vm_compute. reflexivity.
Defined.

Lemma pause_twice_witness :
  pause 5 (final_state (pause 5 generating))
  = Ret tt (set_mLogProbs [[]] (final_state (pause 5 generating))) /\
  exists r2, pause 5 (final_state (pause 5 generating)) = Ret tt r2 /\
    mLogProbs r2 = [[]] /\
    mTokens r2 = mTokens (final_state (pause 5 generating)) /\
    mPromptLen r2 = mPromptLen (final_state (pause 5 generating)) /\
    mMaxNewTokens r2 = mMaxNewTokens (final_state (pause 5 generating)) /\
    mState r2 = REQUEST_STATE_CONTEXT_INIT.
Proof.
  assert (pause 5 generating = Ret tt (final_state (pause 5 generating)))
    as Hfirst by (vm_compute; reflexivity).
  destruct (pause_twice generating _ 5 generating_reachable Hfirst)
    as (Hagain & r2 & Hcall & Hlog & Hframe).
  split; [exact Hagain|].
  exists r2. split; [exact Hcall|]. split; [exact Hlog|].
  split; [apply (Hframe member_mTokens); other_member|].
  split; [apply (Hframe member_mPromptLen); other_member|].
  split; [apply (Hframe member_mMaxNewTokens); other_member|].
  apply (Hframe member_mState); other_member.
Defined.

Lemma pause_then_setLogProbs_witness :
  exists r1 r2 stored,
    pause 100 regenerated_65 = Ret tt r1 /\
    setLogProbs [2%float] 0 r1 = Ret tt r2 /\
    mLogProbs r2 = [stored] /\
    stored = replicate 5 1%float ++ replicate 10 0%float ++ [2%float].
Proof.
  destruct (pause_then_setLogProbs regenerated_65 100 (replicate 65 7)
              (replicate 15 1%float) [2%float] eq_refl eq_refl eq_refl eq_refl
              ltac:(vm_compute; discriminate) ltac:(vm_compute; discriminate)
              ltac:(vm_compute; discriminate))
    as (r1 & r2 & stored & Hpause & Hset & Hstored & Heq & _).
  exists r1, r2, stored. repeat split; assumption.
Defined.

Lemma chunking_any_sizes_witness :
  exists r', run (chunk_steps [1; 5]) (request_of [7; 8] 1 false) = Some r' /\
    mContextCurrentPosition r' = 2 /\
    mPromptLen r' = 2 /\
    mState r' = REQUEST_STATE_CONTEXT_INIT /\
    mTokens r' = [[7; 8]] /\
    ([1; 5] <> [] -> mContextChunkSize r' = Some 0).
Proof.
  apply (chunking_any_sizes [1; 5] (request_of [7; 8] 1 false)).
  - apply fresh_reachable; cbn; lia.
  - reflexivity.
  - repeat constructor; lia.
Defined.

Lemma full_context_step_once_witness :
  let r := request_of [7; 8] 1 false in
  let r1 := set_mContextCurrentPosition 2 r in
  moveToNextContextChunk r = Ret tt r1 /\
  getContextRemainingLength r1 = 0 /\
  isLastContextChunk r1 = Ok true /\
  (mPromptLen r <> 0 ->
     moveToNextContextChunk r1
     = Throw (TllmException "Full context out of bounds.") r1) /\
  (mPromptLen r = 0 -> moveToNextContextChunk r1 = Ret tt r1).
Proof.
  apply (full_context_step_once (request_of [7; 8] 1 false)); reflexivity.
Defined.

Lemma chunk_size_round_trip_witness :
  exists r1 assigned,
    setContextChunkSize 5 (request_of [7; 8] 1 false) = Ret tt r1 /\
    getContextChunkSize r1 = Ok assigned /\
    0 <= assigned <= 5 /\
    assigned <= getContextRemainingLength (request_of [7; 8] 1 false) /\
    isFullContextRequest r1 = false /\
    isLastContextChunk r1 = Ok true /\
    isFirstContextChunk r1 = true.
Proof.
  apply (chunk_size_round_trip (request_of [7; 8] 1 false) 5).
  - apply fresh_reachable; cbn; lia.
  - reflexivity.
  - lia.
Defined.

Lemma constructed_tokens_read_back_witness :
  (0 <= 3 < 4 -> 0 <= 1 < 2 ->
     exists token, [7; 8] !! 1%nat = Some token /\
       getToken 3 1 (request_of [7; 8] 4 true) = Ok token) /\
  (~ 0 <= 3 < 4 \/ ~ 0 <= 1 < 2 ->
     getToken 3 1 (request_of [7; 8] 4 true) = Err out_of_range).
Proof.
  apply (constructed_tokens_read_back tt (args_of [7; 8] 4 true)
           (request_of [7; 8] 4 true) 3 1).
  apply request_of_constructed. lia.
Defined.

Lemma reachable_well_formed_witness :
  1 <= beamWidth (mSamplingConfig chunked) /\
  Z.of_nat (length (mTokens chunked)) = beamWidth (mSamplingConfig chunked) /\
  Z.of_nat (length (mLogProbs chunked)) = beamWidth (mSamplingConfig chunked) /\
  Forall (fun t : VecTokens => mPromptLen chunked <= Z.of_nat (length t))
    (mTokens chunked) /\
  0 <= mPromptLen chunked <= Int32.max_value /\
  0 <= mContextCurrentPosition chunked <= mPromptLen chunked /\
  (forall size, mContextChunkSize chunked = Some size ->
     0 <= size <= getContextRemainingLength chunked).
Proof. apply (reachable_well_formed chunked chunked_reachable). Defined.
